(* ===== verification/_CoqProject ===== *)
-Q . S2P
Prelude.v
Js.v
JsNumber.v
JsString.v
JsFormat.v
JsDate.v
Storage.v
Async.v
System.v
Api.v
Auth.v
AuthPages.v
Controller.v
Ingest.v
Dashboard.v
Lists.v
Forms.v
App.v
