(* ===== verification/Prelude.v ===== *)
(** * ExpenseTracker client: a verification development

    A shallow embedding of the Next.js client of ExpenseTracker
    ([src/frontend/src]), with the theorems that state what its handlers
    do, on every branch, and which invariants they keep.

    ** The program
    The client is a set of React pages over one context provider:
    - [lib/api.ts], the API Gateway Client: every call reads the token
      from [localStorage], sends one [fetch] to ["/api" + endpoint] and
      turns the response into a value or a thrown [Error];
    - [context/AuthContext.tsx], the Session Controller: the token and
      the user's e-mail, kept in React state and in [localStorage],
      restored on mount, written by [login], cleared by [logout] after a
      revocation request;
    - the pages: [login] and [register] (forms that call the API then
      [login]), [ingest] (free text to proposals, accept), the dashboard
      [page.tsx] (accounts and recent transactions loaded together),
      [accounts], [categories] (list and delete), [transactions]
      (paginated list) and the three add forms.
    Pages interact only through [localStorage] (the token read by every
    API call) and the provider's state; handlers are [async] functions
    that run to their first [await fetch] and continue when the response
    arrives, interleaved with other events.  The server is not part of
    the client: what it answers is a parameter of every theorem, and a
    date the form posts reaches the list only through it.

    ** The files
    - [Prelude]: tactics, hint databases [et] and [et_rw], list lemmas
      ([filter], permutations, [mapM]), the [HasId] class and
      [remove_id], the [prev.filter(x => x.id !== id)] idiom of three
      pages.
    - [Js]: the JavaScript values the code relies on: [jsstr] (a value
      that may be [undefined] or [null]), truthiness, [||], [String()],
      [String.prototype.trim] on code units below 256, JSON values, and
      [render], the outcome of a React render (nothing, a throw, or
      elements).
    - [JsNumber]: [Number(s)] on strings (ECMAScript's StringToNumber):
      the literal grammar, and the double nearest to a decimal literal
      computed with the Standard Library's IEEE rounding ([SpecFloat]).
    - [JsString]: JavaScript strings as UTF-16 code units, [trim] and
      [Number] on them (Unicode white space included), and the proof
      that on the models' strings, code units below 256, they are the
      functions of [Js] and [JsNumber].
    - [JsFormat]: [Number.prototype.toFixed] below [10^21], exactly as
      ECMAScript defines it on the double's binary value, used for every
      amount shown; [toLocaleString(undefined, {minimumFractionDigits:
      2})] of ECMA-402 (at most three fraction digits, half-expand
      rounding, grouping), the locale's data a record ([en_US] given).
    - [JsDate]: dates.  The Date Time String Format parser of
      [new Date(s)] (date-only forms in UTC, date-time forms without an
      offset in local time, [NaN] on an illegal field, and the engine's
      own reading of a text outside the format or of a day its month
      does not have), the proleptic Gregorian calendar and its inverse
      [civil_from_days], TimeClip, [toISOString], [split('T')[0]], and
      date-fns' [format] with the two patterns of the pages, throwing on
      an invalid date.  [engine] is the browser's environment: its time
      zone, its own date parser and its number locale; every render that
      shows a date or a total takes it as a parameter.
    - [Storage]: [localStorage] behind the typeclasses [WebStorage] and
      [WebStorageLaws]; the client's theorems are proved against the laws,
      and [gmap string string] is the instance the examples run on.
    - [Async]: the Fetch API (request, response, network failure) and
      [task S], an async handler over the state [S]: updates, reads, an
      awaited [fetch] (or [Promise.all] over two) with its continuation,
      and calls not awaited.  [run] executes a task up to its awaits and
      returns the continuations left pending; [all_requests] and
      [preserves] state a property of every request and every update of
      a task in all its continuations, whatever the responses.  Lenses
      ([lift]) run a component's task inside a larger state.
    - [System]: a page in a browser tab as a transition system: the
      user starts the handlers the view enables, the continuations
      waiting for responses resume in any order with any answer (or
      never), and the tab reloads; the log of the requests sent.  Its
      induction principles lift [preserves] and [all_requests] of the
      handlers to every reachable state, also for requests whose property
      rests on an invariant of the state they are built from.
    - [Api]: [ApiClient] of [api.ts]: [getHeaders], [request_of]
      (URL, method, headers, body), [interpret] (the response handling,
      errors and 204 included), [api_request] and the four verbs.
    - [Auth]: [AuthProvider]: [mount_effect], [login], [logout]
      ([logout_request] then [teardown]), [reload], the context value
      ([provider_value]) and [useAuth]; the browser state [browser St]
      (storage, provider state, route).
    - [AuthPages]: [handleSubmit] of the login and register pages, their
      render ([login_view], [register_view]), and the two forms in a tab.
    - [Controller]: the Session Controller machine of the spec (§4.3:
      ANONYMOUS, AUTHENTICATING, AUTHENTICATED, with the stored session
      and the error shown) as a step relation, the abstraction [ctl_of]
      of a form page and its browser, and the refinement of the machine
      by the forms, up to two deviations stated as a relation of their
      own.
    - [Ingest]: [IngestPage]: [fetchProposals], [handleIngest],
      [handleAccept], the event wiring of the view ([ingest_handler]),
      its labels and its cards (amount, and [createdAt] formatted with
      ['MMM d, h:mm a']).
    - [Dashboard]: the two effects of [page.tsx], [fetchData] over
      [Promise.all], [totalBalance] as a left fold of IEEE doubles
      ([PrimFloat]), the render ([dashboard_view]) with the total
      written by [toLocaleString] and the recent-activity panel (dates
      with ['MMM d, h:mm a'], amounts with [toFixed(2)]);
      [fetchData_seq], the sequential reference [fetchData] is proved
      equivalent to.
    - [Lists]: the accounts and categories pages, as two instances of a
      list page parameterised by its collection, and the transactions
      page with its pagination; the three renders (balances with
      [toLocaleString], dates with ['MMM d']); the transactions page in
      a tab (its mount, Load More, responses in any order), and the
      accounts and categories pages in a tab (mount, delete buttons).
    - [Forms]: the three add forms (their inputs with what the browser
      lets through: [required], [maxLength], number inputs, a date input
      holding [""] or a valid date string with a year of four or more
      digits, the options of a [select]; the transaction form's date
      from the clock, [new Date().toISOString().split('T')[0]]; its
      mount fetch and default selection; the request bodies with
      [Number()] and [new Date(d).toISOString()]; one [handleSubmit]
      shape for the three; their renders: back link, title, fields,
      options, and the submit button disabled with a spinner while
      [loading]), the add-account and add-category forms in a tab, and
      the bottom navigation.
    - [App]: [RootLayout] and the App Router: the page mounted under the
      one [AuthProvider] ([page_state], [mount_page], at the clock's time
      value), the mount that follows a change of path while the provider
      keeps its state ([app_navigate]), the context every page's
      [useAuth] reads ([page_context]), and the layout's render
      ([root_layout]: the page's render, then [BottomNav]).
    A page's state is a pair [browser St * page]; a handler is a
    [task] over it, following the source line by line: each [setState]
    is an [Upd], each [await] a [Fetch] whose continuation holds the
    [try], [catch] and [finally] blocks.  Integers are [Z] (the ids and
    page numbers are small JavaScript integers, time values are below
    8.64e15 in absolute value); amounts are [float].

    ** The theorems
    - Api: the headers of every call (a Bearer header exactly when a
      non-empty token is stored when the call is made).
    - Auth: [logout] always ends logged out once the revocation request
      settles, and changes nothing before; a login response without a
      token stores the string ["undefined"].
    - AuthPages: the two [handleSubmit]s on success and failure; in
      every reachable state of a tab on either form, the provider's
      token agrees with [localStorage], and [loading] (the
      AUTHENTICATING state) is set exactly when one authentication
      request is in flight, never two; a failed login leaves a
      previous session authenticated (the spec says ANONYMOUS).
    - Controller: the forms refine the spec's Session Controller: a
      fresh tab starts in the machine's boot state, and every step of a
      reachable tab is a transition of the machine, a stutter, or one of
      two deviations (an unusable token stored by [login]; a failed
      login that keeps the session).
    - Ingest: each handler's behaviour; in every reachable state of a
      tab on the page the shown list holds PENDING proposals only, and
      the session is never touched, a 401 included; in any order of
      accept responses the list loses exactly the accepted proposals
      (up to permutation of the responses, with a [Proper] instance);
      every request ever sent goes to the endpoints the page uses; a
      stale refresh can show an accepted proposal again.
    - Dashboard and Lists: [fetchData], and its equivalence with the
      sequential reference; what the dashboard shows after loading (the
      sum, the rows, empty after a failure, a throw on a non-array); the
      pagination of transactions (pages loaded in order render a row
      for every transaction, in order, with the right footer); in a tab,
      at most one page request is ever in flight, but a failed page is
      skipped for good by the next Load More; on the accounts and
      categories pages a list request waits alone while the page is
      empty, so a delete never races it; one transaction whose date
      [new Date] does not read makes the whole transactions page, or
      the whole dashboard, throw.
    - Forms: a user without categories can never submit the
      transaction form; in every reachable state of the add-account form
      the type is one of the [select]'s options and the last digits have
      at most four characters, as has every [last4] posted; on the
      add-account and add-category forms at most one post waits, and
      while it waits the button is rendered disabled; the transaction
      form's date starts as the UTC day of the clock, not the user's;
      the body posts a date of a four-digit year as its midnight UTC in
      every engine, and a longer year as the engine's own reading; and,
      from the form to the list, the day posted is listed as the day
      before in every zone west of UTC.
    - App: a login from the login page crosses the navigation to the
      dashboard with its session; without a session only the dashboard
      guards itself: the ingest page mounts and requests the proposals
      without a token.
    The runtime files also prove the facts the pages' theorems use:
    [toFixed] writes at least one digit, a point and exactly [f]
    digits; [trim] removes exactly the white space at both ends of a
    UTF-16 string, and on the models' strings [trim] and [Number] are
    ECMAScript's; [toLocaleString] in [en-US] is [toFixed(3)] without a
    trailing zero, grouped; [civil_from_days] inverts [make_day] (checked
    by computation on one 400-year cycle of 146097 days, [vm_compute],
    and carried to every year by the cycle); [new Date] reads back what
    [toISOString] writes; date-fns shows a midnight UTC as the day
    before west of UTC.
    No definition uses fuel: [run] is structural on the task, the
    pagination model [load_from] on the list of pages, the parsers on
    the string, [civil_from_days] is closed arithmetic; [System]'s
    executions are finite derivations of [reachable].

    ** Not modelled
    The root layout's metadata, viewport and font (static); class
    names and icons beyond [getIcon]; [toFixed] above [10^21] (it needs
    [Number::toString]); the characters of user text beyond U+00FF in
    the pages (the models' strings are 8-bit; [JsString] shows what
    [trim] and [Number] do on the rest); the syntax check of
    [type="email"]; the [step="0.01"] of the number inputs, whose step
    base is the [value] attribute React sets when the input loses
    focus, so every submission the browser may allow is let through;
    the render between an answer and the next event: an input handler
    reads the form state as updated, while React may run it with the
    state of the previous render ([setFormData({...formData, x})] just
    after [fetchOptions] answered could drop the preselected ids); and
    several tabs sharing one [localStorage].  In [System] a page stays
    mounted after a navigation ([App] models the mount): the model lets
    more events happen, so its invariants are stronger than needed.
    The timing of the network is not a parameter: [System] lets any
    waiting continuation resume at any step, with any answer. *)

From stdpp Require Export base list strings gmap.
From Stdlib Require Export ZArith.

Declare Scope et_scope.
Delimit Scope et_scope with et.

Create HintDb et discriminated.
Create Rewrite HintDb et_rw.

(** ** Tactics shared by the development *)

(** [inv_clear H] inverts [H], substitutes and clears it. *)
Ltac inv_clear H := inversion H; subst; clear H.

(** [bool_cases] splits every boolean test of the goal, turning the
    tests of the standard decision procedures into propositions. *)
Ltac bool_cases :=
  repeat match goal with
  | |- context [if ?b then _ else _] => destruct b eqn:?
  | H : context [if ?b then _ else _] |- _ => destruct b eqn:?
  end.

(** ** Lists filtered by a boolean predicate (JavaScript's [Array.filter]) *)

Section Filter.
Context {A : Type}.
Implicit Types (f g : A -> bool) (l : list A).

Lemma filter_filter_and f g l :
  List.filter f (List.filter g l) = List.filter (fun x => g x && f x) l.
Proof.
  induction l as [|x l IH]; simpl; [done|].
  destruct (g x); simpl; [|exact IH].
  destruct (f x); simpl; rewrite IH; reflexivity.
Qed.

Lemma filter_filter_comm f g l :
  List.filter f (List.filter g l) = List.filter g (List.filter f l).
Proof.
  rewrite !filter_filter_and. apply List.filter_ext.
  intros x. apply andb_comm.
Qed.

Lemma filter_idem f l : List.filter f (List.filter f l) = List.filter f l.
Proof.
  rewrite filter_filter_and. apply List.filter_ext.
  intros x. apply andb_diag.
Qed.

Lemma filter_id_all f l :
  (forall x, In x l -> f x = true) -> List.filter f l = l.
Proof.
  intros H. apply List.forallb_filter_id, List.forallb_forall. exact H.
Qed.

Lemma filter_perm f l l' :
  Permutation l l' -> Permutation (List.filter f l) (List.filter f l').
Proof.
  induction 1 as [|x l l' _ IH|x y l|l l' l'' _ IH1 _ IH2]; simpl.
  - constructor.
  - destruct (f x); [constructor|]; exact IH.
  - destruct (f x), (f y); try constructor; reflexivity.
  - etrans; [exact IH1|exact IH2].
Qed.

(** A [map] whose function fails on one element fails: the element
    that throws makes the whole [map] throw. *)
Lemma mapM_elem_None {X Y} (f : X -> option Y) (x : X) (l : list X) : x ∈ l -> f x = None -> mapM f l = None.
Proof.
  intros Hin Hx. induction l as [|y l IH]; [by apply elem_of_nil in Hin|]. cbn.
  apply elem_of_cons in Hin as [->|Hin]; [by rewrite Hx|].
  destruct (f y); cbn; [by rewrite IH|done].
Qed.

Lemma In_filter_iff f x l : In x (List.filter f l) <-> In x l /\ f x = true.
Proof. apply List.filter_In. Qed.
End Filter.

#[export] Hint Rewrite @filter_idem : et_rw.
#[export] Hint Resolve filter_id_all : et.

(** ** Records identified by a numeric [id]

    Proposals, accounts and categories all carry a server-assigned
    integer [id]; the pages drop one from a list with
    [prev.filter(x => x.id !== id)]. *)

Class HasId (A : Type) := id_of : A -> Z.

Definition remove_id {A} `{HasId A} (id : Z) (l : list A) : list A :=
  List.filter (fun x => negb (Z.eqb (id_of x) id)) l.

Definition ids_of {A} `{HasId A} (l : list A) : list Z := map id_of l.

Section RemoveId.
Context {A : Type} `{HasId A}.
Implicit Types (l : list A).

Lemma remove_id_gone id l : id ∉ ids_of (remove_id id l).
Proof.
  unfold ids_of, remove_id. rewrite list_elem_of_In, in_map_iff.
  intros (x & Hx & Hin). apply List.filter_In in Hin as [_ Hne].
  rewrite Hx, Z.eqb_refl in Hne. done.
Qed.

Lemma remove_id_other id id' l : id' <> id -> (id' ∈ ids_of (remove_id id l) <-> id' ∈ ids_of l).
Proof.
  intros Hne. unfold ids_of, remove_id. rewrite !list_elem_of_In, !in_map_iff.
  split; intros (x & Hx & Hin).
  - apply List.filter_In in Hin as [Hin _]. eauto.
  - exists x. split; [done|]. apply List.filter_In. split; [done|].
    subst. apply negb_true_iff, Z.eqb_neq. done.
Qed.

Lemma remove_id_subset id id' l : id' ∈ ids_of (remove_id id l) -> id' ∈ ids_of l.
Proof.
  unfold ids_of, remove_id. rewrite !list_elem_of_In, !in_map_iff.
  intros (x & Hx & Hin). apply List.filter_In in Hin as [Hin _]. eauto.
Qed.
End RemoveId.

#[export] Hint Resolve remove_id_gone remove_id_subset : et.
