(* ===== verification/Js.v ===== *)
(** * JavaScript values used by the client

    The few JavaScript semantics the client's code relies on:
    truthiness of strings (`if (token)`, `!!token`, `x || d`), the
    conversion `String(v)` performed by `localStorage.setItem`, and
    `String.prototype.trim` used to validate the ingestion text. *)

From S2P Require Import Prelude.
From stdpp Require Import pretty.

Local Open Scope string_scope.

(** ** Values of a string-typed field *)

(** A field declared [string] in TypeScript but read from untrusted JSON
    can be a string, [null], or absent ([undefined]). *)
Inductive jsstr : Type :=
| JSUndef
| JSNull
| JSStr (s : string).

#[export] Instance jsstr_eq_dec : EqDecision jsstr.
Proof. solve_decision. Defined.

(** JavaScript truthiness of a string value: [undefined], [null] and the
    empty string are falsy. *)
Definition truthy (v : jsstr) : bool :=
  match v with
  | JSStr s => negb (String.eqb s "")
  | _ => false
  end.

(** The result of [localStorage.getItem]: a string, or [null]. *)
Definition of_item (o : option string) : jsstr :=
  match o with
  | Some s => JSStr s
  | None => JSNull
  end.

(** [String(v)], the conversion [Storage.setItem] applies to its value. *)
Definition to_js_string (v : jsstr) : string :=
  match v with
  | JSUndef => "undefined"
  | JSNull => "null"
  | JSStr s => s
  end.

(** [v || d] for a string [v] and a string default [d]. *)
Definition js_or (v : jsstr) (d : string) : string :=
  match v with
  | JSStr s => if truthy v then s else d
  | _ => d
  end.

(** Decimal rendering of an integer, as a template literal `${n}` does. *)
Definition js_int_to_string (n : Z) : string := pretty n.

(** ** [String.prototype.trim] *)

(** A character of a [string] is a code unit below 256 (U+0000 to
    U+00FF).  The white space and line terminators of ECMAScript among
    them: TAB, LF, VT, FF, CR, SPACE and NO-BREAK SPACE (U+00A0); NEXT
    LINE (U+0085) is not one. *)
Definition is_js_space (c : Ascii.ascii) : bool :=
  let n := Ascii.nat_of_ascii c in
  (Nat.leb 9 n && Nat.leb n 13) || Nat.eqb n 32 || Nat.eqb n 160.

Fixpoint trim_start (s : string) : string :=
  match s with
  | EmptyString => EmptyString
  | String c r => if is_js_space c then trim_start r else s
  end.

Fixpoint trim_end (s : string) : string :=
  match s with
  | EmptyString => EmptyString
  | String c r =>
      let r' := trim_end r in
      if is_js_space c && String.eqb r' "" then EmptyString else String c r'
  end.

Definition js_trim (s : string) : string := trim_end (trim_start s).

(** Every character of [s] is JavaScript white space. *)
Fixpoint all_space (s : string) : bool :=
  match s with
  | EmptyString => true
  | String c r => is_js_space c && all_space r
  end.

(** ** Lemmas *)

Lemma truthy_JSStr s : truthy (JSStr s) = true <-> s <> "".
Proof.
  simpl. rewrite negb_true_iff, String.eqb_neq. done.
Qed.

Lemma js_or_truthy s d : s <> "" -> js_or (JSStr s) d = s.
Proof. intros H. simpl. apply truthy_JSStr in H. simpl in H. by rewrite H. Qed.

Lemma js_or_falsy v d : truthy v = false -> js_or v d = d.
Proof. destruct v; simpl; try done. intros ->. done. Qed.

Lemma truthy_of_item o :
  truthy (of_item o) = true <-> exists s, o = Some s /\ s <> "".
Proof.
  destruct o as [s|]; simpl.
  - rewrite negb_true_iff, String.eqb_neq. split; [eauto|].
    intros (? & [= <-] & ?). done.
  - split; [done|]. intros (? & ? & ?). done.
Qed.

Lemma trim_end_empty s : trim_end s = "" <-> all_space s = true.
Proof.
  induction s as [|c r IH]; simpl; [done|].
  destruct (is_js_space c) eqn:Hc; simpl.
  - destruct (String.eqb (trim_end r) "") eqn:He; simpl.
    + apply String.eqb_eq in He. split; [intros _; by apply IH|done].
    + apply String.eqb_neq in He. split; [done|]. intros H. by apply IH in H.
  - split; done.
Qed.

Lemma all_space_trim_start s : all_space s = true -> trim_start s = "".
Proof.
  induction s as [|c r IH]; simpl; [done|].
  destruct (is_js_space c); simpl; [exact IH|done].
Qed.

Lemma trim_start_all_space s :
  all_space (trim_start s) = true -> all_space s = true.
Proof.
  induction s as [|c r IH]; simpl; [done|].
  destruct (is_js_space c) eqn:Hc; simpl; [exact IH|].
  rewrite Hc. done.
Qed.

(** [s.trim()] is empty exactly when [s] is made of white space only:
    the guard `if (!rawText.trim()) return;` rejects exactly those. *)
Lemma js_trim_empty s : js_trim s = "" <-> all_space s = true.
Proof.
  unfold js_trim. rewrite trim_end_empty. split.
  - apply trim_start_all_space.
  - intros H. rewrite (all_space_trim_start s H). done.
Qed.

Lemma trim_start_idem s : trim_start (trim_start s) = trim_start s.
Proof.
  induction s as [|c r IH]; simpl; [done|].
  destruct (is_js_space c) eqn:Hc; [exact IH|]. simpl. by rewrite Hc.
Qed.

Lemma trim_start_head s :
  match trim_start s with String c _ => is_js_space c = false | EmptyString => True end.
Proof. induction s as [|c r IH]; simpl; [done|]. by destruct (is_js_space c) eqn:Hc. Qed.

Lemma trim_end_idem s : trim_end (trim_end s) = trim_end s.
Proof.
  induction s as [|c r IH]; simpl; [done|].
  destruct (is_js_space c && String.eqb (trim_end r) "") eqn:E; [done|].
  simpl. by rewrite IH, E.
Qed.

(** [trim_end] keeps the first character of a string that does not
    start with white space. *)
Lemma trim_start_trim_end s :
  match s with String c _ => is_js_space c = false | EmptyString => True end ->
  trim_start (trim_end s) = trim_end s.
Proof. destruct s as [|c r]; simpl; [done|]. intros Hc. rewrite Hc. simpl. by rewrite Hc. Qed.

Lemma js_trim_idem s : js_trim (js_trim s) = js_trim s.
Proof.
  unfold js_trim. rewrite (trim_start_trim_end _ (trim_start_head s)). apply trim_end_idem.
Qed.

#[export] Hint Resolve js_or_truthy js_or_falsy : et.

(** What a page component's render yields: [null], an exception thrown
    while rendering (the page has no error boundary, so the view
    crashes), or the elements it shows. *)
Inductive render (A : Type) := RNull | RThrows | RShows (v : A).
Arguments RNull {A}.
Arguments RThrows {A}.
Arguments RShows {A} v.

(** The elements [o] holds, or the exception its computation threw. *)
Definition render_of {A} (o : option A) : render A :=
  match o with Some v => RShows v | None => RThrows end.

(** ** JSON values sent in request bodies

    Numbers are IEEE doubles, as in JavaScript.  A request body is kept
    as the structured value [JSON.stringify] serialises. *)
From Stdlib Require Import PrimFloat.

#[local] Set Warnings "-register-all".

Inductive json : Type :=
| JNull
| JBool (b : bool)
| JNum (x : float)
| JStr (s : string)
| JArr (xs : list json)
| JObj (fields : list (string * json)).
