(* ===== verification/JsNumber.v ===== *)
(** * [Number(s)]: ECMAScript's conversion of a string to a number

    The add forms send [Number(formData.amount)],
    [Number(formData.balanceEstimate)] and [Number(formData.accountId)];
    this file models [Number] on strings (ECMAScript's StringToNumber):
    - the white space around the literal is removed, as [trim] does
      ([js_trim], on the code units below 256 a [string] holds);
    - an empty string is [0];
    - a non-decimal integer [0x..], [0o..], [0b..] (no sign allowed);
    - a decimal literal: an optional sign, then [Infinity], or digits
      with an optional fraction and an optional exponent;
    - anything else is [NaN].
    The value of a decimal literal is the double nearest to it, ties to
    even, computed by the Standard Library's IEEE rounding of a
    division ([SpecFloat]), exact for literals of any length. *)

From S2P Require Import Prelude Js.
From Stdlib Require Import Ascii PrimFloat SpecFloat FloatOps.
From stdpp Require Import pretty.

Local Open Scope string_scope.

(** ** Rounding *)

(** The double nearest to [(-1)^neg * num / den], for [num, den > 0]. *)
Definition round_ratio (neg : bool) (num den : Z) : float :=
  let '(q, e, l) := SFdiv_core_binary prec emax num 0 den 0 in
  SF2Prim (binary_round_aux prec emax neg q e l).

(** ** Literals *)

(** What a string denotes: [NaN], an infinity, or [(-1)^neg * m * 10^e]. *)
Inductive num_lit := LitNaN | LitInf (neg : bool) | LitDec (neg : bool) (m : Z) (e : Z).

Definition lit_value (l : num_lit) : float :=
  match l with
  | LitNaN => nan
  | LitInf neg => if neg then neg_infinity else infinity
  | LitDec neg m e =>
      if Z.eqb m 0 then (if neg then neg_zero else zero)
      else if (0 <=? e)%Z then round_ratio neg (m * 10 ^ e) 1
      else round_ratio neg m (10 ^ (- e))
  end.

(** The value of a digit in [base] (2, 8, 10 or 16): [0-9], then
    [a-z] or [A-Z] from 10. *)
Definition digit_val (base : Z) (c : Ascii.ascii) : option Z :=
  let n := Z.of_nat (Ascii.nat_of_ascii c) in
  let d :=
    (if (48 <=? n) && (n <=? 57) then Some (n - 48)
     else if (97 <=? n) && (n <=? 122) then Some (n - 87)
     else if (65 <=? n) && (n <=? 90) then Some (n - 55)
     else None)%Z in
  match d with
  | Some v => if (v <? base)%Z then Some v else None
  | None => None
  end%Z.

(** The longest run of digits at the head of [s]: its value added to
    [acc], the number of digits added to [n], and the rest of [s]. *)
Fixpoint read_digits (base : Z) (s : string) (acc : Z) (n : nat) : Z * nat * string :=
  match s with
  | String c r =>
      match digit_val base c with
      | Some d => read_digits base r (acc * base + d)%Z (S n)
      | None => (acc, n, s)
      end
  | EmptyString => (acc, n, EmptyString)
  end.

(** A signed exponent that ends the literal. *)
Definition parse_exponent (s : string) : option Z :=
  let '(neg, r) :=
    match s with
    | String c r =>
        if Ascii.eqb c "+"%char then (false, r) else if Ascii.eqb c "-"%char then (true, r) else (false, s)
    | EmptyString => (false, s)
    end in
  let '(v, n, rest) := read_digits 10 r 0 0 in
  if Nat.eqb n 0 then None
  else if String.eqb rest "" then Some (if neg then (- v)%Z else v)
  else None.

(** StrUnsignedDecimalLiteral: [Infinity], [ddd], [ddd.], [ddd.ddd] or
    [.ddd], then an optional exponent. *)
Definition parse_unsigned_decimal (neg : bool) (s : string) : num_lit :=
  if String.eqb s "Infinity" then LitInf neg
  else
    let '(ip, ni, r1) := read_digits 10 s 0 0 in
    let '(fp, nf, r2) :=
      match r1 with
      | String c r => if Ascii.eqb c "."%char then read_digits 10 r 0 0 else (0%Z, 0%nat, r1)
      | EmptyString => (0%Z, 0%nat, r1)
      end in
    if Nat.eqb (ni + nf) 0 then LitNaN
    else
      let m := (ip * 10 ^ Z.of_nat nf + fp)%Z in
      match r2 with
      | EmptyString => LitDec neg m (- Z.of_nat nf)
      | String c r =>
          if Ascii.eqb c "e"%char || Ascii.eqb c "E"%char then
            match parse_exponent r with
            | Some x => LitDec neg m (x - Z.of_nat nf)
            | None => LitNaN
            end
          else LitNaN
      end.

(** The base a non-decimal prefix [0x], [0o] or [0b] announces. *)
Definition prefix_base (c : Ascii.ascii) : option Z :=
  if Ascii.eqb c "x"%char || Ascii.eqb c "X"%char then Some 16%Z
  else if Ascii.eqb c "o"%char || Ascii.eqb c "O"%char then Some 8%Z
  else if Ascii.eqb c "b"%char || Ascii.eqb c "B"%char then Some 2%Z
  else None.

(** NonDecimalIntegerLiteral, when [s] starts with one of the prefixes. *)
Definition parse_nondecimal (s : string) : option num_lit :=
  match s with
  | String z (String c r) =>
      if Ascii.eqb z "0"%char then
        match prefix_base c with
        | Some base =>
            let '(v, n, rest) := read_digits base r 0 0 in
            Some (if Nat.eqb n 0 || negb (String.eqb rest "") then LitNaN else LitDec false v 0)
        | None => None
        end
      else None
  | _ => None
  end.

(** StringToNumber, up to the value. *)
Definition string_to_lit (s : string) : num_lit :=
  let t := js_trim s in
  match parse_nondecimal t with
  | Some l => l
  | None =>
      match t with
      | EmptyString => LitDec false 0 0
      | String c r =>
          if Ascii.eqb c "+"%char then parse_unsigned_decimal false r
          else if Ascii.eqb c "-"%char then parse_unsigned_decimal true r
          else parse_unsigned_decimal false t
      end
  end.

(** [Number(s)] for a string [s]. *)
Definition js_Number (s : string) : float := lit_value (string_to_lit s).

(** ** [Number(String(n))] recovers [n] *)

(** Every character of [s] is a decimal digit. *)
Fixpoint all_digits (s : string) : bool :=
  match s with
  | EmptyString => true
  | String c r => match digit_val 10 c with Some _ => all_digits r | None => false end
  end.

(** No character of [s] is white space. *)
Fixpoint no_space (s : string) : bool :=
  match s with
  | EmptyString => true
  | String c r => negb (is_js_space c) && no_space r
  end.

Lemma digit_not_space c d : digit_val 10 c = Some d -> is_js_space c = false.
Proof.
  unfold digit_val, is_js_space. intros Hd.
  repeat match goal with
  | H : context [if ?b then _ else _] |- _ => destruct b eqn:?
  end; simplify_eq.
  all: rewrite ?andb_true_iff, ?Z.leb_le, ?Z.ltb_lt in *.
  all: rewrite ?andb_false_iff, ?Z.leb_gt in *.
  all: rewrite !orb_false_iff, andb_false_iff, !Nat.leb_gt, !Nat.eqb_neq; lia.
Qed.

Lemma all_digits_no_space s : all_digits s = true -> no_space s = true.
Proof.
  induction s as [|c r IH]; simpl; [done|].
  destruct (digit_val 10 c) as [d|] eqn:Hd; [|done].
  intros Hr. rewrite (digit_not_space c d Hd). by apply IH.
Qed.

Lemma trim_end_no_space s : no_space s = true -> trim_end s = s.
Proof.
  induction s as [|c r IH]; simpl; [done|].
  intros [Hc Hr]%andb_prop. apply negb_true_iff in Hc. rewrite (IH Hr), Hc. done.
Qed.

Lemma js_trim_no_space s : no_space s = true -> js_trim s = s.
Proof.
  intros Hs. unfold js_trim. destruct s as [|c r]; [done|].
  simpl in Hs. apply andb_prop in Hs as [Hc Hr]. apply negb_true_iff in Hc.
  simpl. rewrite Hc. apply trim_end_no_space. simpl. by rewrite Hc, Hr.
Qed.

Lemma digit_val_pretty_char d : (d < 10)%N -> digit_val 10 (pretty_N_char d) = Some (Z.of_N d).
Proof.
  intros Hd.
  assert (d = 0 \/ d = 1 \/ d = 2 \/ d = 3 \/ d = 4 \/ d = 5 \/ d = 6 \/ d = 7 \/ d = 8 \/ d = 9)%N
    as Hcases by lia.
  destruct_or! Hcases; subst; reflexivity.
Qed.

(** Reading back the digits [pretty] writes. *)
Lemma read_digits_pretty x s acc n :
  exists k : nat, (x = 0%N \/ (0 < k)%nat) /\
    read_digits 10 (pretty_N_go x s) acc n =
    read_digits 10 s (acc * 10 ^ Z.of_nat k + Z.of_N x)%Z (n + k)%nat.
Proof.
  revert s acc n. induction x as [x IH] using (well_founded_induction N.lt_wf_0). intros s acc n.
  destruct (decide (x = 0%N)) as [->|Hx].
  - exists 0%nat. split; [by left|]. rewrite pretty_N_go_0.
    by rewrite Z.pow_0_r, Z.mul_1_r, Z.add_0_r, Nat.add_0_r.
  - rewrite pretty_N_go_step by lia.
    destruct (IH (x `div` 10)%N ltac:(apply N.div_lt; lia)
                (String (pretty_N_char (x `mod` 10)) s) acc n) as [k [_ Hk]].
    rewrite Hk. simpl. rewrite digit_val_pretty_char by (apply N.mod_lt; lia).
    exists (S k). split; [right; lia|]. rewrite Nat.add_succ_r.
    replace ((acc * 10 ^ Z.of_nat k + Z.of_N (x `div` 10)) * 10 + Z.of_N (x `mod` 10))%Z
      with (acc * 10 ^ Z.of_nat (S k) + Z.of_N x)%Z; [done|].
    rewrite Nat2Z.inj_succ, Z.pow_succ_r by lia. rewrite N2Z.inj_div, N2Z.inj_mod.
    pose proof (Z.div_mod (Z.of_N x) 10 ltac:(lia)). nia.
Qed.

Lemma all_digits_pretty x s : all_digits s = true -> all_digits (pretty_N_go x s) = true.
Proof.
  revert s. induction x as [x IH] using (well_founded_induction N.lt_wf_0). intros s Hs.
  destruct (decide (x = 0%N)) as [->|Hx]; [done|].
  rewrite pretty_N_go_step by lia. apply IH; [apply N.div_lt; lia|].
  simpl. rewrite digit_val_pretty_char by (apply N.mod_lt; lia). exact Hs.
Qed.

Lemma digit_not_prefix c d : digit_val 10 c = Some d -> prefix_base c = None.
Proof.
  intros Hd. unfold prefix_base.
  repeat match goal with
  | |- context [Ascii.eqb c ?x] => destruct (Ascii.eqb c x) eqn:?
  end; rewrite ?orb_true_l, ?orb_true_r; try done.
  all: repeat match goal with H : Ascii.eqb _ _ = true |- _ => apply Ascii.eqb_eq in H; subst end; done.
Qed.

Lemma parse_unsigned_pretty neg p :
  parse_unsigned_decimal neg (pretty_N_go (Npos p) "") = LitDec neg (Zpos p) 0.
Proof.
  assert (Hd : all_digits (pretty_N_go (Npos p) "") = true) by (by apply all_digits_pretty).
  unfold parse_unsigned_decimal.
  destruct (String.eqb _ "Infinity") eqn:Hi.
  { apply String.eqb_eq in Hi. by rewrite Hi in Hd. }
  destruct (read_digits_pretty (Npos p) "" 0 0) as [k [[?|Hk] Hr]]; [done|]. rewrite Hr. simpl.
  destruct k as [|k]; [lia|]. simpl. by rewrite Z.mul_1_r, Z.add_0_r.
Qed.

Lemma pretty_pos p : pretty (Zpos p) = pretty_N_go (Npos p) "".
Proof. reflexivity. Qed.

(** [Number(String(n))] reads back the integer [n] exactly: the string
    a template literal or [n.toString()] writes is parsed as the decimal
    literal [n], whose value is then the double nearest to [n]. *)
Theorem string_to_lit_pretty n :
  string_to_lit (js_int_to_string n) = LitDec (n <? 0)%Z (Z.abs n) 0.
Proof.
  unfold js_int_to_string. destruct n as [|p|p]; [reflexivity| |].
  - rewrite pretty_pos. set (t := pretty_N_go (Npos p) "").
    assert (Hd : all_digits t = true) by (by apply all_digits_pretty).
    unfold string_to_lit. rewrite js_trim_no_space by (by apply all_digits_no_space).
    destruct (read_digits_pretty (Npos p) "" 0 0) as [k [[?|Hk] _]]; [done|].
    destruct t as [|c r] eqn:Ht.
    { exfalso. subst t. destruct (read_digits_pretty (Npos p) "" 0 0) as [k' [[?|?] Hr]]; [done|].
      rewrite Ht in Hr. simpl in Hr. destruct k'; [lia|]. simpl in Hr. congruence. }
    simpl in Hd. destruct (digit_val 10 c) as [dc|] eqn:Hc; [|done].
    assert (Hpm : Ascii.eqb c "+"%char = false /\ Ascii.eqb c "-"%char = false).
    { split; apply Ascii.eqb_neq; intros ->; discriminate. }
    destruct Hpm as [Hp Hm].
    assert (Hnd : parse_nondecimal (String c r) = None).
    { destruct r as [|c2 r2]; [done|]. simpl. destruct (Ascii.eqb c "0"%char); [|done].
      simpl in Hd. destruct (digit_val 10 c2) as [d2|] eqn:Hc2; [|done].
      by rewrite (digit_not_prefix c2 d2 Hc2). }
    rewrite Hnd, Hp, Hm, <- Ht. subst t. apply parse_unsigned_pretty.
  - change (pretty (Zneg p)) with (String "-" (pretty (Zpos p))). rewrite pretty_pos.
    assert (Hd : all_digits (pretty_N_go (Npos p) "") = true) by (by apply all_digits_pretty).
    unfold string_to_lit. rewrite js_trim_no_space by (simpl; by apply all_digits_no_space).
    assert (Hnd : parse_nondecimal (String "-" (pretty_N_go (Npos p) "")) = None)
      by (by destruct (pretty_N_go (Npos p) "") as [|? [|]]).
    rewrite Hnd. simpl. apply parse_unsigned_pretty.
Qed.

Local Set Warnings "-inexact-float".

(** [Number] on the strings the forms can hold: the empty string is
    [0], decimal literals are rounded to the nearest double (ties to
    even), surrounding white space is ignored, and other text is [NaN]. *)
Example js_Number_examples :
  js_Number "" = 0%float /\ js_Number "45.50" = 45.5%float /\ js_Number " 12 " = 12%float /\
  js_Number "0.1" = 0.1%float /\ js_Number "9007199254740993" = 9007199254740992%float /\
  js_Number "1e3" = 1000%float /\ js_Number "0x1A" = 26%float /\
  PrimFloat.is_nan (js_Number "12abc") = true /\ PrimFloat.is_nan (js_Number "-0x10") = true.
Proof. vm_compute. repeat split. Qed.
