(* ===== verification/JsString.v ===== *)
(** * JavaScript strings as UTF-16 code units

    A JavaScript string is a sequence of 16-bit code units.  The pages'
    models hold text as a [string] of 8-bit characters, the code units
    below 256 (U+0000 to U+00FF); this file gives the builtins the
    client applies to user text, [String.prototype.trim] and [Number],
    on every string, and shows that on the strings the models hold they
    are the builtins of [Js] and [JsNumber]:
    - [js_string], the code units as integers in [0, 2^16), with the
      embedding [of_string] of a [string] and its partial inverse
      [to_string];
    - [is_ws16], ECMAScript's WhiteSpace and LineTerminator (Unicode's
      space separators [Zs], TAB, VT, FF, ZWNBSP, LF, CR, LS and PS);
    - [trim16], TrimString with both ends; no white space is a
      surrogate, so trimming code points or code units is the same;
    - [Number16], StringToNumber: the text without its white space must
      be a StrNumericLiteral, which is made of ASCII characters only. *)

From S2P Require Import Prelude Js JsNumber.
From Stdlib Require Import Ascii PrimFloat.

Local Open Scope Z_scope.

(** ** Code units *)

Definition js_string := list Z.

Definition unit_of_char (c : ascii) : Z := Z.of_nat (nat_of_ascii c).

(** The code units of a [string]. *)
Fixpoint of_string (s : string) : js_string :=
  match s with
  | EmptyString => []
  | String c r => unit_of_char c :: of_string r
  end.

(** The [string] of code units below 256, if they all are. *)
Fixpoint to_string (u : js_string) : option string :=
  match u with
  | [] => Some EmptyString
  | x :: r =>
      if (0 <=? x) && (x <? 256) then option_map (String (ascii_of_nat (Z.to_nat x))) (to_string r)
      else None
  end.

(** ** White space *)

(** WhiteSpace (TAB, VT, FF, ZWNBSP U+FEFF and the [Zs] category:
    SPACE, NO-BREAK SPACE, OGHAM SPACE MARK, U+2000 to U+200A, NARROW
    NO-BREAK SPACE, MEDIUM MATHEMATICAL SPACE, IDEOGRAPHIC SPACE) and
    LineTerminator (LF, CR, LINE SEPARATOR, PARAGRAPH SEPARATOR). *)
Definition is_ws16 (u : Z) : bool :=
  existsb (Z.eqb u) [9; 11; 12; 32; 160; 5760; 8239; 8287; 12288; 65279; 10; 13; 8232; 8233]
  || ((8192 <=? u) && (u <=? 8202)).

Fixpoint trim_start16 (u : js_string) : js_string :=
  match u with
  | [] => []
  | x :: r => if is_ws16 x then trim_start16 r else u
  end.

Fixpoint trim_end16 (u : js_string) : js_string :=
  match u with
  | [] => []
  | x :: r =>
      let r' := trim_end16 r in
      if is_ws16 x && bool_decide (r' = []) then [] else x :: r'
  end.

(** [s.trim()]. *)
Definition trim16 (u : js_string) : js_string := trim_end16 (trim_start16 u).

(** [Number(s)]. *)
Definition Number16 (u : js_string) : float :=
  match to_string (trim16 u) with
  | Some s => js_Number s
  | None => nan
  end.

(** ** The code units of a [string] *)

(** A character is white space for [trim] exactly when its code unit is:
    the 256 characters are checked one by one. *)
Lemma unit_of_char_ws c : is_ws16 (unit_of_char c) = is_js_space c.
Proof. destruct c as [[] [] [] [] [] [] [] []]; reflexivity. Qed.

Lemma unit_of_char_bound c : 0 <= unit_of_char c < 256.
Proof. unfold unit_of_char. pose proof (nat_ascii_bounded c). lia. Qed.

Lemma of_string_nil s : bool_decide (of_string s = []) = String.eqb s "".
Proof. destruct s; reflexivity. Qed.

Lemma trim_start16_of_string s : trim_start16 (of_string s) = of_string (trim_start s).
Proof.
  induction s as [|c r IH]; [done|]. cbn [of_string trim_start16 trim_start].
  rewrite unit_of_char_ws. by destruct (is_js_space c).
Qed.

Lemma trim_end16_of_string s : trim_end16 (of_string s) = of_string (trim_end s).
Proof.
  induction s as [|c r IH]; [done|]. cbn [of_string trim_end16 trim_end].
  rewrite IH, unit_of_char_ws, of_string_nil.
  by destruct (is_js_space c && String.eqb (trim_end r) "").
Qed.

Lemma to_string_of_string s : to_string (of_string s) = Some s.
Proof.
  induction s as [|c r IH]; [done|]. cbn [of_string to_string].
  pose proof (unit_of_char_bound c) as Hb.
  replace ((0 <=? unit_of_char c) && (unit_of_char c <? 256)) with true by lia.
  rewrite IH. cbn. unfold unit_of_char. by rewrite Nat2Z.id, ascii_nat_embedding.
Qed.

Lemma of_string_to_string u s : to_string u = Some s -> of_string s = u.
Proof.
  revert s. induction u as [|x r IH]; intros s; cbn.
  - by intros [= <-].
  - destruct ((0 <=? x) && (x <? 256)) eqn:Hx; [|done].
    destruct (to_string r) as [s'|] eqn:Hr; [|done]. intros [= <-]. cbn.
    rewrite (IH s' eq_refl). unfold unit_of_char.
    rewrite nat_ascii_embedding by lia. f_equal. lia.
Qed.

Lemma of_string_app s1 s2 : of_string (s1 ++ s2)%string = of_string s1 ++ of_string s2.
Proof. induction s1 as [|c r IH]; simpl; [done|]. by rewrite IH. Qed.

Lemma of_string_list l : of_string (String.string_of_list_ascii l) = map unit_of_char l.
Proof. induction l as [|c l IH]; simpl; [done|]. by rewrite IH. Qed.

Lemma list_ascii_of_string_app s1 s2 :
  String.list_ascii_of_string (s1 ++ s2)%string =
  String.list_ascii_of_string s1 ++ String.list_ascii_of_string s2.
Proof. induction s1 as [|c r IH]; simpl; [done|]. by rewrite IH. Qed.

Lemma string_of_list_ascii_app l1 l2 :
  String.string_of_list_ascii (l1 ++ l2) =
  (String.string_of_list_ascii l1 ++ String.string_of_list_ascii l2)%string.
Proof. induction l1 as [|c l IH]; simpl; [done|]. by rewrite IH. Qed.

Lemma string_app_assoc s1 s2 s3 : (s1 ++ (s2 ++ s3) = (s1 ++ s2) ++ s3)%string.
Proof. induction s1 as [|c r IH]; [done|]. change (String c (r ++ (s2 ++ s3)) = String c ((r ++ s2) ++ s3))%string. by rewrite IH. Qed.

(** ** [trim16] removes the white space at both ends, and only it *)

Lemma trim_start16_spec u :
  exists a, u = a ++ trim_start16 u /\ Forall (fun x => is_ws16 x = true) a /\
            forall x l, trim_start16 u = x :: l -> is_ws16 x = false.
Proof.
  induction u as [|x r (a & Ha & Hws & Hh)]; [exists []; by repeat constructor|]. cbn.
  destruct (is_ws16 x) eqn:Hx.
  - exists (x :: a). rewrite Ha at 1. by repeat constructor.
  - exists []. split; [done|]. split; [constructor|]. by intros y l [= <- _].
Qed.

Lemma trim_end16_spec u :
  exists b, u = trim_end16 u ++ b /\ Forall (fun x => is_ws16 x = true) b /\
            forall l x, trim_end16 u = l ++ [x] -> is_ws16 x = false.
Proof.
  induction u as [|x r (b & Hb & Hws & Hl)]; [exists []; split; [done|]; split; [constructor|]|].
  - intros l x Hx. by apply app_cons_not_nil in Hx.
  - cbn. destruct (is_ws16 x && bool_decide (trim_end16 r = [])) eqn:E.
    + apply andb_true_iff in E as [Hx He%bool_decide_eq_true]. rewrite He in Hb.
      exists (x :: r). split; [done|]. split; [rewrite Hb; by constructor|].
      intros l y Hy. by apply app_cons_not_nil in Hy.
    + exists b. split; [by rewrite Hb at 1|]. split; [exact Hws|].
      intros l y Hy. destruct (trim_end16 r) as [|z r'] eqn:Hr.
      * rewrite bool_decide_eq_true_2, andb_true_r in E by done.
        destruct l as [|w l]; [by injection Hy as ->|]. injection Hy as _ Hy. by apply app_cons_not_nil in Hy.
      * destruct l as [|w l]; [by destruct r'|]. injection Hy as _ Hy. by apply (Hl l).
Qed.

Lemma trim_end16_head x r y l : trim_end16 (x :: r) = y :: l -> y = x.
Proof. cbn. by case_match; intros [=]. Qed.

(** [s.trim()] on any JavaScript string removes exactly the white
    space at its two ends: the string is the trimmed one between a
    prefix and a suffix of white space, and the trimmed string neither
    starts nor ends with white space, so these are the longest such
    prefix and suffix.  In particular the trimmed string is empty
    exactly when the string is white space only, Unicode's included. *)
Theorem trim16_spec u :
  exists a b, u = a ++ trim16 u ++ b /\
    Forall (fun x => is_ws16 x = true) a /\ Forall (fun x => is_ws16 x = true) b /\
    (forall x l, trim16 u = x :: l -> is_ws16 x = false) /\
    (forall l x, trim16 u = l ++ [x] -> is_ws16 x = false).
Proof.
  destruct (trim_start16_spec u) as (a & Ha & Hwa & Hh).
  destruct (trim_end16_spec (trim_start16 u)) as (b & Hb & Hwb & Hl).
  exists a, b. unfold trim16. split; [rewrite <- Hb; exact Ha|]. do 2 (split; [done|]). split; [|exact Hl].
  intros x l Hx. destruct (trim_start16 u) as [|y r] eqn:E; [done|].
  rewrite (trim_end16_head _ _ _ _ Hx). by apply (Hh y r).
Qed.

(** The models' strings are JavaScript strings: a [string] is the
    JavaScript string of its code units, read back by [to_string]; on it
    [trim] and [Number] of [Js] and [JsNumber] are ECMAScript's, so the
    blank-text guard of the ingest page and the numbers the add forms
    post are those of every engine. *)
Theorem latin1_refinement s :
  to_string (of_string s) = Some s /\
  trim16 (of_string s) = of_string (js_trim s) /\
  (js_trim s = "" <-> trim16 (of_string s) = []) /\
  Number16 (of_string s) = js_Number s.
Proof.
  assert (Ht : trim16 (of_string s) = of_string (js_trim s)).
  { unfold trim16, js_trim. by rewrite trim_start16_of_string, trim_end16_of_string. }
  split; [apply to_string_of_string|]. split; [exact Ht|]. split.
  - rewrite Ht, <- String.eqb_eq, <- of_string_nil. apply bool_decide_eq_true.
  - unfold Number16, js_Number, string_to_lit. by rewrite Ht, to_string_of_string, js_trim_idem.
Qed.

(** What the builtins do on text a [string] cannot hold: [trim] removes
    an IDEOGRAPHIC SPACE and a ZWNBSP; [Number] reads ["12"] between a
    NO-BREAK SPACE and an EM SPACE, and [NaN] from FULLWIDTH DIGIT ONE
    and TWO; a text of EM SPACEs is blank. *)
Example js_string_values :
  trim16 [12288; 65; 66; 65279] = [65; 66] /\
  Number16 [32; 160; 49; 50; 8195] = js_Number "12" /\
  Number16 [65297; 65298] = nan /\
  trim16 [8195; 8195] = [].
Proof. vm_compute. repeat split. Qed.
