(* ===== verification/JsFormat.v ===== *)
(** * [Number.prototype.toFixed]

    The transactions list, the dashboard's recent activity and the
    proposal cards show amounts with [x.toFixed(2)].  ECMAScript
    (Number.prototype.toFixed, steps 4-11) defines it on the exact
    value of the double: for [|x| < 10^21] it writes the integer [n]
    nearest to [x * 10^f], the larger one on a tie, with a decimal point
    [f] digits from the right, padded with zeros, after a ["-"] when [x]
    is negative (so [(-0.001).toFixed(2)] is ["-0.00"]).  Above [10^21]
    it falls back to [Number::toString], which is not modelled ([None]).
    The exact value of a double is read from [Prim2SF], its
    sign-mantissa-exponent form, so everything computes. *)

From S2P Require Import Prelude Js JsNumber JsString.
From Stdlib Require Import Ascii PrimFloat SpecFloat FloatOps.

Local Open Scope string_scope.
#[local] Set Warnings "-inexact-float".

(** [n] such that [n - num/den] is nearest to zero, the larger on a tie,
    for [num >= 0] and [den > 0]. *)
Definition round_half_up_div (num den : Z) : Z := ((2 * num + den) / (2 * den))%Z.

(** The integer nearest to [m * 2^e * 10^f]. *)
Definition scaled_nearest (f : nat) (m : positive) (e : Z) : Z :=
  if (0 <=? e)%Z then (Zpos m * 2 ^ e * 10 ^ Z.of_nat f)%Z
  else round_half_up_div (Zpos m * 10 ^ Z.of_nat f) (2 ^ (- e)).

(** [m * 2^e >= 10^21]. *)
Definition at_least_1e21 (m : positive) (e : Z) : bool :=
  if (0 <=? e)%Z then (10 ^ 21 <=? Zpos m * 2 ^ e)%Z
  else (10 ^ 21 * 2 ^ (- e) <=? Zpos m)%Z.

Fixpoint zeros (k : nat) : string :=
  match k with
  | O => ""
  | S k => "0" ++ zeros k
  end.

(** Steps 10-11 (and ECMA-402's ToRawFixed): the digits of [n >= 0]
    padded with zeros to at least [f + 1] digits, split [f] digits from
    the right into the integer and the fraction digits. *)
Definition raw_fixed_parts (f : nat) (n : Z) : string * string :=
  let m := js_int_to_string n in
  let m := if Nat.leb (String.length m) f then zeros (S f - String.length m) ++ m else m in
  let k := String.length m in
  (String.substring 0 (k - f) m, String.substring (k - f) f m).

(** The digits with a point [f] digits from the right. *)
Definition fixed_digits (f : nat) (n : Z) : string :=
  match f with
  | O => js_int_to_string n
  | S _ => let '(a, b) := raw_fixed_parts f n in a ++ "." ++ b
  end.

(** [x.toFixed(f)]. *)
Definition js_toFixed (f : nat) (x : float) : option string :=
  match Prim2SF x with
  | S754_nan => Some "NaN"
  | S754_infinity neg => Some (if neg then "-Infinity" else "Infinity")
  | S754_zero _ => Some (fixed_digits f 0)
  | S754_finite neg m e =>
      if at_least_1e21 m e then None
      else Some ((if neg then "-" else "") ++ fixed_digits f (scaled_nearest f m e))
  end.

(** ** [Number.prototype.toLocaleString(undefined, { minimumFractionDigits })]

    ECMA-402's [Intl.NumberFormat] in the engine's default locale, with
    the options the accounts page and the dashboard pass: at least
    [minimumFractionDigits] and at most [max(minimumFractionDigits, 3)]
    fraction digits, rounding half away from zero ([halfExpand]) on the
    exact value, the locale's grouping ([useGrouping: "auto"]) and
    symbols.  The locale's data is a parameter: the digits of its
    numbering system, its symbols, its grouping sizes and its minimum
    grouping digits; the minus sign is written before the number, as
    in the patterns of the locales that write it first. *)
Record number_locale := NumberLocale {
  nl_digits : list Z;
  nl_decimal : js_string;
  nl_group : js_string;
  nl_minus : js_string;
  nl_nan : js_string;
  nl_infinity : js_string;
  nl_primary : nat;
  nl_secondary : nat;
  nl_min_grouping : nat;
}.

(** [en-US]: ASCII digits, ["."], [","], ["-"], ["NaN"], INFINITY
    (U+221E), groups of three from four digits on. *)
Definition en_US : number_locale :=
  NumberLocale [48; 49; 50; 51; 52; 53; 54; 55; 56; 57]%Z [46]%Z [44]%Z [45]%Z [78; 97; 78]%Z [8734]%Z 3 3 1.

(** An ASCII digit in the locale's numbering system. *)
Definition localize (loc : number_locale) (u : js_string) : js_string :=
  map (fun d => nth (Z.to_nat (d - 48)%Z) (nl_digits loc) d) u.

(** The integer digits, reversed, with the separator (reversed) before
    every digit that starts a new group: [k] digits still fit in the
    current group, the next groups have [q] digits. *)
Fixpoint group_rev (sep : js_string) (q k : nat) (l : js_string) : js_string :=
  match l with
  | [] => []
  | d :: r =>
      match k with
      | O => (rev sep ++ d :: group_rev sep q (q - 1) r)%list
      | S k' => d :: group_rev sep q k' r
      end
  end.

(** The grouping of the integer digits: none below
    [primary + min_grouping] digits, else the last [primary] digits and
    groups of [secondary] before them. *)
Definition group_digits (loc : number_locale) (ds : js_string) : js_string :=
  if Nat.ltb (length ds) (nl_primary loc + nl_min_grouping loc) then ds
  else rev (group_rev (nl_group loc) (nl_secondary loc) (nl_primary loc) (rev ds)).

(** Up to [cut] trailing zeros of the fraction digits removed. *)
Fixpoint drop_zeros (cut : nat) (r : list ascii) : list ascii :=
  match cut, r with
  | S c, "0"%char :: r' => drop_zeros c r'
  | _, _ => r
  end.

Definition cut_fraction (cut : nat) (b : string) : string :=
  String.string_of_list_ascii (rev (drop_zeros cut (rev (String.list_ascii_of_string b)))).

(** FormatNumericToString and PartitionNumberPattern for [n / 10^maxfd]
    with [n >= 0]. *)
Definition intl_fixed (loc : number_locale) (minfd maxfd : nat) (n : Z) : js_string :=
  let '(a, b) := raw_fixed_parts maxfd n in
  let b := cut_fraction (maxfd - minfd) b in
  (group_digits loc (localize loc (of_string a)) ++
   if String.eqb b "" then [] else nl_decimal loc ++ localize loc (of_string b))%list.

(** [x.toLocaleString(undefined, { minimumFractionDigits: minfd })]:
    a negative number and negative zero are written with the minus
    sign ([signDisplay: "auto"]). *)
Definition js_toLocaleString (loc : number_locale) (minfd : nat) (x : float) : js_string :=
  let maxfd := Nat.max minfd 3 in
  match Prim2SF x with
  | S754_nan => nl_nan loc
  | S754_infinity neg => ((if neg then nl_minus loc else []) ++ nl_infinity loc)%list
  | S754_zero neg => ((if neg then nl_minus loc else []) ++ intl_fixed loc minfd maxfd 0)%list
  | S754_finite neg m e =>
      ((if neg then nl_minus loc else []) ++ intl_fixed loc minfd maxfd (scaled_nearest maxfd m e))%list
  end.

(** ** What the engines print *)

(** The values of [toFixed] that every engine prints: [4.5] and [45]
    with two decimals; [1.005], whose double lies below [1.005], rounds
    down; [0.125], a tie, rounds up; a small negative keeps its sign;
    [(2.5).toFixed(0)] and [(-2.5).toFixed(0)] round away from zero. *)
Example js_toFixed_values :
  js_toFixed 2 4.5 = Some "4.50" /\ js_toFixed 2 45 = Some "45.00" /\
  js_toFixed 2 1.005 = Some "1.00" /\ js_toFixed 2 0.125 = Some "0.13" /\
  js_toFixed 2 (-0.001) = Some "-0.00" /\ js_toFixed 2 0 = Some "0.00" /\
  js_toFixed 0 2.5 = Some "3" /\ js_toFixed 0 (-2.5) = Some "-3" /\
  js_toFixed 2 1234567.891 = Some "1234567.89".
Proof. vm_compute. repeat split. Qed.

(** ** The shape of [toFixed]'s output *)

(** A double that is a number: zero or finite. *)
Definition finite_double (x : float) : bool :=
  match Prim2SF x with
  | S754_zero _ | S754_finite _ _ _ => true
  | _ => false
  end.

Lemma string_length_app (s1 s2 : string) :
  String.length (s1 ++ s2) = String.length s1 + String.length s2.
Proof. induction s1 as [|c s1 IH]; simpl; [reflexivity|lia]. Qed.

Lemma zeros_length k : String.length (zeros k) = k.
Proof. induction k as [|k IH]; [reflexivity|]. simpl. rewrite string_length_app, IH. reflexivity. Qed.

Lemma substring_length n m s :
  n + m <= String.length s -> String.length (String.substring n m s) = m.
Proof.
  revert n m. induction s as [|c s IH]; intros n m Hle; simpl in *.
  - destruct n, m; simpl; lia.
  - destruct n as [|n]; [destruct m as [|m]|]; simpl; [done| |]; rewrite IH; lia.
Qed.

(** [fixed_digits] with [f > 0] digits after the point writes at least
    one digit before it and exactly [f] after. *)
Lemma fixed_digits_shape f n :
  exists a b, fixed_digits (S f) n = a ++ "." ++ b /\
              1 <= String.length a /\ String.length b = S f.
Proof.
  unfold fixed_digits, raw_fixed_parts.
  set (m0 := js_int_to_string n).
  set (m := if Nat.leb (String.length m0) (S f) then zeros (S (S f) - String.length m0) ++ m0 else m0).
  assert (Hm : S f < String.length m).
  { unfold m. destruct (Nat.leb_spec (String.length m0) (S f)).
    - rewrite string_length_app, zeros_length. lia.
    - lia. }
  eexists _, _. split; [reflexivity|].
  split; rewrite substring_length; lia.
Qed.

(** [x.toFixed(f)], for [f > 0] and a double that is a number
    (zero or finite, under [10^21]), writes an optional ["-"], at least
    one digit, a point and exactly [f] digits: the amounts of the
    transactions list, the dashboard and the proposal cards always show
    two decimals, ["0.05"] and not [".05"] or ["0.5"]. *)
Theorem js_toFixed_shape f x s :
  finite_double x = true -> js_toFixed (S f) x = Some s ->
  exists sign a b, s = sign ++ a ++ "." ++ b /\ (sign = "" \/ sign = "-") /\
                   1 <= String.length a /\ String.length b = S f.
Proof.
  unfold finite_double, js_toFixed. destruct (Prim2SF x) as [neg| | |neg m e]; try done; intros _ Hs.
  - destruct (fixed_digits_shape f 0) as (a & b & Heq & Ha & Hb). rewrite Heq in Hs.
    injection Hs as <-. exists "", a, b. auto.
  - destruct (at_least_1e21 m e); [done|].
    destruct (fixed_digits_shape f (scaled_nearest (S f) m e)) as (a & b & Heq & Ha & Hb).
    rewrite Heq in Hs. injection Hs as <-.
    exists (if neg then "-" else ""), a, b. split; [done|]. split; [|auto]. destruct neg; auto.
Qed.

(** What [en-US] engines print for [toLocaleString(undefined,
    { minimumFractionDigits: 2 })]: two decimals at least and three at
    most, groups of three from 1,000 on, the minus sign on negative
    zero, and INFINITY. *)
Example js_toLocaleString_values :
  js_toLocaleString en_US 2 1234.5 = of_string "1,234.50" /\
  js_toLocaleString en_US 2 90.5 = of_string "90.50" /\
  js_toLocaleString en_US 2 0.125 = of_string "0.125" /\
  js_toLocaleString en_US 2 1234567.891 = of_string "1,234,567.891" /\
  js_toLocaleString en_US 2 (-30) = of_string "-30.00" /\
  js_toLocaleString en_US 2 999.9996 = of_string "1,000.00" /\
  js_toLocaleString en_US 2 0 = of_string "0.00" /\
  js_toLocaleString en_US 2 (-0) = of_string "-0.00" /\
  js_toLocaleString en_US 2 (-0.0001) = of_string "-0.00" /\
  js_toLocaleString en_US 2 infinity = [8734%Z] /\
  js_toLocaleString en_US 2 nan = of_string "NaN".
Proof. vm_compute. repeat split. Qed.

(** ** [toLocaleString] and [toFixed] *)

(** The text without its group separators [sep]. *)
Definition ungroup (sep : Z) (u : js_string) : js_string := List.filter (fun x => negb (Z.eqb x sep)) u.

Definition digit_unit (u : Z) : Prop := (48 <= u <= 57)%Z.

Lemma ungroup_app sep u1 u2 : ungroup sep (u1 ++ u2)%list = (ungroup sep u1 ++ ungroup sep u2)%list.
Proof. apply List.filter_app. Qed.

Lemma ungroup_cons sep x u :
  ungroup sep (x :: u) = ((if Z.eqb x sep then [] else [x]) ++ ungroup sep u)%list.
Proof. unfold ungroup. cbn. by destruct (Z.eqb x sep). Qed.

Lemma ungroup_rev sep u : ungroup sep (rev u) = rev (ungroup sep u).
Proof.
  induction u as [|x u IH]; [done|]. cbn [rev]. rewrite ungroup_app, IH, !ungroup_cons, rev_app_distr.
  destruct (Z.eqb x sep); cbn; by rewrite ?app_nil_r.
Qed.

Lemma ungroup_group_rev sep q k l : ungroup sep (group_rev [sep] q k l) = ungroup sep l.
Proof.
  revert k. induction l as [|d l IH]; intros [|k]; [done|done| |]; cbn [group_rev rev app];
    rewrite !ungroup_cons, ?Z.eqb_refl, IH; reflexivity.
Qed.

Lemma ungroup_digits sep u : ~ digit_unit sep -> Forall digit_unit u -> ungroup sep u = u.
Proof.
  intros Hs. induction 1 as [|x u Hx _ IH]; [done|]. rewrite ungroup_cons, IH.
  replace (Z.eqb x sep) with false by (symmetry; apply Z.eqb_neq; intros ->; done). done.
Qed.

Lemma ungroup_group_digits ds : Forall digit_unit ds -> ungroup 44 (group_digits en_US ds) = ds.
Proof.
  intros Hd. assert (H44 : ~ digit_unit 44) by (unfold digit_unit; lia).
  unfold group_digits. case_match; [by apply ungroup_digits|].
  rewrite ungroup_rev, ungroup_group_rev, ungroup_rev, rev_involutive. by apply ungroup_digits.
Qed.

Lemma localize_en_US u : Forall digit_unit u -> localize en_US u = u.
Proof.
  induction 1 as [|x u Hx _ IH]; [done|]. cbn [localize map]. f_equal; [|exact IH].
  unfold digit_unit in Hx.
  assert (x = 48 \/ x = 49 \/ x = 50 \/ x = 51 \/ x = 52 \/ x = 53 \/ x = 54 \/ x = 55 \/ x = 56 \/ x = 57)%Z
    as Hc by lia.
  repeat destruct Hc as [-> | Hc]; [reflexivity..|subst; reflexivity].
Qed.

(** The characters [digit_val 10] accepts are the ten ASCII digits. *)
Lemma digit_val_unit c d : digit_val 10 c = Some d -> digit_unit (unit_of_char c).
Proof.
  unfold digit_val, digit_unit, unit_of_char. set (n := Z.of_nat (nat_of_ascii c)).
  repeat case_match; intros; simplify_eq; lia.
Qed.

Lemma all_digits_units s : all_digits s = true -> Forall digit_unit (of_string s).
Proof.
  induction s as [|c r IH]; cbn; [constructor|].
  destruct (digit_val 10 c) as [d|] eqn:Hd; [|done]. intros Hr. constructor; [by eapply digit_val_unit|auto].
Qed.

Lemma all_digits_app s1 s2 : all_digits s1 = true -> all_digits s2 = true -> all_digits (s1 ++ s2) = true.
Proof.
  induction s1 as [|c r IH]; intros H1 H2; [exact H2|].
  change (all_digits (String c (r ++ s2)) = true). cbn in H1 |- *.
  destruct (digit_val 10 c); [by apply IH|done].
Qed.

Lemma all_digits_zeros k : all_digits (zeros k) = true.
Proof. induction k as [|k IH]; [done|]. exact (all_digits_app "0" _ eq_refl IH). Qed.

Lemma all_digits_substring n k s : all_digits s = true -> all_digits (String.substring n k s) = true.
Proof.
  revert n k. induction s as [|c r IH]; intros n k Hs; [by destruct n, k|].
  cbn in Hs. destruct (digit_val 10 c) as [d|] eqn:Hd; [|done].
  destruct n as [|n]; [destruct k as [|k]|]; cbn; [done| |by apply IH].
  rewrite Hd. by apply IH.
Qed.

Lemma all_digits_int n : (0 <= n)%Z -> all_digits (js_int_to_string n) = true.
Proof.
  intros Hn. destruct n as [|p|p]; [done| |lia].
  unfold js_int_to_string. rewrite pretty_pos. by apply all_digits_pretty.
Qed.

(** ToRawFixed writes digits only, [f] of them after the point. *)
Lemma raw_fixed_parts_digits f n a b :
  (0 <= n)%Z -> raw_fixed_parts f n = (a, b) ->
  all_digits a = true /\ all_digits b = true /\ String.length b = f.
Proof.
  intros Hn. unfold raw_fixed_parts.
  set (m0 := js_int_to_string n).
  set (m := if Nat.leb (String.length m0) f then zeros (S f - String.length m0) ++ m0 else m0).
  assert (Hm : f < String.length m /\ all_digits m = true).
  { unfold m. pose proof (all_digits_int n Hn) as Hd. destruct (Nat.leb_spec (String.length m0) f).
    - rewrite string_length_app, zeros_length. split; [lia|]. apply all_digits_app; [apply all_digits_zeros|exact Hd].
    - split; [lia|exact Hd]. }
  intros [= <- <-]. split; [|split]; [apply all_digits_substring, Hm..|]. rewrite substring_length; lia.
Qed.

Lemma drop_zeros_ne c x l : x <> "0"%char -> drop_zeros (S c) (x :: l) = x :: l.
Proof. destruct x as [[] [] [] [] [] [] [] []]; intros Hx; try reflexivity; done. Qed.

Lemma drop_zeros_app c r1 r2 : c <= length r1 -> drop_zeros c (r1 ++ r2)%list = (drop_zeros c r1 ++ r2)%list.
Proof.
  revert r1. induction c as [|c IH]; intros r1 Hc; [done|].
  destruct r1 as [|x r1]; cbn [length] in Hc; [lia|].
  destruct (ascii_dec x "0") as [->|Hx]; [cbn; apply IH; lia|].
  by rewrite <- app_comm_cons, !drop_zeros_ne.
Qed.

(** [drop_zeros] removes a prefix of at most [cut] elements. *)
Lemma drop_zeros_suffix c r : exists t, r = (t ++ drop_zeros c r)%list /\ length t <= c.
Proof.
  revert r. induction c as [|c IH]; intros [|x r]; try (exists []; cbn; split; [done|lia]).
  destruct (ascii_dec x "0") as [->|Hx]; [|exists []; rewrite drop_zeros_ne by done; cbn; split; [done|lia]].
  destruct (IH r) as [t [Ht Hl]]. exists ("0"%char :: t). cbn. rewrite <- Ht. split; [done|lia].
Qed.

Lemma list_ascii_length s : length (String.list_ascii_of_string s) = String.length s.
Proof. induction s as [|c r IH]; cbn; auto. Qed.

Lemma of_string_list_ascii s : of_string s = map unit_of_char (String.list_ascii_of_string s).
Proof. induction s as [|c r IH]; cbn; [done|]. by rewrite IH. Qed.

Lemma cut_fraction_app c p b :
  c <= String.length b -> cut_fraction c (p ++ b) = p ++ cut_fraction c b.
Proof.
  intros Hc. unfold cut_fraction.
  rewrite list_ascii_of_string_app, rev_app_distr, drop_zeros_app
    by (rewrite length_rev, list_ascii_length; exact Hc).
  by rewrite rev_app_distr, rev_involutive, string_of_list_ascii_app, String.string_of_list_ascii_of_string.
Qed.

(** The fraction digits left by [cut_fraction]: a prefix of them, at
    least [String.length b - cut]. *)
Lemma cut_fraction_prefix c b :
  exists t, of_string b = (of_string (cut_fraction c b) ++ t)%list /\
            String.length b - c <= length (of_string (cut_fraction c b)).
Proof.
  unfold cut_fraction. rewrite of_string_list, of_string_list_ascii.
  destruct (drop_zeros_suffix c (rev (String.list_ascii_of_string b))) as [t [Ht Hl]].
  exists (map unit_of_char (rev t)). rewrite <- map_app, <- rev_app_distr, <- Ht, rev_involutive.
  split; [done|]. rewrite length_map, length_rev, <- list_ascii_length, <- length_rev.
  set (d := drop_zeros c (rev (String.list_ascii_of_string b))) in *.
  rewrite Ht, length_app. lia.
Qed.

Lemma scaled_nearest_nonneg f m e : (0 <= scaled_nearest f m e)%Z.
Proof.
  unfold scaled_nearest, round_half_up_div. case_match.
  - apply Z.mul_nonneg_nonneg; [apply Z.mul_nonneg_nonneg; [lia|]|]; apply Z.pow_nonneg; lia.
  - apply Z.div_pos; [|assert (0 < 2 ^ (- e))%Z by (apply Z.pow_pos_nonneg; lia); lia].
    assert (0 <= 10 ^ Z.of_nat f)%Z by (apply Z.pow_nonneg; lia).
    assert (0 < 2 ^ (- e))%Z by (apply Z.pow_pos_nonneg; lia). nia.
Qed.

(** [en-US]'s digits for [n / 1000], without the group separators, are
    [toFixed]'s, with the third decimal dropped when it is a zero. *)
Lemma intl_fixed_en_US n :
  (0 <= n)%Z -> ungroup 44 (intl_fixed en_US 2 3 n) = of_string (cut_fraction 1 (fixed_digits 3 n)).
Proof.
  intros Hn. assert (H44 : ~ digit_unit 44) by (unfold digit_unit; lia).
  unfold intl_fixed, fixed_digits. destruct (raw_fixed_parts 3 n) as [a b] eqn:E.
  destruct (raw_fixed_parts_digits 3 n a b Hn E) as (Ha & Hb & Hlb).
  destruct (cut_fraction_prefix 1 b) as (t & Ht & Hlc).
  pose proof (all_digits_units b Hb) as Hdb. rewrite Ht in Hdb. apply Forall_app in Hdb as [Hdc _].
  replace (String.eqb (cut_fraction (3 - 2) b) "") with false
    by (symmetry; apply String.eqb_neq; intros Hc; change (3 - 2) with 1 in Hc; rewrite Hc in Hlc; cbn in Hlc; lia).
  change (3 - 2) with 1. rewrite string_app_assoc, cut_fraction_app by lia. rewrite !of_string_app, !ungroup_app.
  pose proof (all_digits_units a Ha) as Hda.
  rewrite !localize_en_US by done. rewrite ungroup_group_digits by done.
  rewrite (ungroup_digits 44 (of_string (cut_fraction 1 b))) by done. by rewrite <- app_assoc.
Qed.

(** The dashboard's total and the accounts' balances are written
    with [toLocaleString(undefined, { minimumFractionDigits: 2 })], the
    amounts of the transactions with [toFixed(2)].  In [en-US], a
    number's text without its group separators is [x.toFixed(3)] with
    the third decimal dropped when it is a zero: both round half away
    from zero on the exact value, so the two agree on the cents of
    every amount whose thousandths are zero.  The one exception is
    negative zero, which [toLocaleString] writes ["-0.00"] and
    [toFixed] ["0.000"]. *)
Theorem toLocaleString_toFixed x s :
  finite_double x = true -> Prim2SF x <> S754_zero true -> js_toFixed 3 x = Some s ->
  ungroup 44 (js_toLocaleString en_US 2 x) = of_string (cut_fraction 1 s).
Proof.
  unfold finite_double, js_toFixed, js_toLocaleString. intros Hf Hz.
  destruct (Prim2SF x) as [[]| | |neg m e]; try done.
  - intros Hs%(inj Some). subst s. by apply intl_fixed_en_US.
  - destruct (at_least_1e21 m e); [done|]. intros Hs%(inj Some). subst s.
    destruct (fixed_digits_shape 2 (scaled_nearest 3 m e)) as (a & b & Hfd & Hla & _).
    rewrite cut_fraction_app
      by (rewrite Hfd, !string_length_app; cbn [String.length]; lia).
    rewrite of_string_app, ungroup_app. cbn [Nat.max].
    rewrite <- intl_fixed_en_US by apply scaled_nearest_nonneg. by destruct neg.
Qed.

