(* ===== verification/JsDate.v ===== *)
(** * Dates: [new Date(string)] and date-fns' [format]

    The transactions list, the dashboard's recent activity and the
    proposal cards show a date string of the server with
    [format(new Date(s), 'MMM d')] or [format(new Date(s), 'MMM d, h:mm a')].
    This file models:
    - the proleptic Gregorian calendar of ECMAScript: [day_from_year]
      (DayFromYear), [make_day] (MakeDay for a month and day of the
      calendar), [make_time], [make_date], [time_clip];
    - [civil_from_days], the year, month and day of a day number
      (YearFromTime, MonthFromTime, DateFromTime), computed as in the
      engines and proved to invert [make_day];
    - [parse_date_time], the Date Time String Format ([YYYY], [YYYY-MM],
      [YYYY-MM-DD], optionally followed by [THH:mm], [THH:mm:ss] or
      [THH:mm:ss.sss] and an offset [Z] or [+HH:mm]), which distinguishes
      a string outside the format, or a day its month does not have,
      whose reading is the engine's own, from one with an illegal field,
      which is [NaN];
    - the engine's environment [engine]: its time zone (the offsets
      LocalTime and UTC apply), its fallback parser for strings outside
      the format, and its number locale;
    - [toISOString] ([js_toISOString]) and [split('T')[0]]
      ([utc_today]), which the transaction form uses for its body and
      its initial date, with the proof that [new Date] reads back what
      [toISOString] writes;
    - date-fns' [format] with the two patterns: it throws a [RangeError]
      on an invalid date, and reads the local fields of a valid one. *)

From S2P Require Import Prelude Js JsFormat.
From Stdlib Require Import Ascii.

Local Open Scope Z_scope.

(** ** The calendar *)

Definition msPerDay : Z := 86400000.

Definition is_leap (y : Z) : bool := (y mod 4 =? 0) && (negb (y mod 100 =? 0) || (y mod 400 =? 0)).

Definition days_in_month (y m : Z) : Z :=
  if m =? 2 then (if is_leap y then 29 else 28)
  else if (m =? 4) || (m =? 6) || (m =? 9) || (m =? 11) then 30
  else 31.

(** DayFromYear: the day number of January 1 of [y]. *)
Definition day_from_year (y : Z) : Z :=
  365 * (y - 1970) + (y - 1969) / 4 - (y - 1901) / 100 + (y - 1601) / 400.

(** The days of the year before month [m] (1 to 12). *)
Definition days_before_month (y m : Z) : Z :=
  nth (Z.to_nat (m - 1)) [0; 31; 59; 90; 120; 151; 181; 212; 243; 273; 304; 334] 0 +
  (if is_leap y && (2 <? m) then 1 else 0).

(** MakeDay for month [m] (1 to 12) and day [d] of year [y]; a day
    beyond the month's end runs into the next month. *)
Definition make_day (y m d : Z) : Z := day_from_year y + days_before_month y m + d - 1.

Definition make_time (h mi s ms : Z) : Z := h * 3600000 + mi * 60000 + s * 1000 + ms.

Definition make_date (day time : Z) : Z := day * msPerDay + time.

(** TimeClip: [None] is [NaN]. *)
Definition time_clip (t : Z) : option Z := if Z.abs t <=? 8640000000000000 then Some t else None.

(** The year, month (1 to 12) and day of day number [z]: the days are
    counted in eras of 400 years from March 1 of year 0. *)
Definition civil_from_days (z : Z) : Z * Z * Z :=
  let z := z + 719468 in
  let era := z / 146097 in
  let doe := z - era * 146097 in
  let yoe := (doe - doe / 1460 + doe / 36524 - doe / 146096) / 365 in
  let doy := doe - (365 * yoe + yoe / 4 - yoe / 100) in
  let mp := (5 * doy + 2) / 153 in
  let d := doy - (153 * mp + 2) / 5 + 1 in
  let m := if mp <? 10 then mp + 3 else mp - 9 in
  (if m <=? 2 then yoe + era * 400 + 1 else yoe + era * 400, m, d).

(** ** The Date Time String Format *)

Definition digit_of (c : ascii) : option Z :=
  let n := Z.of_nat (nat_of_ascii c) in
  if (48 <=? n) && (n <=? 57) then Some (n - 48) else None.

(** Exactly [k] digits. *)
Fixpoint read_n (k : nat) (acc : Z) (l : list ascii) : option (Z * list ascii) :=
  match k with
  | O => Some (acc, l)
  | S k' =>
      match l with
      | c :: r => match digit_of c with Some d => read_n k' (acc * 10 + d) r | None => None end
      | [] => None
      end
  end.

(** [YYYY] or [+YYYYYY] or [-YYYYYY]; the flag marks [-000000]. *)
Definition parse_year (l : list ascii) : option (Z * bool * list ascii) :=
  match l with
  | "+"%char :: r => option_map (fun '(y, r') => (y, false, r')) (read_n 6 0 r)
  | "-"%char :: r => option_map (fun '(y, r') => (- y, y =? 0, r')) (read_n 6 0 r)
  | _ => option_map (fun '(y, r') => (y, false, r')) (read_n 4 0 l)
  end.

(** [-MM] and [-DD], each optional, [01] by default. *)
Definition parse_month_day (l : list ascii) : option (Z * Z * list ascii) :=
  match l with
  | "-"%char :: r =>
      match read_n 2 0 r with
      | Some (m, "-"%char :: r') => option_map (fun '(d, r'') => (m, d, r'')) (read_n 2 0 r')
      | Some (m, r') => Some (m, 1, r')
      | None => None
      end
  | _ => Some (1, 1, l)
  end.

(** [HH:mm], then [:ss] and [.sss], each optional. *)
Definition parse_time (l : list ascii) : option (Z * Z * Z * Z * list ascii) :=
  match read_n 2 0 l with
  | Some (h, ":"%char :: r) =>
      match read_n 2 0 r with
      | Some (mi, ":"%char :: r') =>
          match read_n 2 0 r' with
          | Some (s, "."%char :: r'') => option_map (fun '(ms, r3) => (h, mi, s, ms, r3)) (read_n 3 0 r'')
          | Some (s, r'') => Some (h, mi, s, 0, r'')
          | None => None
          end
      | Some (mi, r') => Some (h, mi, 0, 0, r')
      | None => None
      end
  | _ => None
  end.

(** The end of the string, or [Z], or [+HH:mm] / [-HH:mm] (the hours and
    minutes of the offset); [None] for anything else. *)
Definition parse_offset (l : list ascii) : option (option (bool * Z * Z)) :=
  match l with
  | [] => Some None
  | ["Z"%char] => Some (Some (false, 0, 0))
  | sgn :: r =>
      if Ascii.eqb sgn "+" || Ascii.eqb sgn "-" then
        match read_n 2 0 r with
        | Some (oh, ":"%char :: r') =>
            match read_n 2 0 r' with
            | Some (om, []) => Some (Some (Ascii.eqb sgn "-", oh, om))
            | _ => None
            end
        | _ => None
        end
      else None
  end.

(** A time of day [HH:mm:ss.sss]: [24:00] is allowed as the end of the
    day. *)
Definition legal_time (h mi s ms : Z) : bool :=
  (h <=? 24) && (mi <=? 59) && (s <=? 59) && ((h <? 24) || ((mi =? 0) && (s =? 0) && (ms =? 0))).

(** What a string denotes: outside the format, or a day of the format
    that its month does not have (Feb 30): the engine's own reading,
    which differs between engines; in the format but with an illegal
    field: [NaN]; a UTC time (date-only forms, or an offset); a local
    time (date-time forms without an offset). *)
Inductive dt_parse := DTNoFormat | DTIllegal | DTUtc (t : Z) | DTLocal (t : Z).

Definition parse_date_time (s : string) : dt_parse :=
  match parse_year (String.list_ascii_of_string s) with
  | None => DTNoFormat
  | Some (y, minus_zero, r) =>
      match parse_month_day r with
      | None => DTNoFormat
      | Some (m, d, r2) =>
          let legal_date := negb minus_zero && (1 <=? m) && (m <=? 12) && (1 <=? d) && (d <=? 31) in
          let in_month (r : dt_parse) := if d <=? days_in_month y m then r else DTNoFormat in
          match r2 with
          | [] => if legal_date then in_month (DTUtc (make_date (make_day y m d) 0)) else DTIllegal
          | "T"%char :: r3 =>
              match parse_time r3 with
              | None => DTNoFormat
              | Some (h, mi, sec, ms, r4) =>
                  let t := make_date (make_day y m d) (make_time h mi sec ms) in
                  match parse_offset r4 with
                  | None => DTNoFormat
                  | Some None => if legal_date && legal_time h mi sec ms then in_month (DTLocal t) else DTIllegal
                  | Some (Some (neg, oh, om)) =>
                      if legal_date && legal_time h mi sec ms && legal_time oh om 0 0
                      then in_month (DTUtc (t - (if neg then -1 else 1) * make_time oh om 0 0))
                      else DTIllegal
                  end
              end
          | _ => DTNoFormat
          end
      end
  end.

(** ** The engine's environment *)

(** The time zone: [tz_offset t], LocalTZA(t, true), the offset of local
    time at the UTC time [t]; [tz_local_offset t], LocalTZA(t, false),
    the offset the engine chooses for the local time [t]. *)
Record time_zone := TimeZone {
  tz_offset : Z -> Z;
  tz_local_offset : Z -> Z;
}.

(** A zone at a fixed offset of [minutes] east of UTC, without daylight
    saving time. *)
Definition fixed_zone (minutes : Z) : time_zone :=
  TimeZone (fun _ => minutes * 60000) (fun _ => minutes * 60000).

Record engine := Engine {
  en_zone : time_zone;
  en_parse_fallback : string -> option Z;
  en_locale : number_locale;
}.

(** An engine in UTC with the [en-US] locale, which parses nothing
    outside the format: the engine of the examples. *)
Definition utc_en_US : engine := Engine (fixed_zone 0) (fun _ => None) en_US.

(** [new Date(s)] for a string: the time value, [None] for an invalid
    date. *)
Definition js_new_Date (en : engine) (s : string) : option Z :=
  match parse_date_time s with
  | DTNoFormat => en_parse_fallback en s
  | DTIllegal => None
  | DTUtc t => Some t
  | DTLocal t => Some (t - tz_local_offset (en_zone en) t)
  end ≫= time_clip.

(** ** date-fns' [format] *)

(** The tokens of the two patterns: [MMM] (the month's abbreviation of
    the [enUS] locale), [d] (the day), [h] (the hour from 1 to 12), [mm]
    (the minutes on two digits), [a] ([AM] or [PM]), and literal text. *)
Inductive date_token := TokMonth | TokDay | TokHour12 | TokMinutes | TokDayPeriod | TokText (s : string).

(** ['MMM d'] and ['MMM d, h:mm a']. *)
Definition MMM_d : list date_token := [TokMonth; TokText " "; TokDay].
Definition MMM_d_h_mm_a : list date_token :=
  [TokMonth; TokText " "; TokDay; TokText ", "; TokHour12; TokText ":"; TokMinutes; TokText " "; TokDayPeriod].

Definition month_abbr (m : Z) : string :=
  nth (Z.to_nat (m - 1)) ["Jan"; "Feb"; "Mar"; "Apr"; "May"; "Jun"; "Jul"; "Aug"; "Sep"; "Oct"; "Nov"; "Dec"]%string ""%string.

Definition two_digits (n : Z) : string := if n <? 10 then ("0" ++ js_int_to_string n)%string else js_int_to_string n.

(** The local fields of [t] read by [getMonth], [getDate], [getHours]
    and [getMinutes]. *)
Definition local_fields (tz : time_zone) (t : Z) : Z * Z * Z * Z :=
  let lt := t + tz_offset tz t in
  let '(_, m, d) := civil_from_days (lt / msPerDay) in
  let ms := lt mod msPerDay in
  (m, d, ms / 3600000, (ms / 60000) mod 60).

Definition format_token (tz : time_zone) (t : Z) (k : date_token) : string :=
  let '(m, d, h, mi) := local_fields tz t in
  match k with
  | TokMonth => month_abbr m
  | TokDay => js_int_to_string d
  | TokHour12 => js_int_to_string (if h mod 12 =? 0 then 12 else h mod 12)
  | TokMinutes => two_digits mi
  | TokDayPeriod => if h <? 12 then "AM"%string else "PM"%string
  | TokText s => s
  end.

(** [format(date, pattern)]: [None] is the [RangeError] thrown on an
    invalid date. *)
Definition date_fns_format (tz : time_zone) (pattern : list date_token) (date : option Z) : option string :=
  match date with
  | None => None
  | Some t => Some (String.concat "" (map (format_token tz t) pattern))
  end.

(** ** [Date.prototype.toISOString] *)

Definition ascii_of_digit (n : Z) : ascii := ascii_of_nat (Z.to_nat (48 + n)).

(** The [k] last decimal digits of [n], the most significant first. *)
Fixpoint pad_digits (k : nat) (n : Z) : list ascii :=
  match k with
  | O => []
  | S k' => ascii_of_digit ((n / 10 ^ Z.of_nat k') mod 10) :: pad_digits k' n
  end.

(** [YYYY] for the years 0 to 9999, [-YYYYYY] or [+YYYYYY] for the
    others. *)
Definition iso_year (y : Z) : list ascii :=
  if (0 <=? y) && (y <=? 9999) then pad_digits 4 y
  else (if y <? 0 then "-"%char else "+"%char) :: pad_digits 6 (Z.abs y).

(** [YYYY-MM-DDTHH:mm:ss.sssZ] of the time value [t], in UTC. *)
Definition iso_chars (t : Z) : list ascii :=
  let '(y, m, d) := civil_from_days (t / msPerDay) in
  let ms := t mod msPerDay in
  iso_year y ++ "-"%char :: pad_digits 2 m ++ "-"%char :: pad_digits 2 d ++
  "T"%char :: pad_digits 2 (ms / 3600000) ++ ":"%char :: pad_digits 2 (ms / 60000 mod 60) ++
  ":"%char :: pad_digits 2 (ms / 1000 mod 60) ++ "."%char :: pad_digits 3 (ms mod 1000) ++ ["Z"%char].

(** [date.toISOString()]: [None] is the [RangeError] thrown on an
    invalid date. *)
Definition js_toISOString (date : option Z) : option string :=
  option_map (fun t => String.string_of_list_ascii (iso_chars t)) date.

(** [s.split('T')[0]]: the text before the first [T], all of it when
    there is none. *)
Fixpoint split_T_first (s : string) : string :=
  match s with
  | EmptyString => EmptyString
  | String c r => if Ascii.eqb c "T"%char then EmptyString else String c (split_T_first r)
  end.

(** [new Date().toISOString().split('T')[0]], the clock reading the
    time value [now]. *)
Definition utc_today (now : Z) : string := split_T_first (String.string_of_list_ascii (iso_chars now)).

(** ** The calendar: [civil_from_days] inverts [make_day] *)

(** A day of the calendar: a month from 1 to 12, a day of that month. *)
Definition valid_ymd (y m d : Z) : Prop := 1 <= m <= 12 /\ 1 <= d <= days_in_month y m.

Definition valid_ymdb (y m d : Z) : bool :=
  (1 <=? m) && (m <=? 12) && (1 <=? d) && (d <=? days_in_month y m).

Lemma valid_ymdb_spec y m d : valid_ymdb y m d = true <-> valid_ymd y m d.
Proof. unfold valid_ymdb, valid_ymd. rewrite !andb_true_iff, !Z.leb_le. tauto. Qed.

(** [f] holds of the [n] integers from [z]: checked by computation. *)
Fixpoint all_from (f : Z -> bool) (n : nat) (z : Z) : bool :=
  match n with
  | O => true
  | S n' => if f z then all_from f n' (z + 1) else false
  end.

Lemma all_from_spec f n z : all_from f n z = true -> forall k, z <= k < z + Z.of_nat n -> f k = true.
Proof.
  revert z. induction n as [|n IH]; intros z H k Hk; [lia|]. cbn in H.
  destruct (f z) eqn:Hz; [|done]. destruct (Z.eq_dec k z) as [->|Hne]; [done|].
  apply (IH (z + 1) H). lia.
Qed.

(** [c] is the valid date whose day number is [dd]. *)
Definition triple_ok (dd : Z) (c : Z * Z * Z) : bool :=
  let '(y, m, d) := c in (make_day y m d =? dd) && valid_ymdb y m d.

Definition triple_eqb (c c' : Z * Z * Z) : bool :=
  let '(y, m, d) := c in let '(y', m', d') := c' in (y =? y') && (m =? m') && (d =? d').

Lemma triple_ok_spec dd c :
  triple_ok dd c = true -> let '(y, m, d) := c in make_day y m d = dd /\ valid_ymd y m d.
Proof.
  destruct c as [[y m] d]. cbn. rewrite andb_true_iff, Z.eqb_eq, valid_ymdb_spec. done.
Qed.

Lemma triple_eqb_spec c c' : triple_eqb c c' = true -> c = c'.
Proof. destruct c as [[y m] d], c' as [[y' m'] d']. cbn. rewrite !andb_true_iff, !Z.eqb_eq. by intros [[-> ->] ->]. Qed.

(** The 146097 days of the era from March 1 of year 0, and the dates of
    the years 0 to 399. *)
Lemma era_days : all_from (fun dd => triple_ok dd (civil_from_days dd)) (Z.to_nat 146097) (-719468) = true.
Proof. vm_compute. reflexivity. Qed.

Lemma era_dates :
  all_from (fun y => all_from (fun m => all_from (fun d => triple_eqb (civil_from_days (make_day y m d)) (y, m, d))
    (Z.to_nat (days_in_month y m)) 1) 12 1) 400 0 = true.
Proof. vm_compute. reflexivity. Qed.

(** The calendar repeats every 400 years, which have 146097 days. *)
Lemma is_leap_shift y k : is_leap (y + 400 * k) = is_leap y.
Proof.
  unfold is_leap.
  replace (y + 400 * k) with (y + (100 * k) * 4) by ring. rewrite Z.mod_add by lia.
  replace (y + 100 * k * 4) with (y + (4 * k) * 100) by ring. rewrite Z.mod_add by lia.
  replace (y + 4 * k * 100) with (y + k * 400) by ring. rewrite Z.mod_add by lia. done.
Qed.

Lemma days_in_month_shift y k m : days_in_month (y + 400 * k) m = days_in_month y m.
Proof. unfold days_in_month. by rewrite is_leap_shift. Qed.

Lemma make_day_shift y k m d : make_day (y + 400 * k) m d = make_day y m d + 146097 * k.
Proof.
  unfold make_day, days_before_month, day_from_year. rewrite is_leap_shift.
  replace (y + 400 * k - 1969) with ((y - 1969) + (100 * k) * 4) by ring.
  replace (y + 400 * k - 1901) with ((y - 1901) + (4 * k) * 100) by ring.
  replace (y + 400 * k - 1601) with ((y - 1601) + k * 400) by ring.
  rewrite !Z.div_add by lia. ring.
Qed.

Lemma civil_shift dd k :
  civil_from_days (dd + 146097 * k) = let '(y, m, d) := civil_from_days dd in (y + 400 * k, m, d).
Proof.
  unfold civil_from_days. cbv zeta.
  replace (dd + 146097 * k + 719468) with ((dd + 719468) + k * 146097) by ring.
  rewrite Z.div_add by lia.
  replace (dd + 719468 + k * 146097 - ((dd + 719468) / 146097 + k) * 146097)
    with (dd + 719468 - (dd + 719468) / 146097 * 146097) by ring.
  set (doe := dd + 719468 - (dd + 719468) / 146097 * 146097).
  set (yoe := (doe - doe / 1460 + doe / 36524 - doe / 146096) / 365).
  set (m := if (5 * (doe - (365 * yoe + yoe / 4 - yoe / 100)) + 2) / 153 <? 10 then _ else _).
  destruct (m <=? 2); f_equal; f_equal; ring.
Qed.

Lemma civil_in_era dd :
  -719468 <= dd < -719468 + 146097 ->
  let '(y, m, d) := civil_from_days dd in make_day y m d = dd /\ valid_ymd y m d.
Proof.
  intros Hdd. apply triple_ok_spec.
  exact (all_from_spec _ _ _ era_days dd ltac:(rewrite Z2Nat.id; lia)).
Qed.

Lemma make_day_in_era y m d :
  0 <= y < 400 -> valid_ymd y m d -> civil_from_days (make_day y m d) = (y, m, d).
Proof.
  intros Hy [Hm Hd]. apply triple_eqb_spec.
  pose proof (all_from_spec _ _ _ era_dates y ltac:(lia)) as Hy'. cbv beta in Hy'.
  pose proof (all_from_spec _ _ _ Hy' m ltac:(lia)) as Hm'. cbv beta in Hm'.
  exact (all_from_spec _ _ _ Hm' d ltac:(rewrite Z2Nat.id; lia)).
Qed.

Lemma make_day_civil dd :
  let '(y, m, d) := civil_from_days dd in make_day y m d = dd /\ valid_ymd y m d.
Proof.
  set (k := (dd + 719468) / 146097).
  replace dd with ((dd - 146097 * k) + 146097 * k) by ring. rewrite civil_shift.
  pose proof (civil_in_era (dd - 146097 * k)
    ltac:(pose proof (Z.mod_pos_bound (dd + 719468) 146097 ltac:(lia)); rewrite Z.mod_eq in * by lia; lia)) as Hera.
  destruct (civil_from_days (dd - 146097 * k)) as [[y m] d]. destruct Hera as [Hmd [Hm Hd]].
  rewrite make_day_shift, Hmd. split; [ring|]. split; [exact Hm|]. by rewrite days_in_month_shift.
Qed.

Lemma civil_make_day y m d : valid_ymd y m d -> civil_from_days (make_day y m d) = (y, m, d).
Proof.
  intros Hv. set (k := y / 400). set (y0 := y mod 400).
  assert (Hy : y = y0 + 400 * k) by (pose proof (Z.div_mod y 400); lia).
  unfold valid_ymd in Hv. rewrite Hy, days_in_month_shift in Hv. rewrite Hy.
  rewrite make_day_shift, civil_shift, make_day_in_era; [done| |exact Hv].
  pose proof (Z.mod_pos_bound y 400). lia.
Qed.

(** ** What the pages show of a midnight UTC *)

(** The day of the local time [t + o] minutes, for [t] a midnight UTC
    and [|o|] less than a day: the same day east of UTC, the day before
    west of it. *)
Lemma local_day_of_midnight day o :
  -1440 < o < 1440 -> (make_date day 0 + o * 60000) / msPerDay = if o <? 0 then day - 1 else day.
Proof.
  intros Ho. unfold make_date, msPerDay.
  replace (day * 86400000 + 0 + o * 60000) with (o * 60000 + day * 86400000) by ring.
  rewrite Z.div_add by lia. destruct (Z.ltb_spec o 0).
  - replace ((o * 60000) / 86400000) with (-1); [ring|]. apply Z.div_unique with (o * 60000 + 86400000); lia.
  - rewrite Z.div_small by lia. ring.
Qed.

(** The date the transaction form posts is a midnight UTC
    ([toISOString] of a [YYYY-MM-DD]).  Formatted with ['MMM d'] in a
    zone at a fixed offset of [o] minutes, it shows its own month and
    day east of UTC and in UTC, and the day before west of UTC: a
    transaction entered for March 1 is listed on Feb 28 in New York. *)
Theorem midnight_utc_shown o y m d :
  -1440 < o < 1440 -> valid_ymd y m d ->
  date_fns_format (fixed_zone o) MMM_d (Some (make_date (make_day y m d) 0)) =
    Some (if o <? 0
          then let '(_, m', d') := civil_from_days (make_day y m d - 1) in
               (month_abbr m' ++ " " ++ js_int_to_string d')%string
          else (month_abbr m ++ " " ++ js_int_to_string d)%string).
Proof.
  intros Ho Hv. unfold date_fns_format, MMM_d. cbn [map].
  unfold format_token, local_fields. cbn [tz_offset fixed_zone].
  rewrite (local_day_of_midnight _ o Ho).
  destruct (Z.ltb_spec o 0).
  - destruct (civil_from_days (make_day y m d - 1)) as [[y' m'] d']. cbn. reflexivity.
  - rewrite (civil_make_day y m d Hv). cbn. reflexivity.
Qed.

(** ** [toISOString] and [new Date] *)

Lemma digit_of_digit x : 0 <= x < 10 -> digit_of (ascii_of_digit x) = Some x.
Proof.
  intros Hx. unfold digit_of, ascii_of_digit.
  rewrite nat_ascii_embedding by lia. rewrite Z2Nat.id by lia.
  replace ((48 <=? 48 + x) && (48 + x <=? 57)) with true by lia. f_equal. lia.
Qed.

(** [read_n] reads the digits [pad_digits] writes, and only them. *)
Lemma read_n_pad k acc n r :
  read_n k acc (pad_digits k n ++ r) = Some (acc * 10 ^ Z.of_nat k + n mod 10 ^ Z.of_nat k, r).
Proof.
  revert acc. induction k as [|k IH]; intros acc; cbn [pad_digits app read_n].
  - change (Z.of_nat 0) with 0. by rewrite Z.pow_0_r, Z.mul_1_r, Z.mod_1_r, Z.add_0_r.
  - rewrite digit_of_digit by (apply Z.mod_pos_bound; lia). rewrite IH. f_equal. f_equal.
    rewrite Nat2Z.inj_succ, Z.pow_succ_r by lia.
    rewrite (Z.mul_comm 10 (10 ^ Z.of_nat k)).
    assert (Hp : 0 < 10 ^ Z.of_nat k) by (apply Z.pow_pos_nonneg; lia).
    rewrite !Z.mod_eq by lia. rewrite <- Z.div_div by lia. ring.
Qed.

Lemma read_n_pad_small k n r : 0 <= n < 10 ^ Z.of_nat k -> read_n k 0 (pad_digits k n ++ r) = Some (n, r).
Proof. intros Hn. by rewrite read_n_pad, Z.mod_small, Z.mul_0_l by done. Qed.

Lemma parse_year_unsigned x l :
  0 <= x < 10 ->
  parse_year (ascii_of_digit x :: l) = option_map (fun '(y, r') => (y, false, r')) (read_n 4 0 (ascii_of_digit x :: l)).
Proof.
  intros Hx. assert (Hc : x = 0 \/ x = 1 \/ x = 2 \/ x = 3 \/ x = 4 \/ x = 5 \/ x = 6 \/ x = 7 \/ x = 8 \/ x = 9) by lia.
  repeat (destruct Hc as [->|Hc]; [reflexivity|]). subst. reflexivity.
Qed.

Lemma parse_year_iso y r : -1000000 < y < 1000000 -> parse_year (iso_year y ++ r) = Some (y, false, r).
Proof.
  intros Hy. unfold iso_year. destruct ((0 <=? y) && (y <=? 9999)) eqn:E.
  - change (pad_digits 4 y ++ r) with (ascii_of_digit ((y / 10 ^ Z.of_nat 3) mod 10) :: (pad_digits 3 y ++ r)).
    rewrite parse_year_unsigned by (apply Z.mod_pos_bound; lia).
    change (ascii_of_digit ((y / 10 ^ Z.of_nat 3) mod 10) :: (pad_digits 3 y ++ r)) with (pad_digits 4 y ++ r).
    rewrite read_n_pad_small by (cbn; lia). done.
  - destruct (Z.ltb_spec y 0); cbn [app parse_year]; rewrite read_n_pad_small by (cbn -[Z.abs]; lia); cbn -[Z.abs].
    + rewrite (proj2 (Z.eqb_neq _ 0)) by lia. do 3 f_equal. lia.
    + do 3 f_equal. lia.
Qed.

Lemma parse_month_day_pad m d r :
  0 <= m < 100 -> 0 <= d < 100 ->
  parse_month_day ("-"%char :: pad_digits 2 m ++ "-"%char :: pad_digits 2 d ++ r) = Some (m, d, r).
Proof. intros Hm Hd. unfold parse_month_day. rewrite !read_n_pad_small by done. done. Qed.

Lemma parse_time_pad h mi s ms r :
  0 <= h < 100 -> 0 <= mi < 100 -> 0 <= s < 100 -> 0 <= ms < 1000 ->
  parse_time (pad_digits 2 h ++ ":"%char :: pad_digits 2 mi ++ ":"%char :: pad_digits 2 s ++ "."%char :: pad_digits 3 ms ++ r) =
    Some (h, mi, s, ms, r).
Proof. intros. unfold parse_time. rewrite !read_n_pad_small by done. done. Qed.

Lemma days_before_month_bound y m : 1 <= m <= 12 -> 0 <= days_before_month y m <= 335.
Proof.
  intros Hm. unfold days_before_month.
  assert (Hc : m = 1 \/ m = 2 \/ m = 3 \/ m = 4 \/ m = 5 \/ m = 6 \/ m = 7 \/ m = 8 \/ m = 9 \/ m = 10 \/ m = 11 \/ m = 12) by lia.
  repeat (destruct Hc as [->|Hc]; [destruct (is_leap y); simpl; lia|]). subst. destruct (is_leap y); simpl; lia.
Qed.

Lemma days_in_month_bound y m : 28 <= days_in_month y m <= 31.
Proof. unfold days_in_month. repeat case_match; lia. Qed.

(** The years of the time values: fewer than seven digits. *)
Lemma year_bound y m d : valid_ymd y m d -> Z.abs (make_day y m d) <= 100000001 -> -1000000 < y < 1000000.
Proof.
  intros [Hm Hd] Hb. pose proof (days_before_month_bound y m Hm). pose proof (days_in_month_bound y m).
  unfold make_day, day_from_year in Hb. Z.div_mod_to_equations. lia.
Qed.

Lemma make_time_of_ms ms :
  0 <= ms < 86400000 -> make_time (ms / 3600000) ((ms / 60000) mod 60) ((ms / 1000) mod 60) (ms mod 1000) = ms.
Proof. intros Hms. unfold make_time. Z.div_mod_to_equations. lia. Qed.

(** [toISOString] and [new Date] are inverse on the dates the
    pages hold: the text [date.toISOString()] writes for a valid time
    value is in the Date Time String Format, with the offset [Z], and
    [new Date] of it gives the same time value back in every engine,
    whatever its time zone and its parser for other strings.  The
    date the transaction form posts and the server keeps is thus read
    back as the instant the form meant. *)
Theorem toISOString_roundtrip en t :
  Z.abs t <= 8640000000000000 ->
  exists s, js_toISOString (Some t) = Some s /\ js_new_Date en s = Some t.
Proof.
  intros Ht. eexists. split; [reflexivity|].
  unfold js_new_Date, parse_date_time. rewrite String.list_ascii_of_string_of_list_ascii. unfold iso_chars.
  pose proof (make_day_civil (t / msPerDay)) as Hc.
  destruct (civil_from_days (t / msPerDay)) as [[y m] d]. destruct Hc as [Hmd [Hm Hd]].
  pose proof (days_in_month_bound y m).
  assert (Hy : -1000000 < y < 1000000).
  { apply (year_bound y m d); [done|]. rewrite Hmd. unfold msPerDay. Z.div_mod_to_equations. lia. }
  pose proof (Z.mod_pos_bound t msPerDay ltac:(done)) as Hms. set (ms := t mod msPerDay) in *.
  rewrite parse_year_iso, parse_month_day_pad by lia. cbv iota beta.
  rewrite parse_time_pad by (unfold msPerDay in Hms; Z.div_mod_to_equations; lia).
  unfold msPerDay in Hms, Hmd.
  assert (Hl : legal_time (ms / 3600000) ((ms / 60000) mod 60) ((ms / 1000) mod 60) (ms mod 1000) = true)
    by (unfold legal_time; Z.div_mod_to_equations; lia).
  rewrite Hl. replace (negb false && (1 <=? m) && (m <=? 12) && (1 <=? d) && (d <=? 31)) with true by lia.
  replace (d <=? days_in_month y m) with true by lia.
  cbn -[make_date make_day make_time].
  replace (make_date _ _ - _) with t.
  - unfold time_clip. by rewrite (proj2 (Z.leb_le _ _) Ht).
  - rewrite Hmd, make_time_of_ms by done. unfold make_date, make_time, ms, msPerDay.
    pose proof (Z.div_mod t 86400000). lia.
Qed.


(** A day [YYYY-MM-DD] of the years 0 to 9999 is read as its midnight
    UTC, in every engine. *)
Lemma date_only_new_Date en y m d s :
  0 <= y <= 9999 -> valid_ymd y m d ->
  s = String.string_of_list_ascii (pad_digits 4 y ++ "-"%char :: pad_digits 2 m ++ "-"%char :: pad_digits 2 d) ->
  js_new_Date en s = Some (make_date (make_day y m d) 0).
Proof.
  intros Hy Hv ->. pose proof Hv as [Hm Hd]. pose proof (days_in_month_bound y m).
  assert (Hi : iso_year y = pad_digits 4 y) by (unfold iso_year; by replace ((0 <=? y) && (y <=? 9999)) with true by lia).
  unfold js_new_Date, parse_date_time. rewrite String.list_ascii_of_string_of_list_ascii, <- Hi.
  rewrite <- (app_nil_r (pad_digits 2 d)), parse_year_iso, parse_month_day_pad by lia. cbv iota beta.
  replace (negb false && (1 <=? m) && (m <=? 12) && (1 <=? d) && (d <=? 31)) with true by lia.
  replace (d <=? days_in_month y m) with true by lia.
  assert (Hb : Z.abs (make_day y m d) <= 3000000) by (unfold make_day, day_from_year; pose proof (days_before_month_bound y m Hm); Z.div_mod_to_equations; lia).
  cbn -[make_date make_day time_clip]. unfold time_clip.
  by replace (Z.abs (make_date (make_day y m d) 0) <=? 8640000000000000) with true by (unfold make_date, msPerDay; lia).
Qed.

(** ... and [toISOString] writes it back with the time [T00:00:00.000Z]. *)
Lemma date_only_iso en y m d s :
  0 <= y <= 9999 -> valid_ymd y m d ->
  s = String.string_of_list_ascii (pad_digits 4 y ++ "-"%char :: pad_digits 2 m ++ "-"%char :: pad_digits 2 d) ->
  js_toISOString (js_new_Date en s) = Some (s ++ "T00:00:00.000Z")%string.
Proof.
  intros Hy Hv Hs. rewrite (date_only_new_Date en y m d s Hy Hv Hs). subst s.
  assert (Hi : iso_year y = pad_digits 4 y) by (unfold iso_year; by replace ((0 <=? y) && (y <=? 9999)) with true by lia).
  cbn -[make_date make_day iso_chars]. do 2 f_equal. unfold iso_chars.
  replace (make_date (make_day y m d) 0 / msPerDay) with (make_day y m d) by (unfold make_date, msPerDay; rewrite Z.add_0_r, Z.div_mul; lia).
  replace (make_date (make_day y m d) 0 mod msPerDay) with 0 by (unfold make_date, msPerDay; rewrite Z.add_0_r, Z.mod_mul; lia).
  rewrite civil_make_day by done. rewrite Hi. reflexivity.
Qed.

(** A year of more than four digits is outside the Date Time String
    Format, whose years have four digits, or a sign and six: its
    reading is the engine's own. *)
Lemma parse_long_year k y r : (5 <= k)%nat -> parse_date_time (String.string_of_list_ascii (pad_digits k y ++ r)) = DTNoFormat.
Proof.
  intros Hk. destruct k as [|[|[|[|[|k]]]]]; try lia.
  unfold parse_date_time. rewrite String.list_ascii_of_string_of_list_ascii. cbn [pad_digits app].
  rewrite parse_year_unsigned by (apply Z.mod_pos_bound; lia). cbn [read_n].
  rewrite !digit_of_digit by (apply Z.mod_pos_bound; lia). cbn [option_map].
  assert (Hx : 0 <= (y / 10 ^ Z.of_nat k) mod 10 < 10) by (apply Z.mod_pos_bound; lia).
  generalize dependent ((y / 10 ^ Z.of_nat k) mod 10). intros x Hx.
  assert (Hc : x = 0 \/ x = 1 \/ x = 2 \/ x = 3 \/ x = 4 \/ x = 5 \/ x = 6 \/ x = 7 \/ x = 8 \/ x = 9) by lia.
  repeat (destruct Hc as [->|Hc]; [reflexivity|]). subst. reflexivity.
Qed.

Lemma length_string_of_list_ascii l : String.length (String.string_of_list_ascii l) = length l.
Proof. induction l as [|c l IH]; cbn; [done|]. by rewrite IH. Qed.

Lemma digit_of_inv c x : digit_of c = Some x -> c = ascii_of_digit x /\ 0 <= x < 10.
Proof.
  unfold digit_of, ascii_of_digit. pose proof (nat_ascii_bounded c).
  destruct ((48 <=? Z.of_nat (nat_of_ascii c)) && (Z.of_nat (nat_of_ascii c) <=? 57)) eqn:E; [|done].
  intros [= <-]. split; [|lia]. replace (48 + (Z.of_nat (nat_of_ascii c) - 48)) with (Z.of_nat (nat_of_ascii c)) by ring.
  by rewrite Nat2Z.id, ascii_nat_embedding.
Qed.

Lemma pad_digits_length k n : length (pad_digits k n) = k.
Proof. induction k as [|k IH]; cbn; lia. Qed.

(** What [read_n] reads are the [k] digits of the value it returns. *)
Lemma read_n_inv k acc l v r :
  0 <= acc -> read_n k acc l = Some (v, r) ->
  l = pad_digits k v ++ r /\ acc * 10 ^ Z.of_nat k <= v < (acc + 1) * 10 ^ Z.of_nat k.
Proof.
  revert acc l. induction k as [|k IH]; intros acc l Hacc.
  - cbn. intros [= -> ->]. split; [done|]. lia.
  - destruct l as [|c l]; [done|]. cbn [read_n].
    destruct (digit_of c) as [x|] eqn:Hc; [|done]. apply digit_of_inv in Hc as [-> Hx].
    intros (Hl & Hv)%IH; [|lia]. rewrite Hl. cbn [pad_digits app].
    assert (Hp : 0 < 10 ^ Z.of_nat k) by (apply Z.pow_pos_nonneg; lia).
    assert (Hq : v / 10 ^ Z.of_nat k = acc * 10 + x).
    { symmetry. apply Z.div_unique with (v - 10 ^ Z.of_nat k * (acc * 10 + x)); lia. }
    rewrite Hq, Z.add_comm, Z.mod_add, Z.mod_small by lia. split; [done|].
    rewrite Nat2Z.inj_succ, Z.pow_succ_r by lia. nia.
Qed.

(** ** The day [new Date().toISOString()] starts with *)

Lemma ascii_of_digit_not_T x : 0 <= x < 10 -> Ascii.eqb (ascii_of_digit x) "T"%char = false.
Proof.
  intros Hx. assert (Hc : x = 0 \/ x = 1 \/ x = 2 \/ x = 3 \/ x = 4 \/ x = 5 \/ x = 6 \/ x = 7 \/ x = 8 \/ x = 9) by lia.
  repeat (destruct Hc as [->|Hc]; [reflexivity|]). subst. reflexivity.
Qed.

Lemma pad_digits_not_T k n : Forall (fun c => Ascii.eqb c "T"%char = false) (pad_digits k n).
Proof. induction k as [|k IH]; constructor; [|done]. apply ascii_of_digit_not_T, Z.mod_pos_bound. lia. Qed.

Lemma split_T_first_app l r :
  Forall (fun c => Ascii.eqb c "T"%char = false) l ->
  split_T_first (String.string_of_list_ascii (l ++ "T"%char :: r)) = String.string_of_list_ascii l.
Proof. induction 1 as [|c l Hc _ IH]; [done|]. cbn. by rewrite Hc, IH. Qed.

(** The text before the [T] of an ISO date is its UTC day. *)
Lemma utc_today_spec now y m d :
  civil_from_days (now / msPerDay) = (y, m, d) -> 0 <= y <= 9999 ->
  utc_today now = String.string_of_list_ascii (pad_digits 4 y ++ "-"%char :: pad_digits 2 m ++ "-"%char :: pad_digits 2 d).
Proof.
  intros Hc Hy. unfold utc_today, iso_chars. rewrite Hc.
  assert (Hi : iso_year y = pad_digits 4 y) by (unfold iso_year; by replace ((0 <=? y) && (y <=? 9999)) with true by lia).
  rewrite Hi. set (l := pad_digits 4 y ++ "-"%char :: pad_digits 2 m ++ "-"%char :: pad_digits 2 d).
  match goal with |- split_T_first (String.string_of_list_ascii (_ ++ _ :: _ ++ _ :: _ ++ _ :: ?r)) = _ =>
    replace (pad_digits 4 y ++ _) with (l ++ "T"%char :: r) by (unfold l; by rewrite <- !app_assoc) end.
  apply split_T_first_app. unfold l.
  apply Forall_app; split; [apply pad_digits_not_T|]. constructor; [done|].
  apply Forall_app; split; [apply pad_digits_not_T|]. constructor; [done|]. apply pad_digits_not_T.
Qed.

(** The time values [new Date] gives pass TimeClip. *)
Lemma js_new_Date_bound en s t : js_new_Date en s = Some t -> Z.abs t <= 8640000000000000.
Proof.
  unfold js_new_Date. intros (t' & _ & Ht)%bind_Some.
  unfold time_clip in Ht. case_match eqn:E; simplify_eq. lia.
Qed.
