(* ===== verification/Storage.v ===== *)
(** * The browser's [localStorage], the durable side of the Session Store

    [localStorage] is the only shared mutable resource of the client
    (spec §5): [AuthContext.tsx] writes the keys ["token"] and
    ["userEmail"], [lib/api.ts] reads ["token"] on every request.  The
    components are proved against the interface [WebStorage] and its laws;
    [gmap string string] implements it. *)

From S2P Require Import Prelude Js.

Local Open Scope string_scope.

(** ** Interface *)

Class WebStorage (St : Type) := {
  getItem : St -> string -> option string;
  setItem : string -> string -> St -> St;
  removeItem : string -> St -> St;
}.

Class WebStorageLaws (St : Type) `{WebStorage St} := {
  getItem_setItem_eq k v s : getItem (setItem k v s) k = Some v;
  getItem_setItem_ne k k' v s : k <> k' -> getItem (setItem k v s) k' = getItem s k';
  getItem_removeItem_eq k s : getItem (removeItem k s) k = None;
  getItem_removeItem_ne k k' s : k <> k' -> getItem (removeItem k s) k' = getItem s k';
}.

(** ** The keys of the session *)

Definition TOKEN_KEY : string := "token".
Definition EMAIL_KEY : string := "userEmail".

Lemma keys_distinct : TOKEN_KEY <> EMAIL_KEY.
Proof. done. Qed.

(** The Session the store holds (spec §3 and §4.1, [get()]): the values
    under the two keys.  Reading never fails: a missing key is [None]. *)
Record session := Session { s_token : option string; s_email : option string }.

#[export] Instance session_eq_dec : EqDecision session.
Proof. solve_decision. Defined.

Definition anonymous : session := Session None None.

Section Session.
Context {St : Type} `{WebStorageLaws St}.

Definition stored_session (s : St) : session :=
  Session (getItem s TOKEN_KEY) (getItem s EMAIL_KEY).

(** A request carries a bearer token when the stored token is truthy. *)
Definition has_token (s : St) : bool := truthy (of_item (getItem s TOKEN_KEY)).

Lemma stored_session_set_token_email tok em s :
  stored_session (setItem EMAIL_KEY em (setItem TOKEN_KEY tok s)) = Session (Some tok) (Some em).
Proof.
  unfold stored_session. rewrite getItem_setItem_eq.
  rewrite getItem_setItem_ne by done. rewrite getItem_setItem_eq. done.
Qed.

Lemma stored_session_remove_both s :
  stored_session (removeItem EMAIL_KEY (removeItem TOKEN_KEY s)) = anonymous.
Proof.
  unfold stored_session. rewrite getItem_removeItem_eq.
  rewrite getItem_removeItem_ne by done. rewrite getItem_removeItem_eq. done.
Qed.

(** The Session Store holds a token exactly when it holds an email: the
    two entries are written together and cleared together (spec §6). *)
Definition session_wf (s : St) : Prop :=
  is_Some (getItem s TOKEN_KEY) <-> is_Some (getItem s EMAIL_KEY).

Lemma session_wf_set_token_email tok em s :
  session_wf (setItem EMAIL_KEY em (setItem TOKEN_KEY tok s)).
Proof.
  pose proof (stored_session_set_token_email tok em s) as Hs. unfold stored_session in Hs.
  injection Hs as Ht He. unfold session_wf. rewrite Ht, He. split; eauto.
Qed.

Lemma session_wf_remove_both s : session_wf (removeItem EMAIL_KEY (removeItem TOKEN_KEY s)).
Proof.
  pose proof (stored_session_remove_both s) as Hs. unfold stored_session in Hs.
  injection Hs as Ht He. unfold session_wf. rewrite Ht, He. done.
Qed.

Lemma getItem_other_set k k' v s :
  k <> k' -> getItem (setItem k v s) k' = getItem s k'.
Proof. apply getItem_setItem_ne. Qed.
End Session.

(** ** The implementation: a finite map from keys to strings *)

#[export] Instance gmap_web_storage : WebStorage (gmap string string) := {
  getItem s k := s !! k;
  setItem k v s := <[k:=v]> s;
  removeItem k s := delete k s;
}.

#[export] Instance gmap_web_storage_laws : WebStorageLaws (gmap string string).
Proof.
  split; simpl; intros.
  - apply lookup_insert_eq.
  - by apply lookup_insert_ne.
  - apply lookup_delete_eq.
  - by apply lookup_delete_ne.
Qed.

(** [simpl_storage] evaluates reads of written or removed keys; the
    side conditions are disequalities of literal keys. *)
Ltac simpl_storage :=
  repeat first
    [ rewrite getItem_setItem_eq
    | rewrite getItem_removeItem_eq
    | rewrite getItem_setItem_ne by done
    | rewrite getItem_removeItem_ne by done ].

#[export] Hint Rewrite @getItem_setItem_eq @getItem_removeItem_eq : et_rw.
