(* ===== verification/Async.v ===== *)
(** * The browser's asynchronous execution model

    The client is single-threaded and event driven (spec §5).  A handler
    written with `async`/`await` runs synchronously up to its first
    `await fetch(...)`; the rest runs later, when the response arrives,
    interleaved with whatever else happened in between.  This file holds:
    - the Fetch API's request and response (what [fetch] sends and what
      the server answers, or a network failure);
    - [task S], the shape of an async handler over a state [S]: state
      updates ([setState], [localStorage] writes), reads of the current
      state, an awaited [fetch] with its continuation, and an async call
      that is not awaited ([Spawn]);
    - [run], the synchronous execution of a task up to its awaits, which
      returns the continuations left waiting for a response;
    - lenses, to run a component's task inside a larger state. *)

From S2P Require Import Prelude Js.

Local Open Scope string_scope.

(** ** The Fetch API *)

Record request := Request {
  req_url : string;
  req_method : string;
  req_headers : gmap string string;
  req_body : option json;
}.

(** The body of a response, as [response.json()] reads it:
    - [BJson v]: JSON of the shape the caller's type parameter [T] names;
    - [BObj m]: some other JSON object, of which only its [message]
      field matters to the client (the server's error bodies);
    - [BNotJson e]: a body that is not JSON; [response.json()] rejects
      with a [SyntaxError] whose message is [e]. *)
Inductive resp_body (T : Type) : Type :=
| BJson (v : T)
| BObj (message : jsstr)
| BNotJson (e : string).
Arguments BJson {T} v.
Arguments BObj {T} message.
Arguments BNotJson {T} e.

Record response (T : Type) := Response {
  status : Z;
  statusText : string;
  body : resp_body T;
}.
Arguments Response {T} status statusText body.
Arguments status {T} r.
Arguments statusText {T} r.
Arguments body {T} r.

(** [response.ok]: a status in the range 200-299. *)
Definition resp_ok {T} (r : response T) : bool :=
  (200 <=? status r)%Z && (status r <=? 299)%Z.

(** What an awaited [fetch] yields: a response, or a rejection (a
    transport failure) with the engine's message. *)
Inductive fetch_result (T : Type) : Type :=
| FResp (r : response T)
| FNetErr (message : string).
Arguments FResp {T} r.
Arguments FNetErr {T} message.

(** ** Async handlers *)

Inductive task (S : Type) : Type :=
| Done
| Upd (f : S -> S) (k : task S)
| Read (k : S -> task S)
| Fetch {T : Type} (r : request) (k : fetch_result T -> task S)
| FetchAll2 {T1 T2 : Type} (r1 r2 : request) (k : fetch_result T1 -> fetch_result T2 -> bool -> task S)
| Spawn (t : task S) (k : task S).
Arguments Done {S}.
Arguments Upd {S} f k.
Arguments Read {S} k.
Arguments Fetch {S T} r k.
Arguments FetchAll2 {S T1 T2} r1 r2 k.
Arguments Spawn {S} t k.

Notation "'let!' s ':=' 'current' 'in' k" := (Read (fun s => k))
  (at level 10, s binder, k at level 200) : et_scope.
Notation "'await!' x ':=' r 'in' k" := (Fetch r (fun x => k))
  (at level 10, x binder, k at level 200) : et_scope.

(** A continuation waiting for the answer to the requests it sent: the
    response to one request, or, for [Promise.all] over two requests,
    both responses and which of them settled first. *)
Record pending (S : Type) := Pending {
  p_ans : Type;
  p_reqs : list request;
  p_k : p_ans -> task S;
}.
Arguments Pending {S p_ans} p_reqs p_k.
Arguments p_ans {S} p.
Arguments p_reqs {S} p.
Arguments p_k {S} p _.

Definition pending1 {S T} (r : request) (k : fetch_result T -> task S) : pending S :=
  Pending (p_ans := fetch_result T) [r] k.

Definition pending2 {S T1 T2} (r1 r2 : request)
    (k : fetch_result T1 -> fetch_result T2 -> bool -> task S) : pending S :=
  Pending (p_ans := fetch_result T1 * fetch_result T2 * bool) [r1; r2]
    (fun x => k (fst (fst x)) (snd (fst x)) (snd x)).

(** Synchronous execution up to the awaits.  A call that is not awaited
    runs synchronously up to its own first await before the caller
    continues, as an async function call does in JavaScript. *)
Fixpoint run {S} (t : task S) (s : S) : S * list (pending S) :=
  match t with
  | Done => (s, [])
  | Upd f k => run k (f s)
  | Read k => run (k s) s
  | Fetch r k => (s, [pending1 r k])
  | FetchAll2 r1 r2 k => (s, [pending2 r1 r2 k])
  | Spawn t k =>
      let (s1, p1) := run t s in
      let (s2, p2) := run k s1 in
      (s2, (p1 ++ p2)%list)
  end.

(** A task is synchronous when it never awaits. *)
Fixpoint sync {S} (t : task S) : Prop :=
  match t with
  | Done => True
  | Upd _ k => sync k
  | Read k => forall s, sync (k s)
  | Fetch _ _ => False
  | FetchAll2 _ _ _ => False
  | Spawn t k => sync t /\ sync k
  end.

Lemma run_sync {S} (t : task S) s : sync t -> snd (run t s) = [].
Proof.
  revert s. induction t as [|f k IH|k IH|T r k IH|T1 T2 r1 r2 k IH|t IHt k IHk]; intros s Hs; simpl in *.
  - done.
  - by apply IH.
  - by apply IH.
  - done.
  - done.
  - destruct Hs as [Ht Hk].
    specialize (IHt s Ht). destruct (run t s) as [s1 p1] eqn:E1. simpl in IHt.
    specialize (IHk s1 Hk). destruct (run k s1) as [s2 p2]. simpl in *. by subst.
Qed.

(** ** Lenses *)

Record lens (G S : Type) := Lens { lget : G -> S; lset : S -> G -> G }.
Arguments Lens {G S} lget lset.
Arguments lget {G S} l g.
Arguments lset {G S} l s g.

Class LensLaws {G S} (l : lens G S) := {
  lget_lset s g : lget l (lset l s g) = s;
  lset_lget g : lset l (lget l g) g = g;
  lset_lset s s' g : lset l s' (lset l s g) = lset l s' g;
}.

Fixpoint lift {G S} (l : lens G S) (t : task S) : task G :=
  match t with
  | Done => Done
  | Upd f k => Upd (fun g => lset l (f (lget l g)) g) (lift l k)
  | Read k => Read (fun g => lift l (k (lget l g)))
  | Fetch r k => Fetch r (fun x => lift l (k x))
  | FetchAll2 r1 r2 k => FetchAll2 r1 r2 (fun x1 x2 b => lift l (k x1 x2 b))
  | Spawn t k => Spawn (lift l t) (lift l k)
  end.

Definition lift_pending {G S} (l : lens G S) (p : pending S) : pending G :=
  Pending (p_reqs p) (fun x => lift l (p_k p x)).

(** Running a lifted task runs the task on the focused part and leaves
    the rest of the state as it was. *)
Lemma run_lift {G S} (l : lens G S) `{!LensLaws l} (t : task S) (g : G) :
  run (lift l t) g =
  (lset l (fst (run t (lget l g))) g, map (lift_pending l) (snd (run t (lget l g)))).
Proof.
  revert g. induction t as [|f k IH|k IH|T r k IH|T1 T2 r1 r2 k IH|t IHt k IHk]; intros g; simpl.
  - by rewrite lset_lget.
  - rewrite IH, lget_lset, lset_lset. done.
  - apply IH.
  - by rewrite lset_lget.
  - by rewrite lset_lget.
  - rewrite IHt. destruct (run t (lget l g)) as [s1 p1]. simpl.
    rewrite IHk, lget_lset, lset_lset. destruct (run k s1) as [s2 p2]. simpl.
    by rewrite map_app.
Qed.

(** ** Reasoning about every continuation of a task *)

Section TaskPredicates.
Context {S : Type}.

(** Every request the task sends, now or in any continuation, whatever
    the responses, satisfies [P]. *)
Inductive all_requests (P : request -> Prop) : task S -> Prop :=
| ar_done : all_requests P Done
| ar_upd f k : all_requests P k -> all_requests P (Upd f k)
| ar_read k : (forall s, all_requests P (k s)) -> all_requests P (Read k)
| ar_fetch {T} r (k : fetch_result T -> task S) :
    P r -> (forall x, all_requests P (k x)) -> all_requests P (Fetch r k)
| ar_fetch2 {T1 T2} r1 r2 (k : fetch_result T1 -> fetch_result T2 -> bool -> task S) :
    P r1 -> P r2 -> (forall x1 x2 b, all_requests P (k x1 x2 b)) -> all_requests P (FetchAll2 r1 r2 k)
| ar_spawn t k : all_requests P t -> all_requests P k -> all_requests P (Spawn t k).

(** Every state update of the task, now or in any continuation, keeps
    the invariant [I]. *)
Inductive preserves (I : S -> Prop) : task S -> Prop :=
| pv_done : preserves I Done
| pv_upd f k : (forall s, I s -> I (f s)) -> preserves I k -> preserves I (Upd f k)
| pv_read k : (forall s, preserves I (k s)) -> preserves I (Read k)
| pv_fetch {T} r (k : fetch_result T -> task S) :
    (forall x, preserves I (k x)) -> preserves I (Fetch r k)
| pv_fetch2 {T1 T2} r1 r2 (k : fetch_result T1 -> fetch_result T2 -> bool -> task S) :
    (forall x1 x2 b, preserves I (k x1 x2 b)) -> preserves I (FetchAll2 r1 r2 k)
| pv_spawn t k : preserves I t -> preserves I k -> preserves I (Spawn t k).

Definition pending_ok (Q : task S -> Prop) (p : pending S) : Prop :=
  forall x, Q (p_k p x).

Lemma run_all_requests P (t : task S) s :
  all_requests P t ->
  Forall (fun p => Forall P (p_reqs p) /\ pending_ok (all_requests P) p) (snd (run t s)).
Proof.
  intros Ht. revert s.
  induction Ht as [|f k _ IH|k _ IH|T r k Hr Hk IH|T1 T2 r1 r2 k Hr1 Hr2 Hk IH|t k _ IHt _ IHk];
    intros s; simpl.
  - constructor.
  - apply IH.
  - apply IH.
  - constructor; [|constructor]. split; [by repeat constructor|]. exact Hk.
  - constructor; [|constructor]. split; [by repeat constructor|]. intros x. apply Hk.
  - specialize (IHt s). destruct (run t s) as [s1 p1]. specialize (IHk s1).
    destruct (run k s1) as [s2 p2]. simpl in *. by apply Forall_app.
Qed.

Lemma run_preserves I (t : task S) s :
  preserves I t -> I s ->
  I (fst (run t s)) /\ Forall (pending_ok (preserves I)) (snd (run t s)).
Proof.
  intros Ht. revert s.
  induction Ht as [|f k Hf _ IH|k _ IH|T r k Hk IH|T1 T2 r1 r2 k Hk IH|t k _ IHt _ IHk];
    intros s Hs; simpl.
  - split; [exact Hs|constructor].
  - apply IH, Hf, Hs.
  - apply IH, Hs.
  - split; [exact Hs|]. constructor; [|constructor]. exact Hk.
  - split; [exact Hs|]. constructor; [|constructor]. intros x. apply Hk.
  - destruct (IHt s Hs) as [Hs1 Hp1]. destruct (run t s) as [s1 p1]. simpl in *.
    destruct (IHk s1 Hs1) as [Hs2 Hp2]. destruct (run k s1) as [s2 p2]. simpl in *.
    split; [exact Hs2|]. by apply Forall_app.
Qed.
End TaskPredicates.

#[export] Hint Constructors all_requests preserves : et.

(** [task_pred] unfolds a handler into the constructors of [all_requests]
    or [preserves], leaving the obligations on requests and updates. *)
Ltac task_pred :=
  repeat first
    [ progress intros
    | match goal with
      | |- all_requests _ _ => constructor
      | |- preserves _ _ => constructor
      end
    | case_match
    | progress cbn zeta ].


