(* ===== verification/System.v ===== *)
(** * Interleaving of events, responses and reloads

    A page of the client lives in a browser tab: the user triggers the
    handlers its view enables, responses to the requests already sent
    arrive in any order, at any time or never, and the tab can be
    reloaded, which discards the page's state and every request still
    waiting (spec §5: "a view leaving scope before a request completes
    simply discards the result").  This file holds that semantics for a
    page whose state is [S]:
    - [sys], the page's state, the continuations waiting for responses,
      and the log of every request sent so far;
    - [sys_step], the step relation: a handler the view enables starts,
      or one waiting continuation resumes with any answer, or the tab
      reloads; [reachable] is its reflexive-transitive closure;
    - the two induction principles the pages' theorems use: an invariant
      kept by every update of every enabled handler holds in every
      reachable state, and a property of every request of every enabled
      handler holds of every request ever sent, also when it rests on
      an invariant of the state the request is built from. *)

From S2P Require Import Prelude Js Async.

Section Interleaving.
Context {S : Type}.

(** [enabled s t]: the view, in state [s], lets the user start [t]. *)
Variable enabled : S -> task S -> Prop.
(** The state after a reload. *)
Variable reset : S -> S.

Record sys := Sys {
  sys_state : S;
  sys_pending : list (pending S);
  sys_sent : list request;
}.

(** Running [t] from the system's state: its updates happen now, its
    awaits join the waiting continuations, its requests are sent. *)
Definition start (t : task S) (σ : sys) : sys :=
  let (s', ps) := run t (sys_state σ) in
  Sys s' (sys_pending σ ++ ps) (sys_sent σ ++ concat (map p_reqs ps)).

Inductive sys_step : sys -> sys -> Prop :=
| st_event σ t :
    enabled (sys_state σ) t -> sys_step σ (start t σ)
| st_resume s ps1 p ps2 sent (x : p_ans p) :
    sys_step (Sys s (ps1 ++ p :: ps2) sent) (start (p_k p x) (Sys s (ps1 ++ ps2) sent))
| st_reload σ :
    sys_step σ (Sys (reset (sys_state σ)) [] (sys_sent σ)).

Definition reachable : sys -> sys -> Prop := rtc sys_step.

(** [st_resume] for a state whose waiting list is known by an equation. *)
Lemma st_resume_at σ ps1 p ps2 (x : p_ans p) :
  sys_pending σ = ps1 ++ p :: ps2 ->
  sys_step σ (start (p_k p x) (Sys (sys_state σ) (ps1 ++ ps2) (sys_sent σ))).
Proof. destruct σ as [s ps sent]. simpl. intros ->. apply st_resume. Qed.

(** The system's form of an invariant [I] of the page's state: [I]
    holds now and every waiting continuation keeps it. *)
Definition sys_inv (I : S -> Prop) (σ : sys) : Prop :=
  I (sys_state σ) /\ Forall (pending_ok (preserves I)) (sys_pending σ).

(** The system's form of a property [P] of requests: every request sent
    so far has it, and so will every request of a waiting
    continuation. *)
Definition sys_requests (P : request -> Prop) (σ : sys) : Prop :=
  Forall P (sys_sent σ) /\ Forall (pending_ok (all_requests P)) (sys_pending σ).

Lemma start_inv I t σ : preserves I t -> sys_inv I σ -> sys_inv I (start t σ).
Proof.
  intros Ht [Hs Hps]. unfold start.
  destruct (run_preserves I t (sys_state σ) Ht Hs) as [Hs' Hps'].
  destruct (run t (sys_state σ)) as [s' ps]. split; [exact Hs'|]. by apply Forall_app.
Qed.

(** The requests [t] sends at once have [P], and its continuations
    send only requests with [P]. *)
Lemma start_run_requests P t σ :
  Forall (fun p => Forall P (p_reqs p) /\ pending_ok (all_requests P) p) (snd (run t (sys_state σ))) ->
  sys_requests P σ -> sys_requests P (start t σ).
Proof.
  intros Hr [Hs Hps]. unfold start. destruct (run t (sys_state σ)) as [s' ps]. simpl in Hr. split.
  - apply Forall_app; split; [exact Hs|]. apply Forall_concat, List.Forall_map.
    eapply Forall_impl; [exact Hr|]. by intros p [? _].
  - apply Forall_app; split; [exact Hps|]. eapply Forall_impl; [exact Hr|]. by intros p [_ ?].
Qed.

Lemma start_requests P t σ : all_requests P t -> sys_requests P σ -> sys_requests P (start t σ).
Proof. intros Ht. apply start_run_requests, run_all_requests, Ht. Qed.

Lemma Forall_middle {A} (P : A -> Prop) l1 x l2 :
  Forall P (l1 ++ x :: l2) -> P x /\ Forall P (l1 ++ l2).
Proof. rewrite !Forall_app, Forall_cons. tauto. Qed.

Section Induction.
Variable I : S -> Prop.
Hypothesis enabled_preserves : forall s t, enabled s t -> preserves I t.
Hypothesis reset_inv : forall s, I s -> I (reset s).

Lemma step_inv σ σ' : sys_step σ σ' -> sys_inv I σ -> sys_inv I σ'.
Proof.
  intros Hst Hσ. destruct Hst as [σ t Ht|s ps1 p ps2 sent x|σ].
  - by apply start_inv; [eapply enabled_preserves|].
  - destruct Hσ as [Hs Hps]. apply Forall_middle in Hps as [Hp Hps].
    apply start_inv; [apply Hp|]. by split.
  - split; [apply reset_inv, Hσ|constructor].
Qed.

Lemma reachable_inv σ σ' : reachable σ σ' -> sys_inv I σ -> sys_inv I σ'.
Proof. induction 1; eauto using step_inv. Qed.
End Induction.

Section RequestInduction.
Variable P : request -> Prop.
Hypothesis enabled_requests : forall s t, enabled s t -> all_requests P t.

Lemma step_requests σ σ' : sys_step σ σ' -> sys_requests P σ -> sys_requests P σ'.
Proof.
  intros Hst Hσ. destruct Hst as [σ t Ht|s ps1 p ps2 sent x|σ].
  - by apply start_requests; [eapply enabled_requests|].
  - destruct Hσ as [Hs Hps]. apply Forall_middle in Hps as [Hp Hps].
    apply start_requests; [apply Hp|]. by split.
  - split; [apply Hσ|constructor].
Qed.

Lemma reachable_requests σ σ' : reachable σ σ' -> sys_requests P σ -> sys_requests P σ'.
Proof. induction 1; eauto using step_requests. Qed.
End RequestInduction.

(** A property [P] of the requests that holds because of an invariant
    [I] of the state: the requests a handler sends at once are built
    from a state where [I] holds, and its continuations send only
    requests with [P]. *)
Section GuardedRequests.
Variable I : S -> Prop.
Variable P : request -> Prop.
Hypothesis enabled_preserves : forall s t, enabled s t -> preserves I t.
Hypothesis reset_inv : forall s, I s -> I (reset s).
Hypothesis enabled_run : forall s t, enabled s t -> I s ->
  Forall (fun p => Forall P (p_reqs p) /\ pending_ok (all_requests P) p) (snd (run t s)).

Lemma reachable_guarded_requests σ σ' :
  reachable σ σ' -> sys_inv I σ /\ sys_requests P σ -> sys_inv I σ' /\ sys_requests P σ'.
Proof.
  induction 1 as [σ|σ1 σ2 σ3 Hst _ IH]; [done|]. intros [Hi Hr]. apply IH. split.
  - by eapply step_inv.
  - destruct Hst as [σ t Ht|s ps1 p ps2 sent x|σ].
    + apply start_run_requests; [|exact Hr]. apply enabled_run; [exact Ht|apply Hi].
    + destruct Hr as [Hs Hps]. apply Forall_middle in Hps as [Hp Hps].
      apply start_requests; [apply Hp|]. by split.
    + split; [apply Hr|constructor].
Qed.
End GuardedRequests.

(** The continuations waiting after a task starts: those waiting
    before, then those the task leaves. *)
Lemma start_pending t σ : sys_pending (start t σ) = sys_pending σ ++ snd (run t (sys_state σ)).
Proof. unfold start. by destruct (run t (sys_state σ)). Qed.


(** A fresh tab: nothing waiting, nothing sent. *)
Definition boot (s : S) : sys := Sys s [] [].

Lemma boot_inv (I : S -> Prop) s : I s -> sys_inv I (boot s).
Proof. split; [done|constructor]. Qed.

Lemma boot_requests P s : sys_requests P (boot s).
Proof. split; constructor. Qed.
End Interleaving.

Arguments Sys {S} sys_state sys_pending sys_sent.

#[export] Hint Resolve boot_inv boot_requests : et.
