(* ===== verification/Api.v ===== *)
(** * The API Gateway Client ([src/frontend/src/lib/api.ts])

    [ApiClient.getHeaders] reads the token from [localStorage] and adds a
    bearer header when it is truthy; [request] prefixes the endpoint with
    [BASE_URL], merges the caller's headers over the defaults, awaits
    [fetch], and turns the response into a resolved value or a thrown
    [Error]; [get]/[post]/[put]/[delete] fix the method and the body.

    A rejected call is modelled by the only thing the callers can observe
    of the thrown value, its [message]: the code throws a plain [Error],
    so the HTTP status is not part of what a caller receives. *)

From S2P Require Import Prelude Js Storage Async.

Local Open Scope string_scope.

(** What a resolved [request<T>] returns: a value of the caller's type,
    or another object cast to [T] (the [{}] returned for a 204, or an
    object body of another shape), of which we keep its [message]. *)
Inductive api_value (T : Type) : Type :=
| AVal (v : T)
| AObj (message : jsstr).
Arguments AVal {T} v.
Arguments AObj {T} message.

Inductive api_outcome (T : Type) : Type :=
| Resolved (v : api_value T)
| Rejected (message : string).
Arguments Resolved {T} v.
Arguments Rejected {T} message.

(** [RequestOptions]: the fields of [RequestInit] the client uses. *)
Record req_options := ReqOptions {
  o_method : option string;
  o_headers : gmap string string;
  o_body : option json;
}.

Definition BASE_URL : string := "/api".

(** The options the four verbs pass to [request]. *)
Definition get_options : req_options := ReqOptions (Some "GET") ∅ None.
Definition post_options (b : json) : req_options := ReqOptions (Some "POST") ∅ (Some b).
Definition put_options (b : json) : req_options := ReqOptions (Some "PUT") ∅ (Some b).
Definition delete_options : req_options := ReqOptions (Some "DELETE") ∅ None.

(** [Promise.all([a, b])] over two client calls: both requests are sent
    at once; it resolves with both values, or rejects with the message of
    the call that rejected first. *)
Inductive all2_outcome (A B : Type) : Type :=
| Both (a : api_value A) (b : api_value B)
| FirstRejection (message : string).
Arguments Both {A B} a b.
Arguments FirstRejection {A B} message.

Definition promise_all2 {A B} (o1 : api_outcome A) (o2 : api_outcome B) (first1 : bool) : all2_outcome A B :=
  match o1, o2 with
  | Resolved a, Resolved b => Both a b
  | Rejected m, Resolved _ => FirstRejection m
  | Resolved _, Rejected m => FirstRejection m
  | Rejected m1, Rejected m2 => FirstRejection (if first1 then m1 else m2)
  end.

Section ApiClient.
Context {St : Type} `{WebStorageLaws St}.

(** [private getHeaders()]. *)
Definition getHeaders (st : St) : gmap string string :=
  let headers : gmap string string := {["Content-Type" := "application/json"]} in
  match getItem st TOKEN_KEY with
  | Some token =>
      if truthy (JSStr token) then <["Authorization" := "Bearer " ++ token]> headers
      else headers
  | None => headers
  end.

(** The [fetch] call of [request]: [url], and [{...options, headers}]
    with [headers = {...this.getHeaders(), ...options.headers}]. *)
Definition request_of (st : St) (endpoint : string) (o : req_options) : request :=
  Request (BASE_URL ++ endpoint) (default "GET" (o_method o))
    (o_headers o ∪ getHeaders st) (o_body o).

(** The part of [request] after [await fetch(...)].  The [401] branch
    of the code has an empty body and is omitted. *)
Definition interpret {T} (fr : fetch_result T) : api_outcome T :=
  match fr with
  | FNetErr m => Rejected m
  | FResp r =>
      if negb (resp_ok r) then
        let errorData_message :=
          match body r with
          | BObj m => m
          | _ => JSUndef
          end in
        Rejected (js_or errorData_message ("API Error: " ++ statusText r))
      else if (status r =? 204)%Z then Resolved (AObj JSUndef)
      else
        match body r with
        | BJson v => Resolved (AVal v)
        | BObj m => Resolved (AObj m)
        | BNotJson e => Rejected e
        end
  end.

Context {S : Type} (storage_of : S -> St).

(** [async request<T>(endpoint, options)]: the headers are read from
    the storage when the call is made, before the await. *)
Definition api_request {T} (endpoint : string) (o : req_options)
    (k : api_outcome T -> task S) : task S :=
  Read (fun s => Fetch (request_of (storage_of s) endpoint o) (fun fr => k (interpret fr))).

Definition api_get {T} (endpoint : string) (k : api_outcome T -> task S) : task S :=
  api_request endpoint get_options k.

Definition api_post {T} (endpoint : string) (b : json) (k : api_outcome T -> task S) : task S :=
  api_request endpoint (post_options b) k.

Definition api_put {T} (endpoint : string) (b : json) (k : api_outcome T -> task S) : task S :=
  api_request endpoint (put_options b) k.

Definition api_delete {T} (endpoint : string) (k : api_outcome T -> task S) : task S :=
  api_request endpoint delete_options k.
(** [Promise.all] over two [api.get] calls. *)
Definition api_get_all2 {T1 T2} (e1 e2 : string) (k : all2_outcome T1 T2 -> task S) : task S :=
  Read (fun s =>
    FetchAll2 (request_of (storage_of s) e1 get_options)
              (request_of (storage_of s) e2 get_options)
              (fun x1 x2 first1 => k (promise_all2 (interpret x1) (interpret x2) first1))).
End ApiClient.

(** A [200 OK] response carrying [v]. *)
Definition ok_response {T} (v : T) : fetch_result T := FResp (Response 200 "OK" (BJson v)).

(** ** Properties of the client *)

Section ApiProperties.
Context {St : Type} `{WebStorageLaws St}.

Lemma getHeaders_content_type (st : St) :
  getHeaders st !! "Content-Type" = Some "application/json".
Proof.
  unfold getHeaders. destruct (getItem st TOKEN_KEY) as [t|]; [destruct (truthy (JSStr t))|].
  all: rewrite ?lookup_insert_ne by done; apply lookup_singleton_eq.
Qed.

Lemma getHeaders_authorization (st : St) v :
  getHeaders st !! "Authorization" = Some v <->
  exists t, getItem st TOKEN_KEY = Some t /\ t <> "" /\ v = "Bearer " ++ t.
Proof.
  unfold getHeaders. destruct (getItem st TOKEN_KEY) as [t|].
  - destruct (truthy (JSStr t)) eqn:Ht.
    + rewrite lookup_insert_eq. apply truthy_JSStr in Ht.
      split; [intros [= <-]; eauto|]. intros (? & [= <-] & _ & ->). done.
    + rewrite lookup_singleton_ne by done. split; [done|].
      intros (? & [= <-] & Hne & _). apply truthy_JSStr in Hne. congruence.
  - rewrite lookup_singleton_ne by done. split; [done|]. intros (? & ? & _). done.
Qed.

Context {S : Type} (storage_of : S -> St).

(** C6. Every call made through the client sends one request to
    [BASE_URL ++ endpoint], with the JSON content type, and with the
    header [Authorization: Bearer t] exactly when the token [t] stored
    when the call is made is a non-empty string (spec §4.2). *)
Theorem api_request_headers {T} endpoint o (k : api_outcome T -> task S) s :
  o_headers o = ∅ ->
  exists r (kk : fetch_result T -> task S),
    run (api_request storage_of endpoint o k) s = (s, [pending1 r kk]) /\
    req_url r = BASE_URL ++ endpoint /\
    req_headers r !! "Content-Type" = Some "application/json" /\
    (forall v, req_headers r !! "Authorization" = Some v <->
       exists t, getItem (storage_of s) TOKEN_KEY = Some t /\ t <> "" /\ v = "Bearer " ++ t).
Proof.
  intros Ho. eexists _, _. split; [reflexivity|]. simpl. rewrite Ho.
  split; [done|]. split.
  - rewrite map_empty_union. apply getHeaders_content_type.
  - intros v. rewrite map_empty_union. apply getHeaders_authorization.
Qed.

(** A response that is not [ok] is thrown as an [Error] whose
    message is the [message] of the server's error body when it is a
    non-empty string, and ["API Error: " ++ statusText] otherwise. *)
Theorem interpret_not_ok {T} (r : response T) :
  resp_ok r = false ->
  interpret (FResp r) =
    Rejected (match body r with
              | BObj (JSStr m) => if String.eqb m "" then "API Error: " ++ statusText r else m
              | _ => "API Error: " ++ statusText r
              end).
Proof.
  intros Hok. simpl. rewrite Hok. simpl.
  destruct (body r) as [v|[| |m]|e]; simpl; try done.
  destruct (String.eqb m ""); done.
Qed.

(** A [204 No Content] resolves to the empty object [{}], whatever
    the body, and any other [ok] response resolves to its JSON body. *)
Theorem interpret_ok {T} (r : response T) :
  resp_ok r = true ->
  interpret (FResp r) =
    if (status r =? 204)%Z then Resolved (AObj JSUndef)
    else match body r with
         | BJson v => Resolved (AVal v)
         | BObj m => Resolved (AObj m)
         | BNotJson e => Rejected e
         end.
Proof. intros Hok. simpl. rewrite Hok. done. Qed.

(** The client does not single out [401 Unauthorized]: two failed
    responses with the same status text and body are thrown as the same
    error, whatever their statuses.  Callers therefore cannot detect an
    invalid session (spec §4.2 requires the 401 case to be
    distinguished). *)
Theorem interpret_status_blind {T} (r r' : response T) :
  resp_ok r = false -> resp_ok r' = false ->
  statusText r = statusText r' -> body r = body r' ->
  interpret (FResp r) = interpret (FResp r').
Proof. intros Hr Hr' Ht Hb. simpl. rewrite Hr, Hr', Ht, Hb. done. Qed.
End ApiProperties.

(** ** Witnesses *)

Definition token_store : gmap string string := <[TOKEN_KEY := "T1"]> ∅.

Lemma api_request_headers_witness :
  o_headers (ReqOptions (Some "GET") ∅ None) = ∅ /\
  exists r (kk : fetch_result unit -> task (gmap string string)),
    run (api_request (T := unit) (fun s => s) "/proposals" (ReqOptions (Some "GET") ∅ None) (fun _ => Done)) token_store
      = (token_store, [pending1 r kk]) /\
    req_url r = BASE_URL ++ "/proposals" /\
    req_headers r !! "Content-Type" = Some "application/json" /\
    (forall v, req_headers r !! "Authorization" = Some v <->
       exists t, getItem token_store TOKEN_KEY = Some t /\ t <> "" /\ v = "Bearer " ++ t).
Proof.
  split; [reflexivity|].
  apply (api_request_headers (St := gmap string string) (fun s => s)). reflexivity.
Defined.

Definition server_error (code : Z) : response unit :=
  Response code "Unauthorized" (BObj (JSStr "Token expired")).

Lemma interpret_not_ok_witness :
  resp_ok (server_error 401) = false /\
  interpret (FResp (server_error 401)) = Rejected "Token expired".
Proof.
  split; [reflexivity|].
  apply (interpret_not_ok (server_error 401)). reflexivity.
Defined.

Lemma interpret_status_blind_witness :
  resp_ok (server_error 401) = false /\ resp_ok (server_error 500) = false /\
  interpret (FResp (server_error 401)) =
  interpret (FResp (server_error 500)).
Proof.
  split; [reflexivity|]. split; [reflexivity|].
  apply interpret_status_blind; reflexivity.
Defined.
