(* ===== verification/Auth.v ===== *)
(** * The Session Controller ([src/frontend/src/context/AuthContext.tsx])

    [AuthProvider] keeps three pieces of React state, [user], [token] and
    [isLoading]; it reads [localStorage] once on mount, and exposes
    [login], which writes the session to [localStorage] and navigates to
    ["/"], and [logout], which first awaits a revocation request and then
    clears the session and navigates to ["/login"].  [isAuthenticated] is
    [!!token].

    The state every page shares is [browser]: the durable storage, the
    provider's state, and the router's current path. *)

From S2P Require Import Prelude Js Storage Async.

Local Open Scope string_scope.

Record user := User { user_id : Z; user_email : string }.

#[export] Instance user_eq_dec : EqDecision user.
Proof. solve_decision. Defined.

Record auth_state := AuthState {
  a_user : option user;
  a_token : jsstr;
  a_isLoading : bool;
}.

(** [useState] initial values: no user, [token = null], loading. *)
Definition auth_init : auth_state := AuthState None JSNull true.

Record browser (St : Type) := Browser {
  b_storage : St;
  b_auth : auth_state;
  b_path : string;
}.
Arguments Browser {St} b_storage b_auth b_path.
Arguments b_storage {St} b.
Arguments b_auth {St} b.
Arguments b_path {St} b.

Section AuthProvider.
Context {St : Type} `{WebStorageLaws St}.

(** [isAuthenticated: !!token]. *)
Definition isAuthenticated (b : browser St) : bool := truthy (a_token (b_auth b)).

(** [interface AuthContextType]: what [useAuth] hands a page, besides
    the [login] and [logout] operations defined below. *)
Record auth_context := AuthContext {
  ctx_user : option user;
  ctx_token : jsstr;
  ctx_isAuthenticated : bool;
  ctx_isLoading : bool;
}.

(** The [value] of [AuthContext.Provider]. *)
Definition provider_value (b : browser St) : auth_context :=
  AuthContext (a_user (b_auth b)) (a_token (b_auth b)) (isAuthenticated b) (a_isLoading (b_auth b)).

(** [useAuth()]: the context of the nearest provider, or the error it
    throws outside any provider ([createContext] defaults to
    [undefined]). *)
Definition useAuth (context : option auth_context) : auth_context + string :=
  match context with
  | Some c => inl c
  | None => inr "useAuth must be used within an AuthProvider"
  end.

(** The mount effect: restore the session from [localStorage]. *)
Definition mount_effect (b : browser St) : browser St :=
  let storedToken := getItem (b_storage b) TOKEN_KEY in
  let storedEmail := getItem (b_storage b) EMAIL_KEY in
  let a := b_auth b in
  let a :=
    if truthy (of_item storedToken) then
      let a := AuthState (a_user a) (of_item storedToken) (a_isLoading a) in
      match storedEmail with
      | Some email =>
          if truthy (JSStr email) then AuthState (Some (User 0 email)) (a_token a) (a_isLoading a)
          else a
      | None => a
      end
    else a in
  Browser (b_storage b) (AuthState (a_user a) (a_token a) false) (b_path b).

(** [login(newToken, email)]: [newToken] is whatever the login response
    held in its [token] field; [setItem] stores [String(newToken)]. *)
Definition login (newToken : jsstr) (email : string) (b : browser St) : browser St :=
  let st := setItem TOKEN_KEY (to_js_string newToken) (b_storage b) in
  let st := setItem EMAIL_KEY email st in
  Browser st (AuthState (Some (User 0 email)) newToken (a_isLoading (b_auth b))) "/".

(** The statements of [logout] after the revocation request. *)
Definition teardown (b : browser St) : browser St :=
  let st := removeItem TOKEN_KEY (b_storage b) in
  let st := removeItem EMAIL_KEY st in
  Browser st (AuthState None JSNull (a_isLoading (b_auth b))) "/login".

(** The revocation request: a bare [fetch], not the API client. *)
Definition logout_request (token : string) : request :=
  Request "/api/auth/logout" "POST" {["Authorization" := "Bearer " ++ token]} None.

(** [logout]: the response and a rejection of the revocation are both
    ignored ([try]/[catch]), and the teardown follows either. *)
Definition logout : task (browser St) :=
  Read (fun b =>
    match getItem (b_storage b) TOKEN_KEY with
    | Some currentToken =>
        if truthy (JSStr currentToken) then
          Fetch (T := unit) (logout_request currentToken) (fun _ => Upd teardown Done)
        else Upd teardown Done
    | None => Upd teardown Done
    end).

(** A page reload: React state is lost, [localStorage] persists, and
    the provider mounts again. *)
Definition reload (b : browser St) : browser St :=
  mount_effect (Browser (b_storage b) auth_init (b_path b)).
End AuthProvider.

(** Two concrete browsers over [gmap string string]: a first visit, with
    nothing stored, and a returning visit, with a stored session. *)
Definition first_visit : browser (gmap string string) := Browser ∅ auth_init "/".

Definition returning_visit : browser (gmap string string) :=
  Browser (<[EMAIL_KEY := "a@b.com"]> (<[TOKEN_KEY := "T1"]> ∅)) auth_init "/".

(** ** A page's state: the shared browser and the page's own state *)

Section PageState.
Context {St P : Type}.

Definition on_page (f : P -> P) (s : browser St * P) : browser St * P := (fst s, f (snd s)).
Definition on_browser (f : browser St -> browser St) (s : browser St * P) : browser St * P :=
  (f (fst s), snd s).
Definition page_storage (s : browser St * P) : St := b_storage (fst s).
End PageState.

(** ** Properties of the provider *)

Section AuthProperties.
Context {St : Type} `{WebStorageLaws St}.
Implicit Types (b : browser St).

(** The in-memory session agrees with the durable one: when the provider
    holds a non-empty token, [localStorage] holds the same token. *)
Definition auth_consistent b : Prop :=
  forall t, a_token (b_auth b) = JSStr t -> t <> "" -> getItem (b_storage b) TOKEN_KEY = Some t.

Lemma teardown_session b :
  stored_session (b_storage (teardown b)) = anonymous /\
  isAuthenticated (teardown b) = false /\ b_path (teardown b) = "/login".
Proof. split; [apply stored_session_remove_both|done]. Qed.

Lemma login_storage_token tok e b :
  getItem (b_storage (login tok e b)) TOKEN_KEY = Some (to_js_string tok).
Proof. simpl. simpl_storage. done. Qed.

Lemma mount_effect_storage b : b_storage (mount_effect b) = b_storage b.
Proof. done. Qed.

Lemma mount_effect_token b :
  a_token (b_auth (mount_effect b)) =
    if truthy (of_item (getItem (b_storage b) TOKEN_KEY))
    then of_item (getItem (b_storage b) TOKEN_KEY) else a_token (b_auth b).
Proof.
  unfold mount_effect. destruct (truthy _); simpl; [|done].
  repeat case_match; done.
Qed.

(** [login] with a string token stores the token and the email under
    their keys, authenticates the provider exactly when the token is
    non-empty, and navigates to the home view (spec §4.3). *)
Theorem login_stores_session t e b :
  stored_session (b_storage (login (JSStr t) e b)) = Session (Some t) (Some e) /\
  isAuthenticated (login (JSStr t) e b) = negb (String.eqb t "") /\
  a_user (b_auth (login (JSStr t) e b)) = Some (User 0 e) /\
  b_path (login (JSStr t) e b) = "/".
Proof.
  split; [apply stored_session_set_token_email|]. repeat split.
Qed.

(** The state a logout must reach: nothing stored under the session's
    keys, the provider unauthenticated, the router on the login view. *)
Definition logged_out b : Prop :=
  stored_session (b_storage b) = anonymous /\ isAuthenticated b = false /\ b_path b = "/login".

(** C1. [logout] always ends with an empty Session Store, the provider
    unauthenticated and the router on ["/login"]: directly when no
    token is stored, and otherwise after the revocation request, whether
    it is answered with any status or rejected, and whatever happened in
    between; nothing else is left waiting (spec §4.3, §8). *)
Theorem logout_tears_down b :
  let (b1, ps) := run logout b in
  (ps = [] /\ logged_out b1) \/
  (exists t p, getItem (b_storage b) TOKEN_KEY = Some t /\ t <> "" /\
     ps = [p] /\ b1 = b /\ p_reqs p = [logout_request t] /\
     forall fr b', logged_out (fst (run (p_k p fr) b')) /\ snd (run (p_k p fr) b') = []).
Proof.
  simpl. destruct (getItem (b_storage b) TOKEN_KEY) as [t|] eqn:Ht;
    [|simpl; left; split; [done|apply teardown_session]].
  destruct (String.eqb t "") eqn:Htr; simpl; [left; split; [done|apply teardown_session]|].
  right. exists t, (pending1 (T := unit) (logout_request t) (fun _ => Upd teardown Done)).
  apply String.eqb_neq in Htr. do 5 (split; [done|]). intros fr b'. split; [apply teardown_session|done].
Qed.

(** C13. Until the revocation request completes, [logout] leaves the session
    in place: the token stays in [localStorage] and the provider stays
    authenticated.  A revocation that never completes (the spec's
    "times out") never clears the session. *)
Theorem logout_waits_for_revocation b t :
  getItem (b_storage b) TOKEN_KEY = Some t -> t <> "" ->
  fst (run logout b) = b /\ length (snd (run logout b)) = 1.
Proof.
  intros Ht Hne. simpl. rewrite Ht.
  apply String.eqb_neq in Hne. rewrite Hne. done.
Qed.

Lemma reload_isAuthenticated b : isAuthenticated (reload b) = has_token (b_storage b).
Proof.
  unfold reload, isAuthenticated, has_token. rewrite mount_effect_token. simpl.
  destruct (truthy (of_item _)) eqn:E; done.
Qed.

Lemma reload_token b t :
  getItem (b_storage b) TOKEN_KEY = Some t -> t <> "" -> a_token (b_auth (reload b)) = JSStr t.
Proof.
  intros Ht Hne. unfold reload. rewrite mount_effect_token. simpl. rewrite Ht.
  apply truthy_JSStr in Hne. simpl in *. by rewrite Hne.
Qed.

Lemma reload_not_loading b : a_isLoading (b_auth (reload b)) = false.
Proof. unfold reload, mount_effect. repeat case_match; done. Qed.

(** Boot restores the session optimistically: after a reload the
    provider is authenticated exactly when a non-empty token is stored,
    and then holds that token, without asking the server (spec §4.3). *)
Theorem reload_restores_session b :
  isAuthenticated (reload b) = has_token (b_storage b) /\
  (forall t, getItem (b_storage b) TOKEN_KEY = Some t -> t <> "" ->
     a_token (b_auth (reload b)) = JSStr t) /\
  a_isLoading (b_auth (reload b)) = false.
Proof.
  split; [apply reload_isAuthenticated|]. split; [apply reload_token|apply reload_not_loading].
Qed.

(** C23. A login response without a [token] field (a [204], or a body of
    another shape) logs in with [undefined]: the provider is not
    authenticated, but [localStorage] now holds the string
    ["undefined"], so the next reload authenticates with that bogus
    token. *)
Theorem login_undefined_token e b :
  isAuthenticated (login JSUndef e b) = false /\
  getItem (b_storage (login JSUndef e b)) TOKEN_KEY = Some "undefined" /\
  isAuthenticated (reload (login JSUndef e b)) = true /\
  a_token (b_auth (reload (login JSUndef e b))) = JSStr "undefined".
Proof.
  assert (Hs : getItem (b_storage (login JSUndef e b)) TOKEN_KEY = Some "undefined")
    by apply login_storage_token.
  split; [done|]. split; [exact Hs|].
  rewrite reload_isAuthenticated. unfold has_token. rewrite Hs.
  split; [done|]. by apply reload_token.
Qed.

(** The provider's operations preserve [auth_consistent]. *)
Lemma mount_effect_consistent b : auth_consistent b -> auth_consistent (mount_effect b).
Proof.
  intros Hc t. rewrite mount_effect_token, mount_effect_storage.
  destruct (truthy (of_item _)) eqn:E; [|by apply Hc].
  destruct (getItem (b_storage b) TOKEN_KEY); simpl; [|done]. intros [= ->]. done.
Qed.

Lemma login_consistent tok e b : auth_consistent (login tok e b).
Proof. intros t Ht _. simpl in Ht. subst. apply login_storage_token. Qed.

Lemma teardown_consistent b : auth_consistent (teardown b).
Proof. intros t Ht. done. Qed.

(** After a reload the provider agrees with [localStorage], whatever
    it held before. *)
Lemma reload_consistent b : auth_consistent (reload b).
Proof. apply mount_effect_consistent. by intros t. Qed.

(** The provider's operations keep the Session Store well formed. *)
Lemma login_session_wf tok e b : session_wf (b_storage (login tok e b)).
Proof. apply session_wf_set_token_email. Qed.

Lemma teardown_session_wf b : session_wf (b_storage (teardown b)).
Proof. apply session_wf_remove_both. Qed.

Lemma logout_session_wf : preserves (fun b : browser St => session_wf (b_storage b)) logout.
Proof. unfold logout. task_pred; apply teardown_session_wf. Qed.

(** A reload depends only on what survives it. *)
Lemma reload_reload b : reload (reload b) = reload b.
Proof. done. Qed.
End AuthProperties.

#[export] Hint Resolve mount_effect_consistent login_consistent teardown_consistent reload_consistent
  login_session_wf teardown_session_wf : et.

(** ** Witnesses *)

Lemma login_stores_session_witness :
  stored_session (b_storage (login (JSStr "T1") "a@b.com" first_visit)) = Session (Some "T1") (Some "a@b.com") /\
  isAuthenticated (login (JSStr "T1") "a@b.com" first_visit) = negb (String.eqb "T1" "") /\
  a_user (b_auth (login (JSStr "T1") "a@b.com" first_visit)) = Some (User 0 "a@b.com") /\
  b_path (login (JSStr "T1") "a@b.com" first_visit) = "/".
Proof. exact (login_stores_session "T1" "a@b.com" first_visit). Defined.

Lemma logout_tears_down_witness :
  let (b1, ps) := run logout returning_visit in
  (ps = [] /\ logged_out b1) \/
  (exists t p, getItem (b_storage returning_visit) TOKEN_KEY = Some t /\ t <> "" /\
     ps = [p] /\ b1 = returning_visit /\ p_reqs p = [logout_request t] /\
     forall fr b', logged_out (fst (run (p_k p fr) b')) /\ snd (run (p_k p fr) b') = []).
Proof. exact (logout_tears_down returning_visit). Defined.

Lemma logout_waits_for_revocation_witness :
  getItem (b_storage returning_visit) TOKEN_KEY = Some "T1" /\ "T1" <> "" /\
  fst (run logout returning_visit) = returning_visit /\ length (snd (run logout returning_visit)) = 1.
Proof.
  assert (Ht : getItem (b_storage returning_visit) TOKEN_KEY = Some "T1") by reflexivity.
  split; [exact Ht|]. split; [done|]. exact (logout_waits_for_revocation returning_visit "T1" Ht ltac:(done)).
Defined.

Lemma reload_restores_session_witness :
  isAuthenticated (reload returning_visit) = has_token (b_storage returning_visit) /\
  (forall t, getItem (b_storage returning_visit) TOKEN_KEY = Some t -> t <> "" ->
     a_token (b_auth (reload returning_visit)) = JSStr t) /\
  a_isLoading (b_auth (reload returning_visit)) = false.
Proof. exact (reload_restores_session returning_visit). Defined.

Lemma login_undefined_token_witness :
  isAuthenticated (login JSUndef "a@b.com" first_visit) = false /\
  getItem (b_storage (login JSUndef "a@b.com" first_visit)) TOKEN_KEY = Some "undefined" /\
  isAuthenticated (reload (login JSUndef "a@b.com" first_visit)) = true /\
  a_token (b_auth (reload (login JSUndef "a@b.com" first_visit))) = JSStr "undefined".
Proof. exact (login_undefined_token "a@b.com" first_visit). Defined.
