(* ===== verification/AuthPages.v ===== *)
(** * Login and registration ([src/frontend/src/app/login/page.tsx],
      [src/frontend/src/app/register/page.tsx])

    Both pages keep [email], [password], [error] and [loading], and their
    [handleSubmit] drives the Session Controller: the login page posts the
    credentials and calls the provider's [login] with the returned token;
    the registration page first posts [/auth/register], then logs in with
    the same credentials.  A page's task runs on the shared [browser]
    paired with the page's own state.  The forms' events in a browser
    tab ([System]) give the invariants of every reachable state. *)

From S2P Require Import Prelude Js Storage Async System Api Auth.

Local Open Scope string_scope.

Record form_page := FormPage {
  fp_email : string;
  fp_password : string;
  fp_error : string;
  fp_loading : bool;
}.

(** [useState('')] and [useState(false)]. *)
Definition form_init : form_page := FormPage "" "" "" false.

Definition set_error (e : string) (p : form_page) : form_page :=
  FormPage (fp_email p) (fp_password p) e (fp_loading p).
Definition set_loading (l : bool) (p : form_page) : form_page :=
  FormPage (fp_email p) (fp_password p) (fp_error p) l.

(** The response type [{ token: string }] of [/auth/login]. *)
Record login_resp := LoginResp { lr_token : jsstr }.

(** [response.token]: absent from an object of another shape. *)
Definition token_of (v : api_value login_resp) : jsstr :=
  match v with
  | AVal r => lr_token r
  | AObj _ => JSUndef
  end.

Definition credentials (email password : string) : json :=
  JObj [("email", JStr email); ("password", JStr password)].

Section Pages.
Context {St : Type} `{WebStorageLaws St}.
Abbreviation S := (browser St * form_page)%type.

(** [catch (err) { setError(err.message || fallback) } finally { setLoading(false) }] *)
Definition fail_with (fallback m : string) : task S :=
  Upd (on_page (set_error (js_or (JSStr m) fallback)))
    (Upd (on_page (set_loading false)) Done).

(** The login step shared by both pages: post the credentials, then
    [login(response.token, email)]; the [finally] clears [loading]. *)
Definition login_step (fallback email password : string) : task S :=
  api_post page_storage "/auth/login" (credentials email password)
    (fun o : api_outcome login_resp =>
       match o with
       | Resolved v =>
           Upd (on_browser (login (token_of v) email))
             (Upd (on_page (set_loading false)) Done)
       | Rejected m => fail_with fallback m
       end).

(** [LoginPage.handleSubmit]. *)
Definition login_handleSubmit : task S :=
  Upd (on_page (set_error ""))
    (Upd (on_page (set_loading true))
      (Read (fun s => login_step "Failed to login" (fp_email (snd s)) (fp_password (snd s))))).

(** [RegisterPage.handleSubmit]: the registration's response is
    ignored; a failure of either request ends in the [catch]. *)
Definition register_handleSubmit : task S :=
  Upd (on_page (set_error ""))
    (Upd (on_page (set_loading true))
      (Read (fun s =>
         let email := fp_email (snd s) in
         let password := fp_password (snd s) in
         api_post page_storage "/auth/register" (credentials email password)
           (fun o : api_outcome unit =>
              match o with
              | Resolved _ => login_step "Failed to create account" email password
              | Rejected m => fail_with "Failed to create account" m
              end)))).
End Pages.

(** ** What the two forms render *)

(** The submit button shows a spinner while [loading], its label
    otherwise. *)
Inductive button_content := BtnSpinner | BtnLabel (label : string).

(** The elements of a form page that depend on its state or lead
    elsewhere: the title, the error banner ([{error && ...}]), the two
    inputs' values, the submit button ([disabled={loading}]) and the
    link to the other form. *)
Record form_view := FormView {
  fv_title : string;
  fv_error : option string;
  fv_email : string;
  fv_password : string;
  fv_button : button_content;
  fv_button_disabled : bool;
  fv_link : string * string;
}.

Definition form_view_of (title label link_text href : string) (p : form_page) : form_view :=
  FormView title
    (if truthy (JSStr (fp_error p)) then Some (fp_error p) else None)
    (fp_email p) (fp_password p)
    (if fp_loading p then BtnSpinner else BtnLabel label)
    (fp_loading p)
    (link_text, href).

(** [LoginPage]'s JSX. *)
Definition login_view : form_page -> form_view :=
  form_view_of "Welcome Back" "Sign In" "Create one" "/register".

(** [RegisterPage]'s JSX. *)
Definition register_view : form_page -> form_view :=
  form_view_of "Create Account" "Create Account" "Sign in" "/login".

(** ** Properties of the two forms *)

Section PageProperties.
Context {St : Type} `{WebStorageLaws St}.
Abbreviation S := (browser St * form_page)%type.

Definition login_request (st : St) (email password : string) : request :=
  request_of st "/auth/login" (ReqOptions (Some "POST") ∅ (Some (credentials email password))).

(** The state after the login step completes with outcome [o], from the
    state [s] it finds. *)
Definition login_done (fallback email : string) (o : api_outcome login_resp) (s : S) : S :=
  match o with
  | Resolved v => (login (token_of v) email (fst s), set_loading false (snd s))
  | Rejected m => (fst s, set_loading false (set_error (js_or (JSStr m) fallback) (snd s)))
  end.

Lemma login_step_spec fallback email password (s : S) :
  exists k, run (login_step fallback email password) s =
            (s, [pending1 (T := login_resp) (login_request (b_storage (fst s)) email password) k]) /\
            forall fr s', run (k fr) s' = (login_done fallback email (interpret fr) s', []).
Proof.
  eexists. split; [reflexivity|]. intros fr s'. simpl. unfold login_done.
  repeat case_match; simplify_eq; reflexivity.
Qed.

(** C10. Submitting the login form clears the error, sets [loading] (the
    AUTHENTICATING state), and sends one login request with the typed
    credentials; when it completes, whatever happened meanwhile, a
    resolved response logs in with its [token] and the typed email, and
    a rejection leaves the session as it is and shows the error's
    message (or "Failed to login" if it is empty); [loading] is cleared
    in both cases (spec §4.3). *)
Theorem login_handleSubmit_spec (s : S) :
  let p1 := set_loading true (set_error "" (snd s)) in
  exists k, run login_handleSubmit s =
            ((fst s, p1),
             [pending1 (T := login_resp)
                (login_request (b_storage (fst s)) (fp_email (snd s)) (fp_password (snd s))) k]) /\
            forall fr s', run (k fr) s' = (login_done "Failed to login" (fp_email (snd s)) (interpret fr) s', []).
Proof.
  destruct (login_step_spec "Failed to login" (fp_email (snd s)) (fp_password (snd s))
              (fst s, set_loading true (set_error "" (snd s)))) as [k [Hr Hk]].
  exists k. split; [exact Hr|exact Hk].
Qed.

(** C11. Registration sends the registration request; only when it
    resolves does it send the login request, built from the storage of
    that moment, and the login's outcome is handled as on the login page.
    A failed registration shows its error and sends nothing more; a
    failed login after a successful registration shows the login's error
    and does not undo the registration (spec §4.3). *)
Theorem register_handleSubmit_spec (s : S) :
  let em := fp_email (snd s) in
  let pw := fp_password (snd s) in
  exists k, run register_handleSubmit s =
            ((fst s, set_loading true (set_error "" (snd s))),
             [pending1 (T := unit)
                (request_of (b_storage (fst s)) "/auth/register"
                   (ReqOptions (Some "POST") ∅ (Some (credentials em pw)))) k]) /\
    forall fr s',
      match interpret fr with
      | Resolved _ =>
          exists k2, run (k fr) s' =
                     (s', [pending1 (T := login_resp) (login_request (b_storage (fst s')) em pw) k2]) /\
                     forall fr2 s'', run (k2 fr2) s'' =
                                     (login_done "Failed to create account" em (interpret fr2) s'', [])
      | Rejected m =>
          run (k fr) s' = (login_done "Failed to create account" em (Rejected m) s', [])
      end.
Proof.
  eexists. split; [reflexivity|]. intros fr s'. simpl.
  destruct (interpret fr) as [v|m]; [apply login_step_spec|reflexivity].
Qed.

(** The scenario of spec §8: the login of ["a@b.com"] answered with
    [{token: "T1"}] leaves the Session Store holding ["T1"] and
    ["a@b.com"], and every later request carries [Bearer T1]. *)
Theorem login_scenario (b : browser St) (e : string) (l : bool) :
  exists k, run login_handleSubmit (b, FormPage "a@b.com" "x" e l) =
            ((b, FormPage "a@b.com" "x" "" true),
             [pending1 (T := login_resp) (login_request (b_storage b) "a@b.com" "x") k]) /\
    forall (s' : S),
      let s3 := fst (run (k (FResp (Response 200 "OK" (BJson (LoginResp (JSStr "T1")))))) s') in
      stored_session (b_storage (fst s3)) = Session (Some "T1") (Some "a@b.com") /\
      getHeaders (b_storage (fst s3)) !! "Authorization" = Some "Bearer T1".
Proof.
  destruct (login_step_spec "Failed to login" "a@b.com" "x"
              (b, FormPage "a@b.com" "x" "" true)) as [k [Hrun Hk]].
  exists k. split; [exact Hrun|]. intros s'. rewrite Hk. simpl.
  split; [apply stored_session_set_token_email|].
  apply getHeaders_authorization. exists "T1". split; [|done].
  apply (login_storage_token (JSStr "T1")).
Qed.
End PageProperties.

(** ** The forms in a browser tab *)

(** The events of either form: typing in its two inputs and submitting
    it.  The submit button is [disabled={loading}], and both inputs are
    [required], so the browser submits only when neither is empty (the
    syntax check of [type="email"] is not modelled: the model lets more
    submissions through). *)
Inductive form_event := EvEmail (v : string) | EvPassword (v : string) | EvSubmitForm.

Definition set_email (v : string) (p : form_page) : form_page :=
  FormPage v (fp_password p) (fp_error p) (fp_loading p).
Definition set_password (v : string) (p : form_page) : form_page :=
  FormPage (fp_email p) v (fp_error p) (fp_loading p).

Definition form_enabled (p : form_page) (e : form_event) : bool :=
  match e with
  | EvSubmitForm =>
      negb (fp_loading p) && negb (String.eqb (fp_email p) "") && negb (String.eqb (fp_password p) "")
  | _ => true
  end.

Section FormSystem.
Context {St : Type} `{WebStorageLaws St}.
Abbreviation S := (browser St * form_page)%type.

(** The handlers bound by either form, [submit] being its
    [handleSubmit]. *)
Definition form_handler (submit : task S) (e : form_event) : task S :=
  match e with
  | EvEmail v => Upd (on_page (set_email v)) Done
  | EvPassword v => Upd (on_page (set_password v)) Done
  | EvSubmitForm => submit
  end.

Definition form_enabled_task (submit : task S) (s : S) (t : task S) : Prop :=
  exists e, form_enabled (snd s) e = true /\ t = form_handler submit e.

Definition form_reset (s : S) : S := (reload (fst s), form_init).

(** A tab opened on the form: the provider mounts, the form is empty. *)
Definition form_boot (b : browser St) : sys := boot (reload b, form_init).

(** The two [handleSubmit]s keep the in-memory session in agreement
    with [localStorage]. *)
Section SubmitPreserves.
(** A property of the browser that [login] keeps. *)
Variable P : browser St -> Prop.
Hypothesis login_P : forall tok e b, P b -> P (login tok e b).

Lemma login_step_preserves fb em pw :
  preserves (fun s : S => P (fst s)) (login_step fb em pw).
Proof.
  cbv delta [login_step fail_with api_post api_request] beta. task_pred; simpl; auto.
Qed.

Lemma submit_preserves :
  preserves (fun s : S => P (fst s)) login_handleSubmit /\
  preserves (fun s : S => P (fst s)) register_handleSubmit.
Proof.
  split; cbv delta [login_handleSubmit register_handleSubmit fail_with api_post api_request] beta;
    task_pred; simpl; auto using login_step_preserves.
Qed.

(** In every reachable state of a tab on either form, the browser has
    [P], when [P] holds after the mount and survives reloads. *)
Lemma form_reachable_browser submit b σ :
  (forall b, P b -> P (reload b)) -> P (reload b) ->
  submit = login_handleSubmit \/ submit = register_handleSubmit ->
  reachable (form_enabled_task submit) form_reset (form_boot b) σ ->
  P (fst (sys_state σ)).
Proof.
  intros Hrl Hb Hsub Hr. eapply (reachable_inv _ _ (fun s => P (fst s))) in Hr;
    [apply Hr| | |by apply boot_inv].
  - intros s t [e [_ ->]]. destruct e; simpl; [task_pred; done|task_pred; done|].
    destruct submit_preserves. by destruct Hsub as [-> | ->].
  - intros s Hs. by apply Hrl.
Qed.
End SubmitPreserves.

#[local] Set Warnings "-register-all".
(** A request of the form in flight: whatever it is answered, its
    continuation, run while [loading] is set, either clears [loading]
    and leaves nothing waiting, or keeps [loading] and leaves exactly one
    request in flight of the same kind. *)
Inductive auth_flight : pending S -> Prop :=
| flight_intro p :
    (forall x s, fp_loading (snd s) = true ->
       (fp_loading (snd (fst (run (p_k p x) s))) = false /\ snd (run (p_k p x) s) = []) \/
       (fp_loading (snd (fst (run (p_k p x) s))) = true /\
        exists p', snd (run (p_k p x) s) = [p'] /\ auth_flight p')) ->
    auth_flight p.

(** The form's state in the Session Controller's terms: either idle
    with nothing in flight, or AUTHENTICATING with exactly one request
    in flight. *)
Definition one_in_flight (σ : sys) : Prop :=
  (fp_loading (snd (sys_state σ)) = false /\ sys_pending σ = []) \/
  (fp_loading (snd (sys_state σ)) = true /\ exists p, sys_pending σ = [p] /\ auth_flight p).

Lemma login_step_flight fb em pw (s : S) :
  fst (run (login_step fb em pw) s) = s /\
  exists p, snd (run (login_step fb em pw) s) = [p] /\ auth_flight p.
Proof.
  destruct (login_step_spec fb em pw s) as [k [Hr Hk]]. rewrite Hr.
  split; [done|]. eexists. split; [done|].
  constructor. intros x s' _. left. simpl. rewrite Hk. unfold login_done. by case_match.
Qed.

Lemma submit_flight submit (s : S) :
  submit = login_handleSubmit \/ submit = register_handleSubmit ->
  fp_loading (snd (fst (run submit s))) = true /\
  exists p, snd (run submit s) = [p] /\ auth_flight p.
Proof.
  intros [->| ->].
  - assert (Hrun : run login_handleSubmit s =
              run (login_step "Failed to login" (fp_email (snd s)) (fp_password (snd s)))
                (fst s, set_loading true (set_error "" (snd s)))) by reflexivity.
    rewrite Hrun. destruct (login_step_flight "Failed to login" (fp_email (snd s)) (fp_password (snd s))
                (fst s, set_loading true (set_error "" (snd s)))) as [H1 H2].
    split; [by rewrite H1|exact H2].
  - split; [done|]. eexists. split; [done|].
    constructor. intros x s' Hl. simpl. destruct (interpret x) as [v|m].
    + right. destruct (login_step_flight "Failed to create account" (fp_email (snd s)) (fp_password (snd s)) s')
        as [H1 H2]. by rewrite H1.
    + left. done.
Qed.

Lemma flight_step submit σ σ' :
  submit = login_handleSubmit \/ submit = register_handleSubmit ->
  sys_step (form_enabled_task submit) form_reset σ σ' -> one_in_flight σ -> one_in_flight σ'.
Proof.
  intros Hsub Hst Hσ. destruct Hst as [σ t [e [He ->]]|s ps1 p ps2 sent x|σ].
  - destruct σ as [s ps sent]. unfold one_in_flight, start in *. simpl in *.
    destruct e as [v|v|]; simpl; rewrite ?app_nil_r; [exact Hσ|exact Hσ|].
    apply andb_prop in He as [He _]. apply andb_prop in He as [He _]. apply negb_true_iff in He.
    destruct Hσ as [[_ ->]|[Hl _]]; [|congruence].
    destruct (submit_flight submit s Hsub) as [Hl' [p [Hp Hf]]].
    destruct (run submit s) as [s' ps']. simpl in *. subst ps'. right. eauto.
  - unfold one_in_flight in *. simpl in *.
    destruct Hσ as [[_ Hp]|[Hl [p0 [Hp Hf]]]]; [by destruct ps1|].
    apply app_eq_unit in Hp as [[-> [= -> ->]]|[_ Hp]]; [|done].
    inversion Hf as [p' Hk]. subst p'. destruct (Hk x s Hl) as [[Hl' Hp']|[Hl' [p' [Hp' Hf']]]];
      unfold start; simpl; match goal with |- context [run ?t s] => destruct (run t s) as [s' ps'] end;
      simpl in *; subst ps'; [left; done|right; eauto].
  - left. done.
Qed.

(** C9. The login and registration forms never have two authentication
    requests in flight: in every reachable state of a tab on either form,
    whatever the user does and whatever the server answers, either
    [loading] is clear and no request is waiting, or [loading] is set
    (the Session Controller's AUTHENTICATING state) and exactly one
    request is waiting, whose answer either ends the attempt and clears
    [loading] or, for a successful registration, sends the login in its
    place (spec §4.3). *)
Theorem form_single_flight submit b σ :
  submit = login_handleSubmit \/ submit = register_handleSubmit ->
  reachable (form_enabled_task submit) form_reset (form_boot b) σ ->
  one_in_flight σ.
Proof.
  intros Hsub Hr. assert (Hb : one_in_flight (form_boot b)) by (left; done).
  revert Hb. unfold reachable in Hr. induction Hr; eauto using flight_step.
Qed.

(** C8. In every reachable state of a tab on the login or registration
    form, whatever the user does and whatever the server answers, the
    provider's token agrees with [localStorage]: when the provider holds
    a non-empty token, the Session Store holds the same one (spec §4.1,
    §4.3). *)
Theorem form_reachable_consistent submit b σ :
  submit = login_handleSubmit \/ submit = register_handleSubmit ->
  reachable (form_enabled_task submit) form_reset (form_boot b) σ ->
  auth_consistent (fst (sys_state σ)).
Proof.
  apply form_reachable_browser; eauto with et.
Qed.

(** The Session Store stays well formed: in every reachable state
    of a tab on the login or registration form opened on a well-formed
    store, [localStorage] holds a token exactly when it holds an email,
    whatever the user does and the server answers (spec §6: one entry
    for the token and one for the email, written and cleared
    together). *)
Theorem form_reachable_session_wf submit b σ :
  session_wf (b_storage b) ->
  submit = login_handleSubmit \/ submit = register_handleSubmit ->
  reachable (form_enabled_task submit) form_reset (form_boot b) σ ->
  session_wf (b_storage (fst (sys_state σ))).
Proof.
  intros Hb. apply (form_reachable_browser (fun b => session_wf (b_storage b))); eauto with et.
Qed.
End FormSystem.

(** ** Witnesses *)

Definition typed_login : browser (gmap string string) * form_page :=
  (first_visit, FormPage "a@b.com" "x" "" false).

Lemma login_handleSubmit_spec_witness :
  exists k, run login_handleSubmit typed_login =
            ((first_visit, FormPage "a@b.com" "x" "" true),
             [pending1 (T := login_resp) (login_request (b_storage first_visit) "a@b.com" "x") k]) /\
            forall fr s', run (k fr) s' = (login_done "Failed to login" "a@b.com" (interpret fr) s', []).
Proof. exact (login_handleSubmit_spec typed_login). Defined.

Lemma register_handleSubmit_spec_witness :
  exists k, run register_handleSubmit typed_login =
            ((first_visit, FormPage "a@b.com" "x" "" true),
             [pending1 (T := unit)
                (request_of (b_storage first_visit) "/auth/register"
                   (ReqOptions (Some "POST") ∅ (Some (credentials "a@b.com" "x")))) k]) /\
    forall fr (s' : browser (gmap string string) * form_page),
      match interpret fr with
      | Resolved _ =>
          exists k2, run (k fr) s' =
                     (s', [pending1 (T := login_resp) (login_request (b_storage (fst s')) "a@b.com" "x") k2]) /\
                     forall fr2 s'', run (k2 fr2) s'' =
                                     (login_done "Failed to create account" "a@b.com" (interpret fr2) s'', [])
      | Rejected m =>
          run (k fr) s' = (login_done "Failed to create account" "a@b.com" (Rejected m) s', [])
      end.
Proof. exact (register_handleSubmit_spec typed_login). Defined.

(** A tab opened on the login form: the user types the credentials,
    submits, and the server answers with a token. *)
Lemma login_trace :
  exists σ, reachable (form_enabled_task (St := gmap string string) login_handleSubmit) form_reset
              (form_boot first_visit) σ /\
            isAuthenticated (fst (sys_state σ)) = true /\ sys_pending σ = [].
Proof.
  eexists. split; [|split].
  - eapply rtc_l; [apply st_event; exists (EvEmail "a@b.com"); split; reflexivity|].
    eapply rtc_l; [apply st_event; exists (EvPassword "x"); split; reflexivity|].
    eapply rtc_l; [apply st_event; exists EvSubmitForm; split; reflexivity|].
    cbn.
    match goal with |- rtc _ (Sys _ [?p] _) _ =>
      eapply rtc_l; [apply (st_resume_at _ _ _ [] p []
                       (FResp (Response 200 "OK" (BJson (LoginResp (JSStr "T1")))))); reflexivity|] end.
    apply rtc_refl.
  - reflexivity.
  - reflexivity.
Defined.

Lemma form_single_flight_witness :
  exists σ, reachable (form_enabled_task (St := gmap string string) login_handleSubmit) form_reset
              (form_boot first_visit) σ /\ one_in_flight σ.
Proof.
  destruct login_trace as [σ [Hr _]]. exists σ. split; [exact Hr|].
  exact (form_single_flight login_handleSubmit first_visit σ (or_introl eq_refl) Hr).
Defined.

Lemma form_reachable_consistent_witness :
  exists σ, reachable (form_enabled_task (St := gmap string string) login_handleSubmit) form_reset
              (form_boot first_visit) σ /\
            isAuthenticated (fst (sys_state σ)) = true /\ auth_consistent (fst (sys_state σ)).
Proof.
  destruct login_trace as [σ [Hr [Ha _]]]. exists σ. split; [exact Hr|]. split; [exact Ha|].
  exact (form_reachable_consistent login_handleSubmit first_visit σ (or_introl eq_refl) Hr).
Defined.

(** C12. A failed login does not end the session it was started from:
    in a tab opened with a stored session (the provider authenticated),
    the user submits the login form, the server rejects the
    credentials, and the tab ends with the error shown, nothing in
    flight, and the provider still authenticated with the old session.
    The spec makes every failed login end ANONYMOUS (spec §4.3). *)
Theorem failed_login_stays_authenticated :
  exists σ, reachable (form_enabled_task (St := gmap string string) login_handleSubmit) form_reset
              (form_boot returning_visit) σ /\
            sys_pending σ = [] /\ fp_error (snd (sys_state σ)) = "Invalid credentials" /\
            fp_loading (snd (sys_state σ)) = false /\
            isAuthenticated (fst (sys_state σ)) = true /\
            stored_session (b_storage (fst (sys_state σ))) = Session (Some "T1") (Some "a@b.com").
Proof.
  eexists. split.
  { eapply rtc_l; [apply st_event; exists (EvEmail "a@b.com"); split; reflexivity|].
    eapply rtc_l; [apply st_event; exists (EvPassword "wrong"); split; reflexivity|].
    eapply rtc_l; [apply st_event; exists EvSubmitForm; split; reflexivity|].
    cbn.
    match goal with |- rtc _ (Sys _ [?p] _) _ =>
      eapply rtc_l; [apply (st_resume_at _ _ _ [] p []
                       (FResp (Response 401 "Unauthorized" (BObj (JSStr "Invalid credentials"))))); reflexivity|] end.
    apply rtc_refl. }
  repeat split; reflexivity.
Qed.

Lemma form_reachable_session_wf_witness :
  exists σ, reachable (form_enabled_task (St := gmap string string) login_handleSubmit) form_reset
              (form_boot first_visit) σ /\
            session_wf (b_storage first_visit) /\ session_wf (b_storage (fst (sys_state σ))).
Proof.
  destruct login_trace as [σ [Hr _]]. exists σ.
  assert (H0 : session_wf (b_storage first_visit)) by done.
  split; [exact Hr|]. split; [exact H0|].
  exact (form_reachable_session_wf login_handleSubmit first_visit σ H0 (or_introl eq_refl) Hr).
Defined.
