(* ===== verification/Controller.v ===== *)
(** * The spec's Session Controller, and the forms' refinement of it

    Spec §4.3 describes the Session Controller as a state machine with
    states ANONYMOUS, AUTHENTICATING and AUTHENTICATED over the Session
    Store of §4.1: [login] goes to AUTHENTICATING, then to AUTHENTICATED
    with the new session stored on success, or to ANONYMOUS with the
    server's message on failure; boot reads the store once; logout goes
    to ANONYMOUS with the store cleared.  [ctl_step] is that machine.

    In the client the controller is spread over [AuthProvider] and the
    forms: AUTHENTICATING is the form's [loading], the other two states
    are [isAuthenticated], the store is [localStorage], the message is
    the form's [error].  [ctl_of] reads the abstract state off a tab on
    a form.  The refinement theorem shows that every step of such a tab
    is a stutter, a step of the spec machine, or one of two deviations
    ([ctl_divergence]), which the findings name: a login answer without
    a usable token, and a failed login that keeps the previous
    session. *)

From S2P Require Import Prelude Js Storage Async System Api Auth AuthPages.

Local Open Scope string_scope.

(** ** The abstract machine *)

Inductive ctl_state := ANONYMOUS | AUTHENTICATING | AUTHENTICATED.

#[export] Instance ctl_state_eq_dec : EqDecision ctl_state.
Proof. solve_decision. Defined.

(** The controller's state, the Session Store, and the message surfaced
    to the user ([""] for none). *)
Record ctl := Ctl { c_state : ctl_state; c_store : session; c_error : string }.

(** "If a token is present" (spec §4.3, initial boot). *)
Definition token_present (st : session) : bool :=
  match s_token st with Some t => negb (String.eqb t "") | None => false end.

Definition boot_state (st : session) : ctl_state :=
  if token_present st then AUTHENTICATED else ANONYMOUS.

Inductive ctl_step : ctl -> ctl -> Prop :=
| cs_login c st err :
    c <> AUTHENTICATING -> ctl_step (Ctl c st err) (Ctl AUTHENTICATING st "")
| cs_login_ok st err t e :
    t <> "" -> ctl_step (Ctl AUTHENTICATING st err) (Ctl AUTHENTICATED (Session (Some t) (Some e)) err)
| cs_login_fail st err m :
    m <> "" -> ctl_step (Ctl AUTHENTICATING st err) (Ctl ANONYMOUS st m)
| cs_logout c st err : ctl_step (Ctl c st err) (Ctl ANONYMOUS anonymous err)
| cs_boot c st err : ctl_step (Ctl c st err) (Ctl (boot_state st) st "").

(** What the client does that the machine does not allow. *)
Inductive ctl_divergence : ctl -> ctl -> Prop :=
| dv_unusable_token st err t e :
    t ∈ ["undefined"; "null"; ""] ->
    ctl_divergence (Ctl AUTHENTICATING st err) (Ctl ANONYMOUS (Session (Some t) (Some e)) err)
| dv_failure_keeps_session st err m :
    m <> "" -> ctl_divergence (Ctl AUTHENTICATING st err) (Ctl AUTHENTICATED st m).

(** A step of the client seen through the abstraction. *)
Definition ctl_rel (a a' : ctl) : Prop := a' = a \/ ctl_step a a' \/ ctl_divergence a a'.

(** ** The abstraction of a tab on a form *)

Section Abstraction.
Context {St : Type} `{WebStorageLaws St}.
Abbreviation S := (browser St * form_page)%type.

Definition ctl_of (s : S) : ctl :=
  Ctl (if fp_loading (snd s) then AUTHENTICATING
       else if isAuthenticated (fst s) then AUTHENTICATED else ANONYMOUS)
      (stored_session (b_storage (fst s))) (fp_error (snd s)).

Lemma isAuthenticated_reload b :
  isAuthenticated (reload b) = token_present (stored_session (b_storage b)).
Proof.
  unfold isAuthenticated, reload, token_present, stored_session. rewrite mount_effect_token. simpl.
  destruct (getItem (b_storage b) TOKEN_KEY) as [t|]; simpl; [|done].
  destruct (t =? "")%string eqn:E; simpl; by rewrite ?E.
Qed.

Lemma ctl_of_reset s : ctl_of (form_reset s) = Ctl (boot_state (stored_session (b_storage (fst s))))
                                                  (stored_session (b_storage (fst s))) "".
Proof.
  unfold ctl_of, form_reset, boot_state. cbn [fst snd fp_loading fp_error form_init].
  rewrite isAuthenticated_reload. reflexivity.
Qed.

(** The end of an authentication attempt, from AUTHENTICATING. *)
Lemma login_done_rel fb em o (s : S) :
  fb <> "" -> fp_loading (snd s) = true ->
  ctl_rel (ctl_of s) (ctl_of (login_done fb em o s)).
Proof.
  intros Hfb Hl. unfold ctl_of. rewrite Hl. destruct o as [v|m]; simpl.
  - rewrite stored_session_set_token_email. right.
    destruct (token_of v) as [| |t] eqn:Ht; simpl.
    + right. constructor. set_solver.
    + right. constructor. set_solver.
    + unfold isAuthenticated. simpl. destruct (t =? "")%string eqn:Et; simpl.
      * apply String.eqb_eq in Et. subst. right. constructor. set_solver.
      * left. constructor. by apply String.eqb_neq.
  - right. assert (Hm : js_or (JSStr m) fb <> "").
    { simpl. destruct (String.eqb m "") eqn:Em; simpl; [done|]. by apply String.eqb_neq. }
    destruct (isAuthenticated (fst s)); [right; by constructor|left; by constructor].
Qed.

#[local] Set Warnings "-register-all".
(** A waiting continuation of a form: run while [loading] is set, every
    answer moves the abstract state by [ctl_rel], and what it leaves
    waiting is of the same kind. *)
Inductive ctl_cont : pending S -> Prop :=
| cc_intro p :
    (forall x s, fp_loading (snd s) = true ->
       ctl_rel (ctl_of s) (ctl_of (fst (run (p_k p x) s))) /\ Forall ctl_cont (snd (run (p_k p x) s))) ->
    ctl_cont p.

Lemma login_step_cont fb em pw (s : S) :
  fb <> "" -> Forall ctl_cont (snd (run (login_step fb em pw) s)).
Proof.
  intros Hfb. destruct (login_step_spec fb em pw s) as [k [Hr Hk]]. rewrite Hr.
  constructor; [|constructor]. constructor. intros fr s' Hl. simpl. rewrite Hk.
  split; [by apply login_done_rel|constructor].
Qed.

(** Submitting a form: AUTHENTICATING with the message cleared, and the
    request left waiting is of the kind above. *)
Lemma submit_cont submit (s : S) :
  submit = login_handleSubmit \/ submit = register_handleSubmit ->
  fp_loading (snd s) = false ->
  ctl_rel (ctl_of s) (ctl_of (fst (run submit s))) /\ Forall ctl_cont (snd (run submit s)).
Proof.
  intros [->| ->] Hl.
  - assert (Hrun : run login_handleSubmit s =
              run (login_step "Failed to login" (fp_email (snd s)) (fp_password (snd s)))
                (fst s, set_loading true (set_error "" (snd s)))) by reflexivity.
    rewrite Hrun. destruct (login_step_flight "Failed to login" (fp_email (snd s)) (fp_password (snd s))
                (fst s, set_loading true (set_error "" (snd s)))) as [H1 _].
    rewrite H1. split; [|by apply login_step_cont].
    right. left. unfold ctl_of. simpl. rewrite Hl. constructor. by case_match.
  - split.
    + right. left. unfold ctl_of. simpl. rewrite Hl. constructor. by case_match.
    + constructor; [|constructor]. constructor. intros fr s' Hl'. simpl. destruct (interpret fr) as [v|m].
      * destruct (login_step_flight "Failed to create account" (fp_email (snd s)) (fp_password (snd s)) s')
          as [H1 _]. rewrite H1. split; [by left|]. by apply login_step_cont.
      * split; [|constructor]. exact (login_done_rel "Failed to create account" "" (Rejected m) s' ltac:(done) Hl').
Qed.
End Abstraction.

(** ** The refinement *)

Section Refinement.
Context {St : Type} `{WebStorageLaws St}.
Abbreviation S := (browser St * form_page)%type.
Variable submit : task S.
Hypothesis submit_form : submit = login_handleSubmit \/ submit = register_handleSubmit.

(** What holds of every reachable state of a tab on the form: at most
    one request in flight, and that request's continuation moves the
    abstract state by [ctl_rel]. *)
Definition ctl_inv (σ : sys) : Prop := one_in_flight σ /\ Forall ctl_cont (sys_pending σ).

Lemma ctl_step_rel σ σ' :
  sys_step (form_enabled_task submit) form_reset σ σ' -> ctl_inv σ ->
  ctl_rel (ctl_of (sys_state σ)) (ctl_of (sys_state σ')) /\ Forall ctl_cont (sys_pending σ').
Proof.
  intros Hst [Hfl Hc]. destruct Hst as [σ t [e [He ->]]|s ps1 p ps2 sent x|σ].
  - destruct σ as [s ps sent]. unfold start. simpl in *.
    destruct e as [v|v|]; simpl.
    + split; [by left|]. by rewrite app_nil_r.
    + split; [by left|]. by rewrite app_nil_r.
    + apply andb_prop in He as [He _]. apply andb_prop in He as [He _]. apply negb_true_iff in He.
      destruct (submit_cont submit s submit_form He) as [Hr Hps].
      destruct (run submit s) as [s' ps']. simpl in *. split; [exact Hr|]. by apply Forall_app.
  - destruct Hfl as [[_ Hp]|[Hl _]]; simpl in *; [by destruct ps1|].
    apply Forall_middle in Hc as [Hp Hc]. inversion Hp as [p' Hk]. subst p'.
    destruct (Hk x s Hl) as [Hr Hps]. unfold start. simpl.
    destruct (run (p_k p x) s) as [s' ps']. simpl in *. split; [exact Hr|]. by apply Forall_app.
  - split; [|constructor]. simpl. rewrite ctl_of_reset. right. left. constructor.
Qed.

Lemma reachable_ctl_inv b σ :
  reachable (form_enabled_task submit) form_reset (form_boot b) σ -> ctl_inv σ.
Proof.
  intros Hr. assert (Hb : ctl_inv (form_boot b)) by (split; [left|]; done).
  revert Hb. unfold reachable in Hr. induction Hr as [|σ1 σ2 σ3 Hst _ IH]; [done|].
  intros Hσ. apply IH. split.
  - eapply flight_step; [exact submit_form|exact Hst|apply Hσ].
  - eapply ctl_step_rel; eauto.
Qed.

(** C14. The login and registration forms refine the spec's Session
    Controller up to two deviations.  A tab opened on a form starts in
    the state boot gives; after that, every step (the user typing or
    submitting, an answer of the server, a reload) leaves the abstract
    state as it is, is a step of the spec machine, or is one of the two
    deviations of [ctl_divergence]: a login answer whose token is
    missing or empty (the store then holds "undefined", "null" or ""
    while the controller is ANONYMOUS), and a failed login from a tab
    already authenticated (the controller stays AUTHENTICATED with the
    message shown, where the spec goes to ANONYMOUS) (spec §4.3). *)
Theorem form_refines_controller b σ σ' :
  ctl_of (sys_state (form_boot b)) =
    Ctl (boot_state (stored_session (b_storage b))) (stored_session (b_storage b)) "" /\
  (reachable (form_enabled_task submit) form_reset (form_boot b) σ ->
   sys_step (form_enabled_task submit) form_reset σ σ' ->
   ctl_rel (ctl_of (sys_state σ)) (ctl_of (sys_state σ'))).
Proof.
  split; [apply (ctl_of_reset (b, form_init))|].
  intros Hr Hst. eapply ctl_step_rel; [exact Hst|]. by eapply reachable_ctl_inv.
Qed.
End Refinement.

(** ** Witness *)

Lemma form_refines_controller_witness :
  exists σ σ',
    reachable (form_enabled_task (St := gmap string string) login_handleSubmit) form_reset
      (form_boot first_visit) σ /\
    sys_step (form_enabled_task login_handleSubmit) form_reset σ σ' /\
    ctl_of (sys_state σ) = Ctl AUTHENTICATING anonymous "" /\
    ctl_of (sys_state σ') = Ctl AUTHENTICATED (Session (Some "T1") (Some "a@b.com")) "" /\
    ctl_rel (ctl_of (sys_state σ)) (ctl_of (sys_state σ')).
Proof.
  refine (ex_intro _ ?[s1] (ex_intro _ ?[s2] _)).
  cut (reachable (form_enabled_task (St := gmap string string) login_handleSubmit) form_reset
         (form_boot first_visit) ?s1 /\
       sys_step (form_enabled_task login_handleSubmit) form_reset ?s1 ?s2).
  2: { split.
       - eapply rtc_l; [apply st_event; exists (EvEmail "a@b.com"); split; reflexivity|].
         eapply rtc_l; [apply st_event; exists (EvPassword "x"); split; reflexivity|].
         eapply rtc_l; [apply st_event; exists EvSubmitForm; split; reflexivity|].
         apply rtc_refl.
       - cbn. match goal with |- sys_step _ _ (Sys _ [?p] _) _ =>
           apply (st_resume_at _ _ _ [] p [] (FResp (Response 200 "OK" (BJson (LoginResp (JSStr "T1"))))));
           reflexivity end. }
  intros [Hr Hst]. split; [exact Hr|]. split; [exact Hst|]. split; [reflexivity|]. split; [reflexivity|].
  exact (proj2 (form_refines_controller login_handleSubmit (or_introl eq_refl) first_visit _ _) Hr Hst).
Defined.
