(* ===== verification/Ingest.v ===== *)
(** * The Proposal Workflow ([src/frontend/src/app/ingest/page.tsx])

    [IngestPage] keeps the text being typed, a [loading] flag, the list of
    proposals it shows and the active tab.  [fetchProposals] replaces the
    list with the [PENDING] proposals the server returns; [handleIngest]
    validates the text, posts it to [/ingest], then clears it, switches to
    the review tab and starts [fetchProposals] without awaiting it;
    [handleAccept] posts [/proposals/{id}/accept] and, on success, removes
    the proposal from the list as it is when the response arrives.  The
    reject button of a card has no handler.  The render shows each
    card's amount and its [createdAt] with ['MMM d, h:mm a'], and throws
    when [new Date] does not read that date.  In a browser tab
    ([System]) the page keeps its invariants in every reachable state. *)

From S2P Require Import Prelude Js JsFormat JsDate Storage Async System Api Auth.
From Stdlib Require Import PrimFloat.

Local Open Scope string_scope.

(** [interface Proposal]; the amount of a proposal read from JSON can
    be [null] or absent ([None]), which the view's [amount?.] allows. *)
Record proposal := Proposal {
  pr_id : Z;
  pr_amount : option float;
  pr_merchant : jsstr;
  pr_accountHint : jsstr;
  pr_status : string;
  pr_createdAt : string;
}.

Inductive tab := TabIngest | TabProposals.

#[export] Instance tab_eq_dec : EqDecision tab.
Proof. solve_decision. Defined.

Record ingest_page := IngestPage {
  ip_rawText : string;
  ip_loading : bool;
  ip_proposals : list proposal;
  ip_activeTab : tab;
}.

Definition ingest_init : ingest_page := IngestPage "" false [] TabIngest.

Definition set_rawText (t : string) (p : ingest_page) : ingest_page :=
  IngestPage t (ip_loading p) (ip_proposals p) (ip_activeTab p).
Definition set_ingest_loading (l : bool) (p : ingest_page) : ingest_page :=
  IngestPage (ip_rawText p) l (ip_proposals p) (ip_activeTab p).
Definition set_proposals (ps : list proposal) (p : ingest_page) : ingest_page :=
  IngestPage (ip_rawText p) (ip_loading p) ps (ip_activeTab p).
Definition set_activeTab (t : tab) (p : ingest_page) : ingest_page :=
  IngestPage (ip_rawText p) (ip_loading p) (ip_proposals p) t.

(** [p.status === 'PENDING']. *)
Definition is_pending (q : proposal) : bool := String.eqb (pr_status q) "PENDING".

#[export] Instance proposal_has_id : HasId proposal := pr_id.

(** [prev => prev.filter(p => p.id !== id)]. *)
Definition remove_proposal (id : Z) (p : ingest_page) : ingest_page :=
  set_proposals (remove_id id (ip_proposals p)) p.

Definition ingest_body (rawText : string) : json :=
  JObj [("rawText", JStr rawText); ("currency", JStr "USD")].

Definition accept_endpoint (id : Z) : string :=
  "/proposals/" ++ js_int_to_string id ++ "/accept".

(** The page's events: its mount effect, typing, the form's submit,
    the tabs, and the two buttons of a card. *)
Inductive ingest_event :=
| EvMount
| EvType (text : string)
| EvSubmit
| EvTab (t : tab)
| EvAccept (id : Z)
| EvReject (id : Z).

Section IngestPage.
Context {St : Type} `{WebStorageLaws St}.
Abbreviation S := (browser St * ingest_page)%type.

(** [fetchProposals]: a non-array result makes [data.filter] throw a
    [TypeError], caught like a failed request. *)
Definition fetchProposals_then (o : api_outcome (list proposal)) : task S :=
  match o with
  | Resolved (AVal data) => Upd (on_page (set_proposals (List.filter is_pending data))) Done
  | Resolved (AObj _) => Done
  | Rejected _ => Done
  end.

Definition fetchProposals : task S :=
  api_get page_storage "/proposals" fetchProposals_then.

(** [handleIngest]: the text is the one typed when the form is
    submitted; [fetchProposals()] is called without [await], so the
    [finally] runs before the list is refreshed. *)
Definition handleIngest : task S :=
  Read (fun s =>
    let rawText := ip_rawText (snd s) in
    if String.eqb (js_trim rawText) "" then Done
    else
      Upd (on_page (set_ingest_loading true))
        (api_post page_storage "/ingest" (ingest_body rawText) (fun o : api_outcome unit =>
           match o with
           | Resolved _ =>
               Upd (on_page (set_rawText ""))
                 (Upd (on_page (set_activeTab TabProposals))
                   (Spawn fetchProposals
                     (Upd (on_page (set_ingest_loading false)) Done)))
           | Rejected _ => Upd (on_page (set_ingest_loading false)) Done
           end))).

(** [handleAccept(id)]. *)
Definition handleAccept (id : Z) : task S :=
  api_post page_storage (accept_endpoint id) (JObj []) (fun o : api_outcome unit =>
    match o with
    | Resolved _ => Upd (on_page (remove_proposal id)) Done
    | Rejected _ => Done
    end).

Definition ingest_handler (e : ingest_event) : task S :=
  match e with
  | EvMount => fetchProposals
  | EvType text => Upd (on_page (set_rawText text)) Done
  | EvSubmit => handleIngest
  | EvTab t => Upd (on_page (set_activeTab t)) Done
  | EvAccept id => handleAccept id
  | EvReject _ => Done
  end.
End IngestPage.

(** ** The view *)

(** [disabled={loading || !rawText.trim()}] of the submit button. *)
Definition submit_disabled (p : ingest_page) : bool :=
  ip_loading p || String.eqb (js_trim (ip_rawText p)) "".

(** The label of the review tab, [Review ({proposals.length})]. *)
Definition review_label (p : ingest_page) : string :=
  "Review (" ++ js_int_to_string (Z.of_nat (length (ip_proposals p))) ++ ")".

(** A card's amount, [${proposal.amount?.toFixed(2)}]: a [null] or
    absent amount short-circuits to [undefined], which React renders as
    nothing, so the card shows ["$"] alone. *)
Definition card_amount (q : proposal) : option string :=
  match pr_amount q with
  | Some x => option_map (fun digits => "$" ++ digits) (js_toFixed 2 x)
  | None => Some "$"
  end.

(** A card's title and subtitle. *)
Definition card_title (q : proposal) : string := js_or (pr_merchant q) "Unknown Merchant".

Definition card_subtitle (q : proposal) : string :=
  if truthy (pr_accountHint q) then "via " ++ to_js_string (pr_accountHint q)
  else "No account detected".

(** A proposal's card: title, subtitle, amount, the date it was
    proposed, and the id its accept button accepts (its reject button
    has no handler). *)
Record ingest_card := IngestCard {
  ic_title : string;
  ic_subtitle : string;
  ic_amount : option string;
  ic_date : string;
  ic_accept : Z;
}.

(** The card of a proposal, [None] when
    [format(new Date(proposal.createdAt), 'MMM d, h:mm a')] throws. *)
Definition card_of (en : engine) (q : proposal) : option ingest_card :=
  option_map (fun date => IngestCard (card_title q) (card_subtitle q) (card_amount q) date (pr_id q))
    (date_fns_format (en_zone en) MMM_d_h_mm_a (js_new_Date en (pr_createdAt q))).

(** The panel below the tabs: the entry form (the text, the spinner
    while [loading], and whether the submit button is disabled), the
    "All caught up!" message, or the cards. *)
Inductive ingest_panel :=
| PanelEntry (text : string) (spinner : bool) (disabled : bool)
| PanelCaughtUp
| PanelCards (cards : list ingest_card).

(** [IngestPage]'s render in the engine [en]: the review tab's label
    and the panel of the active tab; it throws when a card's date
    does. *)
Definition ingest_view (en : engine) (p : ingest_page) : render (string * ingest_panel) :=
  match ip_activeTab p with
  | TabIngest => RShows (review_label p, PanelEntry (ip_rawText p) (ip_loading p) (submit_disabled p))
  | TabProposals =>
      match ip_proposals p with
      | [] => RShows (review_label p, PanelCaughtUp)
      | qs =>
          match mapM (card_of en) qs with
          | Some cards => RShows (review_label p, PanelCards cards)
          | None => RThrows
          end
      end
  end.

(** Whether an event can be produced by the page as rendered: the form
    and its enabled button on the entry tab, a card's buttons for a
    displayed proposal on the review tab. *)
Definition ingest_enabled (p : ingest_page) (e : ingest_event) : bool :=
  match e with
  | EvSubmit => bool_decide (ip_activeTab p = TabIngest) && negb (submit_disabled p)
  | EvType _ => bool_decide (ip_activeTab p = TabIngest)
  | EvAccept id | EvReject id =>
      bool_decide (ip_activeTab p = TabProposals) &&
      existsb (fun q => Z.eqb (pr_id q) id) (ip_proposals p)
  | _ => true
  end.

(** ** Properties of the workflow *)

(** The effect of a completed [fetchProposals] on the page. *)
Definition fetch_done (o : api_outcome (list proposal)) (p : ingest_page) : ingest_page :=
  match o with
  | Resolved (AVal data) => set_proposals (List.filter is_pending data) p
  | _ => p
  end.

(** The effect of a completed [handleAccept id] on the page. *)
Definition accept_done (id : Z) (o : api_outcome unit) (p : ingest_page) : ingest_page :=
  match o with
  | Resolved _ => remove_proposal id p
  | Rejected _ => p
  end.

Definition displayed_ids (p : ingest_page) : list Z := ids_of (ip_proposals p).

(** Completions of accept requests, applied in the order they arrive. *)
Definition apply_accepts (cs : list (Z * api_outcome unit)) (p : ingest_page) : ingest_page :=
  fold_left (fun p c => accept_done (fst c) (snd c) p) cs p.

Definition succeeded (cs : list (Z * api_outcome unit)) : list Z :=
  map fst (List.filter (fun c => match snd c with Resolved _ => true | Rejected _ => false end) cs).

Definition not_in_ids (ids : list Z) (q : proposal) : bool :=
  negb (existsb (Z.eqb (pr_id q)) ids).

Lemma set_proposals_set_proposals l l' p :
  set_proposals l (set_proposals l' p) = set_proposals l p.
Proof. done. Qed.

Lemma remove_proposal_spec id p :
  remove_proposal id p = set_proposals (List.filter (not_in_ids [id]) (ip_proposals p)) p.
Proof.
  unfold remove_proposal, not_in_ids. f_equal. apply List.filter_ext.
  intros q. simpl. by rewrite orb_false_r.
Qed.

Lemma not_in_ids_cons id ids q :
  not_in_ids (id :: ids) q = not_in_ids [id] q && not_in_ids ids q.
Proof. unfold not_in_ids. simpl. rewrite orb_false_r. apply negb_orb. Qed.

Lemma existsb_perm {A} (f : A -> bool) (l l' : list A) :
  Permutation l l' -> existsb f l = existsb f l'.
Proof.
  intros HP. apply Bool.eq_true_iff_eq. rewrite !List.existsb_exists.
  split; intros (x & Hx & Hf); exists x; split; try done.
  - by rewrite <- HP. - by rewrite HP.
Qed.

(** C2. Whatever the order in which accept requests complete, the list
    the page shows is the list it showed minus exactly the proposals
    whose accept succeeded; a failed accept leaves its proposal shown
    (spec §8, first property). *)
Theorem apply_accepts_spec cs p :
  apply_accepts cs p = set_proposals (List.filter (not_in_ids (succeeded cs)) (ip_proposals p)) p.
Proof.
  revert p. induction cs as [|[id o] cs IH]; intros p.
  - simpl. unfold set_proposals. rewrite filter_id_all; [by destruct p|done].
  - change (apply_accepts ((id, o) :: cs) p) with (apply_accepts cs (accept_done id o p)).
    rewrite IH. destruct o as [v|m].
    + change (succeeded ((id, Resolved v) :: cs)) with (id :: succeeded cs).
      cbn [accept_done]. rewrite remove_proposal_spec. cbn [ip_proposals set_proposals].
      rewrite filter_filter_and. unfold set_proposals. cbn [ip_rawText ip_loading ip_activeTab].
      f_equal. apply List.filter_ext. intros q. symmetry. apply not_in_ids_cons.
    + done.
Qed.

#[export] Instance apply_accepts_proper :
  Proper (Permutation ==> eq ==> eq) apply_accepts.
Proof.
  intros cs cs' HP p ? <-. rewrite !apply_accepts_spec. f_equal.
  apply List.filter_ext. intros q. unfold not_in_ids. f_equal. apply existsb_perm.
  unfold succeeded. by apply Permutation_map, filter_perm.
Qed.

Section IngestProperties.
Context {St : Type} `{WebStorageLaws St}.
Abbreviation S := (browser St * ingest_page)%type.


Lemma fetchProposals_then_run o (s : S) :
  run (fetchProposals_then o) s = ((fst s, fetch_done o (snd s)), []).
Proof. destruct s as [b p]. unfold fetch_done. repeat case_match; simplify_eq; reflexivity. Qed.

(** C3. [handleAccept id] sends [POST /api/proposals/{id}/accept] and
    changes nothing before the response; when it arrives, a success
    removes the proposal [id] from the list as it is then, without
    fetching the list again, and a failure changes nothing (spec §4.4). *)
Theorem handleAccept_spec id (s : S) :
  exists k, run (handleAccept id) s =
            (s, [pending1 (T := unit) (request_of (page_storage s) (accept_endpoint id)
                                             (post_options (JObj []))) k]) /\
    forall fr s', run (k fr) s' = ((fst s', accept_done id (interpret fr) (snd s')), []).
Proof.
  eexists. split; [reflexivity|]. intros fr [b p]. simpl. unfold accept_done.
  repeat case_match; simplify_eq; reflexivity.
Qed.

(** [fetchProposals] sends [GET /api/proposals]; a resolved array
    replaces the list by its [PENDING] proposals in the server's order;
    a failure, or a result that is not an array (the [{}] of a 204),
    leaves the list as it is. *)
Theorem fetchProposals_spec (s : S) :
  exists k, run fetchProposals s =
            (s, [pending1 (T := list proposal)
                   (request_of (page_storage s) "/proposals" get_options) k]) /\
    forall fr s', run (k fr) s' = ((fst s', fetch_done (interpret fr) (snd s')), []).
Proof.
  eexists. split; [reflexivity|]. intros fr s'. apply fetchProposals_then_run.
Qed.

End IngestProperties.

Section IngestFlows.
Context {St : Type} `{WebStorageLaws St}.
Abbreviation S := (browser St * ingest_page)%type.

Definition ingest_submitted (p : ingest_page) : ingest_page :=
  set_ingest_loading false (set_activeTab TabProposals (set_rawText "" p)).

(** C5. Submitting the ingestion form: a text made only of white space
    sends nothing and changes nothing.  Otherwise the page sets
    [loading] and sends [POST /api/ingest] with the text and ["USD"];
    the list is fetched again only after that response, never in
    parallel with it (spec §5).  On success the text is cleared, the
    review tab is shown, one [GET /api/proposals] is sent whose result
    is handled as by [fetchProposals], and [loading] is cleared before
    that result arrives.  On failure only [loading] is cleared: the
    text stays in the input for a retry (spec §4.4). *)
Theorem handleIngest_spec (s : S) :
  let text := ip_rawText (snd s) in
  if String.eqb (js_trim text) "" then run handleIngest s = (s, [])
  else exists k,
    run handleIngest s =
      (on_page (set_ingest_loading true) s,
       [pending1 (T := unit) (request_of (page_storage s) "/ingest" (post_options (ingest_body text))) k]) /\
    forall fr s',
      match interpret fr with
      | Resolved _ =>
          exists kf,
            run (k fr) s' =
              ((fst s', ingest_submitted (snd s')),
               [pending1 (T := list proposal) (request_of (page_storage s') "/proposals" get_options) kf]) /\
            forall fr2 s'', run (kf fr2) s'' = ((fst s'', fetch_done (interpret fr2) (snd s'')), [])
      | Rejected _ => run (k fr) s' = ((fst s', set_ingest_loading false (snd s')), [])
      end.
Proof.
  simpl. destruct (String.eqb (js_trim (ip_rawText (snd s))) "") eqn:E; [done|].
  eexists. split; [reflexivity|]. intros fr [b p]. simpl.
  destruct (interpret fr) eqn:Ei; [|reflexivity].
  exists (fun fr2 => fetchProposals_then (interpret fr2)). split; [reflexivity|].
  intros fr2 s''. apply fetchProposals_then_run.
Qed.

(** The list shown holds only [PENDING] proposals. *)
Definition displays_pending (s : S) : Prop :=
  Forall (fun q => is_pending q = true) (ip_proposals (snd s)).

Lemma filter_pending_all l : Forall (fun q => is_pending q = true) (List.filter is_pending l).
Proof. apply List.Forall_forall. intros q Hq. apply List.filter_In in Hq. apply Hq. Qed.

Lemma Forall_filter_keep {A} (P : A -> Prop) (f : A -> bool) l :
  Forall P l -> Forall P (List.filter f l).
Proof.
  rewrite !List.Forall_forall. intros HP x Hx. apply List.filter_In in Hx. apply HP, Hx.
Qed.

(** Every handler of the page, in every continuation and whatever the
    responses, keeps the list shown made of [PENDING] proposals only. *)
Lemma ingest_handler_pending e : preserves displays_pending (ingest_handler e).
Proof.
  destruct e; simpl; cbv delta [fetchProposals fetchProposals_then handleIngest handleAccept api_post api_get api_request] beta;
    task_pred; unfold displays_pending in *; simpl in *; try done.
  all: try apply filter_pending_all.
  all: apply Forall_filter_keep; done.
Qed.

(** The URLs the page sends requests to. *)
Definition ingest_url (u : string) : Prop :=
  u = "/api/proposals" \/ u = "/api/ingest" \/ exists id, u = BASE_URL ++ accept_endpoint id.

(** Every request any handler of the page sends, in any continuation,
    goes to one of the three endpoints the page uses. *)
Lemma ingest_handler_requests e : all_requests (fun r => ingest_url (req_url r)) (ingest_handler e).
Proof.
  destruct e; simpl; cbv delta [fetchProposals fetchProposals_then handleIngest handleAccept api_post api_get api_request] beta;
    task_pred; unfold ingest_url;
    first [left; reflexivity | right; left; reflexivity | right; right; eexists; reflexivity].
Qed.
End IngestFlows.

(** ** The page in a browser tab

    The page under [System]'s interleaving: the user triggers the events
    the view enables ([ingest_enabled]), responses arrive in any order
    with any content, 401s and network failures included, and a reload
    mounts the provider again and resets the page. *)

Section IngestSystem.
Context {St : Type} `{WebStorageLaws St}.
Abbreviation S := (browser St * ingest_page)%type.

Definition ingest_enabled_task (s : S) (t : task S) : Prop :=
  exists e, ingest_enabled (snd s) e = true /\ t = ingest_handler e.

Definition ingest_reset (s : S) : S := (reload (fst s), ingest_init).

(** The page's handlers never touch the browser's part of the state. *)
Lemma ingest_handler_browser (P : browser St -> Prop) e :
  preserves (fun s : S => P (fst s)) (ingest_handler e).
Proof.
  destruct e; simpl; cbv delta [fetchProposals fetchProposals_then handleIngest handleAccept api_post api_get api_request] beta;
    task_pred; done.
Qed.

(** C4. Whatever the user does, whatever the server answers and in
    whatever order, and across reloads, the list shown holds only
    [PENDING] proposals: accepted or rejected proposals never appear in
    the review queue (spec §3). *)
Theorem ingest_reachable_pending (s0 : S) σ :
  displays_pending s0 ->
  reachable ingest_enabled_task ingest_reset (boot s0) σ ->
  displays_pending (sys_state σ).
Proof.
  intros Hs0 Hr. eapply (reachable_inv _ _ displays_pending) in Hr; [apply Hr| | |by apply boot_inv].
  - intros s t [e [_ ->]]. apply ingest_handler_pending.
  - intros s _. constructor.
Qed.

(** C24. The page never asks the server to reject a proposal: every
    request it ever sends, whatever the user clicks (the reject button
    included) and whatever the server answers, goes to
    [/api/proposals], [/api/ingest] or [/api/proposals/{id}/accept].
    The spec requires the reject action to call a reject endpoint and
    drop the proposal from the list (spec §4.4). *)
Theorem ingest_reachable_requests (s0 : S) σ :
  reachable ingest_enabled_task ingest_reset (boot s0) σ ->
  Forall (fun r => ingest_url (req_url r)) (sys_sent σ).
Proof.
  intros Hr. eapply reachable_requests in Hr; [apply Hr| |apply boot_requests].
  intros s t [e [_ ->]]. apply ingest_handler_requests.
Qed.

(** C7. No answer the page receives ends the session: in every reachable
    state the browser (the Session Store, the provider's state and the
    route) is the one the tab started with, or the one a reload of it
    gives, even after a [401] to any of the page's requests.  The spec
    requires a [401] observed during an authenticated operation to tear
    the session down (spec §4.3, §8). *)
Theorem ingest_session_untouched (s0 : S) σ :
  reachable ingest_enabled_task ingest_reset (boot s0) σ ->
  fst (sys_state σ) = fst s0 \/ fst (sys_state σ) = reload (fst s0).
Proof.
  intros Hr.
  eapply (reachable_inv _ _ (fun s => fst s = fst s0 \/ fst s = reload (fst s0))) in Hr;
    [apply Hr| | |apply boot_inv; by left].
  - intros s t [e [_ ->]]. apply (ingest_handler_browser (fun b => b = fst s0 \/ b = reload (fst s0))).
  - intros s [Hs|Hs]; right; simpl; rewrite Hs; [done|apply reload_reload].
Qed.
End IngestSystem.

(** ** Scenarios *)

Definition trader_joes_text : string := "Spent $45 at Trader Joe's".

Definition proposal7 : proposal :=
  Proposal 7 (Some 45%float) (JSStr "Trader Joe's") JSUndef "PENDING" "2025-01-01T12:00:00Z".

Lemma remove_proposal_gone id p : id ∉ displayed_ids (remove_proposal id p).
Proof. apply remove_id_gone. Qed.

Section Scenarios.
Context {St : Type} `{WebStorageLaws St}.
Abbreviation S := (browser St * ingest_page)%type.

(** The scenario of spec §8: submitting "Spent $45 at Trader Joe's"
    sends it with ["USD"]; once the server accepts it, the list is
    fetched again, and a proposal 7 the service produced is shown. *)
Theorem ingest_scenario (b : browser St) l ps t rest :
  let s : S := (b, IngestPage trader_joes_text l ps t) in
  exists k,
    run handleIngest s =
      (on_page (set_ingest_loading true) s,
       [pending1 (T := unit)
          (request_of (b_storage b) "/ingest" (post_options (ingest_body trader_joes_text))) k]) /\
    forall s', exists kf,
      snd (run (k (ok_response tt)) s') =
        [pending1 (T := list proposal) (request_of (page_storage s') "/proposals" get_options) kf] /\
      forall s'', proposal7 ∈ ip_proposals (snd (fst (run (kf (ok_response (proposal7 :: rest))) s''))).
Proof.
  intros s. eexists. split; [reflexivity|].
  intros [b' p']. eexists. split; [reflexivity|].
  intros s''. simpl. left.
Qed.

(** The scenario of spec §8: [accept(7)] sends
    [POST /api/proposals/7/accept]; once it succeeds, proposal 7 is no
    longer shown, and no request is sent to confirm it. *)
Theorem accept_scenario (s : S) :
  exists k,
    run (handleAccept 7) s =
      (s, [pending1 (T := unit) (request_of (page_storage s) (accept_endpoint 7) (post_options (JObj []))) k]) /\
    req_url (request_of (page_storage s) (accept_endpoint 7) (post_options (JObj []))) = "/api/proposals/7/accept" /\
    forall s', snd (run (k (ok_response tt)) s') = [] /\
               7%Z ∉ displayed_ids (snd (fst (run (k (ok_response tt)) s'))).
Proof.
  eexists. split; [reflexivity|]. split; [reflexivity|].
  intros [b' p']. split; [reflexivity|]. apply remove_proposal_gone.
Qed.

(** C25. The local queue can show a proposal the server has already
    accepted.  A refresh of the list is in flight when proposal 7 is
    accepted; the server answered the refresh before it processed the
    accept, so its answer still lists 7 as [PENDING].  The accept
    succeeds and 7 leaves the list, then the stale answer arrives and
    puts 7 back (spec §5 accepts last-writer-wins; the spec's §8
    scenario expects 7 to stay absent). *)
Theorem stale_refresh_resurrects (b : browser St) :
  let s0 : S := (b, IngestPage "" false [proposal7] TabProposals) in
  exists kf ka,
    run fetchProposals s0 =
      (s0, [pending1 (T := list proposal) (request_of (b_storage b) "/proposals" get_options) kf]) /\
    run (handleAccept 7) s0 =
      (s0, [pending1 (T := unit)
              (request_of (b_storage b) (accept_endpoint 7) (post_options (JObj []))) ka]) /\
    (let s3 := fst (run (ka (ok_response tt)) s0) in
     let s4 := fst (run (kf (ok_response [proposal7])) s3) in
     (7%Z ∉ displayed_ids (snd s3)) /\ (7%Z ∈ displayed_ids (snd s4))).
Proof.
  intros s0. eexists _, _. split; [reflexivity|]. split; [reflexivity|].
  cbn zeta. rewrite fetchProposals_then_run. simpl. split; [|left].
  apply (remove_proposal_gone 7).
Qed.
End Scenarios.

(** ** Witnesses *)

Definition review_state : browser (gmap string string) * ingest_page :=
  (reload returning_visit, IngestPage "" false [proposal7] TabProposals).

Definition typed_state : browser (gmap string string) * ingest_page :=
  (reload returning_visit, IngestPage trader_joes_text false [] TabIngest).

Lemma handleAccept_spec_witness :
  exists k, run (handleAccept 7) review_state =
            (review_state, [pending1 (T := unit) (request_of (page_storage review_state) (accept_endpoint 7)
                                                        (post_options (JObj []))) k]) /\
    forall fr s', run (k fr) s' = ((fst s', accept_done 7 (interpret fr) (snd s')), []).
Proof. exact (handleAccept_spec 7 review_state). Defined.

Lemma fetchProposals_spec_witness :
  exists k, run fetchProposals review_state =
            (review_state, [pending1 (T := list proposal)
                              (request_of (page_storage review_state) "/proposals" get_options) k]) /\
    forall fr s', run (k fr) s' = ((fst s', fetch_done (interpret fr) (snd s')), []).
Proof. exact (fetchProposals_spec review_state). Defined.

Lemma handleIngest_spec_witness :
  if String.eqb (js_trim trader_joes_text) "" then run handleIngest typed_state = (typed_state, [])
  else exists k,
    run handleIngest typed_state =
      (on_page (set_ingest_loading true) typed_state,
       [pending1 (T := unit) (request_of (page_storage typed_state) "/ingest" (post_options (ingest_body trader_joes_text))) k]) /\
    forall fr s',
      match interpret fr with
      | Resolved _ =>
          exists kf,
            run (k fr) s' =
              ((fst s', ingest_submitted (snd s')),
               [pending1 (T := list proposal) (request_of (page_storage s') "/proposals" get_options) kf]) /\
            forall fr2 s'', run (kf fr2) s'' = ((fst s'', fetch_done (interpret fr2) (snd s'')), [])
      | Rejected _ => run (k fr) s' = ((fst s', set_ingest_loading false (snd s')), [])
      end.
Proof. exact (handleIngest_spec typed_state). Defined.

Lemma stale_refresh_resurrects_witness :
  exists kf ka,
    run fetchProposals review_state =
      (review_state, [pending1 (T := list proposal) (request_of (b_storage returning_visit) "/proposals" get_options) kf]) /\
    run (handleAccept 7) review_state =
      (review_state, [pending1 (T := unit)
              (request_of (b_storage returning_visit) (accept_endpoint 7) (post_options (JObj []))) ka]) /\
    (let s3 := fst (run (ka (ok_response tt)) review_state) in
     let s4 := fst (run (kf (ok_response [proposal7])) s3) in
     (7%Z ∉ displayed_ids (snd s3)) /\ (7%Z ∈ displayed_ids (snd s4))).
Proof. exact (stale_refresh_resurrects (reload returning_visit)). Defined.

(** A tab on the review queue that accepts proposal 7 and is answered
    [401]: the session expired on the server. *)
Definition unauthorized {T} : fetch_result T :=
  FResp (Response 401 "Unauthorized" (BObj (JSStr "Invalid token"))).

Lemma accept_401_reachable :
  exists σ, reachable (ingest_enabled_task (St := gmap string string)) ingest_reset (boot review_state) σ /\
            sys_sent σ = [request_of (page_storage review_state) (accept_endpoint 7) (post_options (JObj []))] /\
            sys_pending σ = [].
Proof.
  eexists. split; [|split].
  - eapply rtc_l; [apply st_event; exists (EvAccept 7); split; reflexivity|].
    cbn.
    match goal with |- rtc _ (Sys _ [?p] _) _ =>
      eapply rtc_l; [apply (st_resume_at _ _ _ [] p [] unauthorized); reflexivity|] end.
    apply rtc_refl.
  - reflexivity.
  - reflexivity.
Defined.

Lemma ingest_reachable_pending_witness :
  exists σ, reachable (ingest_enabled_task (St := gmap string string)) ingest_reset (boot review_state) σ /\
            displays_pending review_state /\ displays_pending (sys_state σ).
Proof.
  destruct accept_401_reachable as [σ [Hr _]]. exists σ.
  assert (H0 : displays_pending review_state) by (repeat constructor).
  split; [exact Hr|]. split; [exact H0|]. exact (ingest_reachable_pending review_state σ H0 Hr).
Defined.

Lemma ingest_reachable_requests_witness :
  exists σ, reachable (ingest_enabled_task (St := gmap string string)) ingest_reset (boot review_state) σ /\
            sys_sent σ <> [] /\ Forall (fun r => ingest_url (req_url r)) (sys_sent σ).
Proof.
  destruct accept_401_reachable as [σ [Hr [Hsent _]]]. exists σ.
  split; [exact Hr|]. split; [by rewrite Hsent|]. exact (ingest_reachable_requests review_state σ Hr).
Defined.

Lemma ingest_session_untouched_witness :
  exists σ, reachable (ingest_enabled_task (St := gmap string string)) ingest_reset (boot review_state) σ /\
            (fst (sys_state σ) = fst review_state \/ fst (sys_state σ) = reload (fst review_state)) /\
            isAuthenticated (fst (sys_state σ)) = true.
Proof.
  destruct accept_401_reachable as [σ [Hr _]]. exists σ. split; [exact Hr|].
  destruct (ingest_session_untouched review_state σ Hr) as [Hb|Hb].
  - split; [by left|]. by rewrite Hb.
  - split; [by right|]. by rewrite Hb.
Defined.

