(* ===== verification/Dashboard.v ===== *)
(** * The Dashboard Aggregator ([src/frontend/src/app/page.tsx])

    The home view redirects to ["/login"] once the provider has loaded
    without a session, renders nothing until then, and, when the provider
    is authenticated, fetches the accounts and the five most recent
    transactions together ([Promise.all]).  It shows the total balance,
    the sum of the accounts' [balanceEstimate] computed by [reduce] in
    IEEE double arithmetic and written with [toLocaleString], and the
    recent activity, each row's date formatted with ['MMM d, h:mm a'] in
    the engine's time zone: an invalid date throws and takes the whole
    render down.  [fetchData] is proved equivalent to a sequential
    reference awaiting one request after the other, and the render
    [dashboard_view] is followed through the boot of a tab. *)

From S2P Require Import Prelude Js JsString JsFormat JsDate Storage Async Api Auth.
From Stdlib Require Import PrimFloat.

Local Open Scope string_scope.

(** [interface Account] and [interface Transaction] of the page. *)
Record account := Account {
  acc_id : Z;
  acc_name : string;
  acc_balanceEstimate : float;
  acc_type : string;
}.

Inductive txn_type := CREDIT | DEBIT.

Record transaction := Transaction {
  tx_id : Z;
  tx_merchant : string;
  tx_amount : float;
  tx_type : txn_type;
  tx_txnDate : string;
  tx_categoryName : jsstr;
}.

(** The page of transactions the server returns: its [content] field
    may be missing. *)
Record txn_page := TxnPage { content : option (list transaction) }.

(** The page's state: [accounts] holds whatever [/accounts] resolved to,
    an array or another object; [recentTxns]; [loadingData]. *)
Record dashboard := Dashboard {
  d_accounts : api_value (list account);
  d_recentTxns : list transaction;
  d_loadingData : bool;
}.

Definition dashboard_init : dashboard := Dashboard (AVal []) [] true.

Definition RECENT_ENDPOINT : string := "/transactions?page=0&size=5&sort=txnDate,desc".

(** [txnsData.content || []]. *)
Definition recent_of (v : api_value txn_page) : list transaction :=
  match v with
  | AVal p => default [] (content p)
  | AObj _ => []
  end.

(** The effect of [fetchData]'s completion on the page. *)
Definition fetchData_done (o : all2_outcome (list account) txn_page) (d : dashboard) : dashboard :=
  match o with
  | Both accountsData txnsData => Dashboard accountsData (recent_of txnsData) false
  | FirstRejection _ => Dashboard (d_accounts d) (d_recentTxns d) false
  end.

Section DashboardPage.
Context {St : Type} `{WebStorageLaws St}.
Abbreviation S := (browser St * dashboard)%type.

(** [fetchData]: [setAccounts] and [setRecentTxns] on success, nothing
    on failure, and [setLoadingData(false)] in the [finally]. *)
Definition fetchData : task S :=
  api_get_all2 page_storage "/accounts" RECENT_ENDPOINT
    (fun o : all2_outcome (list account) txn_page =>
       match o with
       | Both accountsData txnsData =>
           Upd (on_page (fun d => Dashboard accountsData (d_recentTxns d) (d_loadingData d)))
             (Upd (on_page (fun d => Dashboard (d_accounts d) (recent_of txnsData) (d_loadingData d)))
               (Upd (on_page (fun d => Dashboard (d_accounts d) (d_recentTxns d) false)) Done))
       | FirstRejection _ => Upd (on_page (fun d => Dashboard (d_accounts d) (d_recentTxns d) false)) Done
       end).

(** The reference [fetchData] awaits its two requests one after the
    other: [const accountsData = await api.get('/accounts')], then
    [const txnsData = await api.get(...)], with the same updates, the
    same empty [catch] and the same [finally].  [fetchData] is its
    [Promise.all] version. *)
Definition fetchData_seq : task S :=
  let finally_ := Upd (on_page (fun d => Dashboard (d_accounts d) (d_recentTxns d) false)) Done in
  api_get page_storage "/accounts" (fun o1 : api_outcome (list account) =>
    match o1 with
    | Rejected _ => finally_
    | Resolved accountsData =>
        api_get page_storage RECENT_ENDPOINT (fun o2 : api_outcome txn_page =>
          match o2 with
          | Rejected _ => finally_
          | Resolved txnsData =>
              Upd (on_page (fun d => Dashboard accountsData (d_recentTxns d) (d_loadingData d)))
                (Upd (on_page (fun d => Dashboard (d_accounts d) (recent_of txnsData) (d_loadingData d)))
                  finally_)
          end)
    end).

(** The first effect: [if (!isLoading && !isAuthenticated) router.push('/login')]. *)
Definition redirect_effect (s : S) : S :=
  if negb (a_isLoading (b_auth (fst s))) && negb (isAuthenticated (fst s))
  then (Browser (b_storage (fst s)) (b_auth (fst s)) "/login", snd s)
  else s.

(** The second effect: [if (isAuthenticated) fetchData()]. *)
Definition data_effect : task S :=
  Read (fun s => if isAuthenticated (fst s) then fetchData else Done).

(** The logout button calls the provider's [logout]. *)
Definition logout_button : task S := lift (Lens fst (fun b s => (b, snd s))) logout.
End DashboardPage.

(** [if (isLoading || !isAuthenticated) return null]. *)
Definition dashboard_renders {St} (b : browser St) : bool :=
  negb (a_isLoading (b_auth b)) && isAuthenticated b.

(** [accounts.reduce((sum, acc) => sum + acc.balanceEstimate, 0)]; a
    value that is not an array has no [reduce], and rendering throws. *)
Definition totalBalance (d : dashboard) : option float :=
  match d_accounts d with
  | AVal accounts => Some (fold_left (fun sum acc => (sum + acc_balanceEstimate acc)%float) accounts 0%float)
  | AObj _ => None
  end.

(** The recent-activity panel; a row is the merchant, the date and the
    signed amount. *)
Inductive activity_view :=
| ActLoading
| ActEmpty
| ActRows (rows : list (string * string * option string)).

(** [{txn.type === 'CREDIT' ? '+' : '-'}${Math.abs(amount).toFixed(2)}]. *)
Definition signed_amount (type : txn_type) (amount : float) : option string :=
  option_map (fun digits => (match type with CREDIT => "+" | DEBIT => "-" end) ++ "$" ++ digits)
    (js_toFixed 2 (PrimFloat.abs amount)).

(** A row: the merchant, [format(new Date(txn.txnDate), 'MMM d, h:mm a')]
    and the signed amount; [None] when the date's [format] throws. *)
Definition txn_row (en : engine) (t : transaction) : option (string * string * option string) :=
  option_map (fun date => (tx_merchant t, date, signed_amount (tx_type t) (tx_amount t)))
    (date_fns_format (en_zone en) MMM_d_h_mm_a (js_new_Date en (tx_txnDate t))).

(** The panel, [None] when a row throws. *)
Definition activity (en : engine) (d : dashboard) : option activity_view :=
  if d_loadingData d then Some ActLoading
  else match d_recentTxns d with
       | [] => Some ActEmpty
       | txns => option_map ActRows (mapM (txn_row en) txns)
       end.

(** The dashboard's elements that depend on the state or lead
    elsewhere: the links of the header ([/ingest]) and of the activity
    panel ([See All]), the logout button, the total balance (written
    by [total_text]), the two trend badges, and the activity panel. *)
Record dash_view := DashView {
  dv_links : list string;
  dv_logout_button : bool;
  dv_total : float;
  dv_trends : list string;
  dv_activity : activity_view;
}.

(** The total as the page writes it in the engine's locale,
    [${totalBalance.toLocaleString(undefined, { minimumFractionDigits: 2 })}]. *)
Definition total_text (en : engine) (v : dash_view) : js_string :=
  (of_string "$" ++ js_toLocaleString (en_locale en) 2 (dv_total v))%list.

(** [HomePage]'s render in the engine [en]: [null] while the provider
    loads or without a session; [accounts.reduce] throws on a value that
    is not an array, and [format] on a row's invalid date. *)
Definition dashboard_view {St} (en : engine) (b : browser St) (d : dashboard) : render dash_view :=
  if negb (dashboard_renders b) then RNull
  else match totalBalance d, activity en d with
       | Some total, Some a => RShows (DashView ["/ingest"; "/transactions"] true total ["+2.5%"; "-1.2%"] a)
       | _, _ => RThrows
       end.

(** ** Properties of the dashboard *)


Definition account_balance (b : float) : account := Account 0 "" b "CHECKING".

(** The scenario of spec §8: accounts with balance estimates 120.50 and
    -30.00 total 90.50; the sum is the left fold of double additions
    starting from 0. *)
Theorem total_balance_scenario :
  totalBalance (Dashboard (AVal [account_balance 120.5; account_balance (-30.0)]) [] false) = Some 90.5%float.
Proof. vm_compute. reflexivity. Qed.

Section DashboardProperties.
Context {St : Type} `{WebStorageLaws St}.
Abbreviation S := (browser St * dashboard)%type.

(** [fetchData] sends [GET /api/accounts] and
    [GET /api/transactions?page=0&size=5&sort=txnDate,desc] together and
    changes nothing before both have settled; then both results are
    stored and [loadingData] cleared, or, if either request failed, only
    [loadingData] is cleared and the previous data stay (spec §4.5). *)
Theorem fetchData_spec (s : S) :
  exists k,
    run fetchData s =
      (s, [pending2 (T1 := list account) (T2 := txn_page)
             (request_of (page_storage s) "/accounts" get_options)
             (request_of (page_storage s) RECENT_ENDPOINT get_options) k]) /\
    forall x1 x2 first1 s',
      run (k x1 x2 first1) s' =
        ((fst s', fetchData_done (promise_all2 (interpret x1) (interpret x2) first1) (snd s')), []).
Proof.
  eexists. split; [reflexivity|]. intros x1 x2 first1 [b d]. simpl.
  unfold fetchData_done. destruct (promise_all2 _ _ _); reflexivity.
Qed.

(** The dashboard is read-only: every request its effects send, in
    every continuation, is a [GET] (spec §4.5). *)
Theorem dashboard_read_only :
  all_requests (fun r => req_method r = "GET") (data_effect (St := St)).
Proof.
  unfold data_effect. constructor. intros s. destruct (isAuthenticated (fst s)); [|constructor].
  unfold fetchData, api_get_all2. task_pred; reflexivity.
Qed.

(** At boot, the dashboard shows nothing and navigates to ["/login"]
    when no non-empty token is stored; with one, it renders and its data
    effect sends the two dashboard requests (spec §4.3, §4.5). *)
Theorem boot_dashboard (b : browser St) (d : dashboard) :
  (has_token (b_storage b) = false ->
     dashboard_renders (reload b) = false /\ b_path (fst (redirect_effect (reload b, d))) = "/login") /\
  (has_token (b_storage b) = true ->
     dashboard_renders (reload b) = true /\ length (snd (run data_effect (reload b, d))) = 1).
Proof.
  unfold dashboard_renders, redirect_effect, data_effect. cbn [fst snd run].
  rewrite reload_isAuthenticated, reload_not_loading.
  split; intros Ht; rewrite Ht; simpl; split; reflexivity.
Qed.
(** C15. [fetchData] is equivalent to the sequential reference
    [fetchData_seq]: both first send [GET /api/accounts] from the same
    state; when it fails, the reference stops, and its page state is the
    one [fetchData] reaches whatever the second answer; when it
    succeeds, the reference sends the recent-transactions request (the
    one [fetchData] sent along, built from the storage of that moment)
    and, given the same second answer, reaches the same page state as
    [fetchData].  [Promise.all] only saves the round trip. *)
Theorem fetchData_equiv_sequential (s : S) :
  exists k k1,
    run fetchData s =
      (s, [pending2 (T1 := list account) (T2 := txn_page)
             (request_of (page_storage s) "/accounts" get_options)
             (request_of (page_storage s) RECENT_ENDPOINT get_options) k]) /\
    run fetchData_seq s =
      (s, [pending1 (T := list account) (request_of (page_storage s) "/accounts" get_options) k1]) /\
    forall x1 x2 first1 s',
      match interpret x1 with
      | Rejected _ => run (k1 x1) s' = run (k x1 x2 first1) s'
      | Resolved _ =>
          exists k2,
            run (k1 x1) s' =
              (s', [pending1 (T := txn_page) (request_of (page_storage s') RECENT_ENDPOINT get_options) k2]) /\
            forall s'', run (k2 x2) s'' = run (k x1 x2 first1) s''
      end.
Proof.
  do 2 eexists. split; [reflexivity|]. split; [reflexivity|].
  intros x1 x2 first1 s'. cbn beta.
  destruct (interpret x1) as [v1|m1]; [|destruct (interpret x2); reflexivity].
  eexists. split; [reflexivity|]. intros s''. cbn beta.
  destruct (interpret x2); reflexivity.
Qed.
(** The header's links, the trend badges, and an empty dashboard. *)
Definition dash_links : list string := ["/ingest"; "/transactions"].
Definition dash_trends : list string := ["+2.5%"; "-1.2%"].

(** C17. What the dashboard shows after it loads.  A tab opened with a
    stored token renders the dashboard at once, with a total of 0 and
    "Loading..." in the activity panel, and sends the two requests.  The
    view then depends only on their answers.  When [/accounts] resolves
    to an array, the view shows the sum of its balance estimates and the
    recent transactions, or "No recent transactions" when there are none.
    When [/accounts] resolves to another value (the [{}] of a 204), the
    view throws.  When either request fails, the view shows a total of 0
    and "No recent transactions": empty, not stale (spec §4.5). *)
Theorem dashboard_view_after_fetch en (b : browser St) x1 x2 first1 :
  has_token (b_storage b) = true ->
  exists k,
    run data_effect (reload b, dashboard_init) =
      ((reload b, dashboard_init),
       [pending2 (T1 := list account) (T2 := txn_page)
          (request_of (b_storage b) "/accounts" get_options)
          (request_of (b_storage b) RECENT_ENDPOINT get_options) k]) /\
    dashboard_view en (reload b) dashboard_init = RShows (DashView dash_links true 0%float dash_trends ActLoading) /\
    dashboard_view en (reload b) (snd (fst (run (k x1 x2 first1) (reload b, dashboard_init)))) =
      match promise_all2 (interpret x1) (interpret x2) first1 with
      | Both (AVal accs) txns =>
          render_of (option_map
            (DashView dash_links true (fold_left (fun sum acc => (sum + acc_balanceEstimate acc)%float) accs 0%float)
               dash_trends)
            (match recent_of txns with [] => Some ActEmpty | l => option_map ActRows (mapM (txn_row en) l) end))
      | Both (AObj _) _ => RThrows
      | FirstRejection _ => RShows (DashView dash_links true 0%float dash_trends ActEmpty)
      end.
Proof.
  intros Ht. assert (Ha : isAuthenticated (reload b) = true) by (rewrite reload_isAuthenticated; exact Ht).
  unfold data_effect, dashboard_view, dashboard_renders. cbn [run fst].
  rewrite Ha, reload_not_loading. cbn [negb andb].
  eexists. split; [reflexivity|]. split; [reflexivity|]. simpl.
  destruct (promise_all2 _ _ _) as [[accs|m] txns|m]; simpl; [|done|done].
  unfold activity. cbn [d_loadingData d_recentTxns]. destruct (recent_of txns) as [|t l]; [done|].
  unfold render_of. cbn [mapM]. destruct (txn_row en t); cbn; [|done]. by destruct (mapM (txn_row en) l).
Qed.
(** C30. One recent transaction whose date is not a date takes the whole
    dashboard down, the total balance with it: the recent-activity panel
    formats [new Date(txn.txnDate)] with ['MMM d, h:mm a'], which throws
    a [RangeError] on an invalid date, and the page has no check and no
    error boundary. *)
Theorem dashboard_view_bad_date en (b : browser St) d x :
  dashboard_renders b = true -> d_loadingData d = false -> x ∈ d_recentTxns d ->
  js_new_Date en (tx_txnDate x) = None ->
  dashboard_view en b d = RThrows.
Proof.
  intros Hr Hl Hx Hd.
  assert (Ha : activity en d = None).
  { unfold activity. rewrite Hl. destruct (d_recentTxns d) as [|t l]; [set_solver|].
    rewrite (mapM_elem_None (txn_row en) x (t :: l) Hx); [done|]. unfold txn_row. by rewrite Hd. }
  unfold dashboard_view. rewrite Hr, Ha. cbn. by destruct (totalBalance d).
Qed.
End DashboardProperties.

(** ** Witnesses *)

Definition home_state : browser (gmap string string) * dashboard := (returning_visit, dashboard_init).

Lemma fetchData_equiv_sequential_witness :
  exists k k1,
    run fetchData home_state =
      (home_state, [pending2 (T1 := list account) (T2 := txn_page)
             (request_of (page_storage home_state) "/accounts" get_options)
             (request_of (page_storage home_state) RECENT_ENDPOINT get_options) k]) /\
    run fetchData_seq home_state =
      (home_state, [pending1 (T := list account) (request_of (page_storage home_state) "/accounts" get_options) k1]) /\
    forall x1 x2 first1 s',
      match interpret x1 with
      | Rejected _ => run (k1 x1) s' = run (k x1 x2 first1) s'
      | Resolved _ =>
          exists k2,
            run (k1 x1) s' =
              (s', [pending1 (T := txn_page) (request_of (page_storage s') RECENT_ENDPOINT get_options) k2]) /\
            forall s'', run (k2 x2) s'' = run (k x1 x2 first1) s''
      end.
Proof. exact (fetchData_equiv_sequential home_state). Defined.

Lemma dashboard_view_after_fetch_witness :
  has_token (b_storage returning_visit) = true /\
  exists k,
    run data_effect (reload returning_visit, dashboard_init) =
      ((reload returning_visit, dashboard_init),
       [pending2 (T1 := list account) (T2 := txn_page)
          (request_of (b_storage returning_visit) "/accounts" get_options)
          (request_of (b_storage returning_visit) RECENT_ENDPOINT get_options) k]) /\
    dashboard_view utc_en_US (reload returning_visit) dashboard_init = RShows (DashView dash_links true 0%float dash_trends ActLoading) /\
    dashboard_view utc_en_US (reload returning_visit)
      (snd (fst (run (k (FNetErr "Failed to fetch") (FNetErr "Failed to fetch") true) (reload returning_visit, dashboard_init)))) =
      RShows (DashView dash_links true 0%float dash_trends ActEmpty).
Proof.
  assert (Ht : has_token (b_storage returning_visit) = true) by reflexivity.
  split; [exact Ht|].
  exact (dashboard_view_after_fetch utc_en_US returning_visit (FNetErr "Failed to fetch") (FNetErr "Failed to fetch") true Ht).
Defined.

(** A recent refund dated ["2025-13-01"], a month out of range: the
    dashboard of a signed-in user throws. *)
Definition refund_bad : transaction := Transaction 4 "Refund" 12%float CREDIT "2025-13-01" JSUndef.

Lemma dashboard_view_bad_date_witness :
  dashboard_renders (reload returning_visit) = true /\
  refund_bad ∈ d_recentTxns (Dashboard (AVal []) [refund_bad] false) /\
  js_new_Date utc_en_US (tx_txnDate refund_bad) = None /\
  dashboard_view utc_en_US (reload returning_visit) (Dashboard (AVal []) [refund_bad] false) = RThrows.
Proof.
  assert (Hr : dashboard_renders (reload returning_visit) = true) by (vm_compute; reflexivity).
  assert (Hx : refund_bad ∈ d_recentTxns (Dashboard (AVal []) [refund_bad] false)) by (cbn; left).
  assert (Hd : js_new_Date utc_en_US (tx_txnDate refund_bad) = None) by (vm_compute; reflexivity).
  split; [exact Hr|]. split; [exact Hx|]. split; [exact Hd|].
  exact (dashboard_view_bad_date utc_en_US (reload returning_visit) (Dashboard (AVal []) [refund_bad] false)
           refund_bad Hr eq_refl Hx Hd).
Defined.
