(* ===== verification/Lists.v ===== *)
(** * The list pages ([src/frontend/src/app/accounts/page.tsx],
      [src/frontend/src/app/categories/page.tsx],
      [src/frontend/src/app/transactions/page.tsx])

    The accounts and categories pages share one shape: on mount they fetch
    their collection; the delete button asks [confirm(...)] and, when the
    user agrees, sends [DELETE /{collection}/{id}] and drops the item from
    the list on success.  The generic [ListPage] section models that shape
    once; each page instantiates it.  The transactions page loads pages
    of 20 transactions: page 0 replaces the list, later pages are
    appended, and [hasMore] is [!data.last].  The renders of the three
    pages ([accounts_view], [categories_view], [transactions_view]) are
    the rows and messages their JSX shows, the balances written with
    [toLocaleString] and the transactions' dates with ['MMM d'] in the
    engine's time zone, a date [new Date] does not read making the
    whole list throw.  The transactions page is
    also followed in a browser tab: one page request at a time, and a
    failed page that Load More skips.  So are the accounts and categories
    pages, whose list request never races a delete. *)

From S2P Require Import Prelude Js JsString JsFormat JsDate Storage Async System Api Auth Dashboard.
From Stdlib Require Import PrimFloat.

Local Open Scope string_scope.

(** ** Accounts and categories *)

(** [interface Account] of the accounts page. *)
Record acct_item := AcctItem {
  ai_id : Z;
  ai_name : string;
  ai_type : string;
  ai_balanceEstimate : float;
  ai_last4 : jsstr;
}.

(** [interface Category]. *)
Record cat_item := CatItem {
  ci_id : Z;
  ci_name : string;
  ci_parent : jsstr;
}.

#[export] Instance acct_item_has_id : HasId acct_item := ai_id.
#[export] Instance cat_item_has_id : HasId cat_item := ci_id.

(** A list page: the collection as fetched, and [loading]. *)
Record list_page (A : Type) := ListPage {
  lp_items : api_value (list A);
  lp_loading : bool;
}.
Arguments ListPage {A} lp_items lp_loading.
Arguments lp_items {A} l.
Arguments lp_loading {A} l.

Definition list_page_init {A} : list_page A := ListPage (AVal []) true.

(** [prev => prev.filter(x => x.id !== id)]; on a value that is not an
    array the updater throws and the value is left as it is. *)
Definition drop_item {A} `{HasId A} (id : Z) (p : list_page A) : list_page A :=
  match lp_items p with
  | AVal l => ListPage (AVal (remove_id id l)) (lp_loading p)
  | AObj _ => p
  end.

Section ListPageOps.
Context {St : Type} `{WebStorageLaws St}.
Context {A : Type} `{HasId A}.
Variable collection : string.
Abbreviation S := (browser St * list_page A)%type.

(** [fetchAccounts] / [fetchCategories]. *)
Definition fetch_items : task S :=
  api_get page_storage collection (fun o : api_outcome (list A) =>
    match o with
    | Resolved data =>
        Upd (on_page (fun p => ListPage data (lp_loading p)))
          (Upd (on_page (fun p => ListPage (lp_items p) false)) Done)
    | Rejected _ => Upd (on_page (fun p => ListPage (lp_items p) false)) Done
    end).

(** [handleDelete(id)]; [confirmed] is the user's answer to [confirm]. *)
Definition handleDelete_item (confirmed : bool) (id : Z) : task S :=
  if negb confirmed then Done
  else
    api_delete page_storage (collection ++ "/" ++ js_int_to_string id) (fun o : api_outcome unit =>
      match o with
      | Resolved _ => Upd (on_page (drop_item id)) Done
      | Rejected _ => Done
      end).
End ListPageOps.

Definition fetchAccounts {St} `{WebStorageLaws St} : task (browser St * list_page acct_item) :=
  fetch_items "/accounts".
Definition handleDeleteAccount {St} `{WebStorageLaws St} (confirmed : bool) (id : Z)
    : task (browser St * list_page acct_item) :=
  handleDelete_item "/accounts" confirmed id.
Definition fetchCategories {St} `{WebStorageLaws St} : task (browser St * list_page cat_item) :=
  fetch_items "/categories".
Definition handleDeleteCategory {St} `{WebStorageLaws St} (confirmed : bool) (id : Z)
    : task (browser St * list_page cat_item) :=
  handleDelete_item "/categories" confirmed id.

(** The account page's [getIcon]. *)
Inductive account_icon := IconWallet | IconBuilding | IconCreditCard.

Definition getIcon (type : string) : account_icon :=
  if String.eqb type "CASH" then IconWallet
  else if String.eqb type "BANK" then IconBuilding
  else IconCreditCard.

(** [account.last4 ? `**** ${account.last4}` : 'No card linked']. *)
Definition last4_label (a : acct_item) : string :=
  if truthy (ai_last4 a) then "**** " ++ to_js_string (ai_last4 a) else "No card linked".

(** The empty-state message, shown when loading is over and the list is
    empty. *)
Definition empty_message_shown {A} (p : list_page A) : bool :=
  negb (lp_loading p) &&
  match lp_items p with
  | AVal [] => true
  | _ => false
  end.

(** What a list page renders: its rows, in the order of the collection,
    and whether the empty-state message is shown; [items.map] throws on a
    value that is not an array. *)
Definition list_view {A R} (row : A -> R) (p : list_page A) : render (list R * bool) :=
  match lp_items p with
  | AVal l => RShows (map row l, empty_message_shown p)
  | AObj _ => RThrows
  end.

(** An account's card: its icon, name and type, the id its delete button
    deletes, the card label, and the balance estimate (written by
    [balance_text]). *)
Record acct_row := AcctRow {
  ar_icon : account_icon;
  ar_name : string;
  ar_type : string;
  ar_delete : Z;
  ar_last4 : string;
  ar_balance : float;
}.

Definition acct_row_of (a : acct_item) : acct_row :=
  AcctRow (getIcon (ai_type a)) (ai_name a) (ai_type a) (ai_id a) (last4_label a) (ai_balanceEstimate a).

(** A card's balance as the page writes it in the engine's locale,
    [${account.balanceEstimate.toLocaleString(undefined, { minimumFractionDigits: 2 })}]. *)
Definition balance_text (en : engine) (r : acct_row) : js_string :=
  (of_string "$" ++ js_toLocaleString (en_locale en) 2 (ar_balance r))%list.

(** [AccountsPage]'s render. *)
Definition accounts_view (p : list_page acct_item) : render (list acct_row * bool) :=
  list_view acct_row_of p.

(** A category's card: its name, the line [Parent: ...] when [parent] is
    truthy, and the id its delete button deletes. *)
Record cat_row := CatRow { cr_name : string; cr_parent : option string; cr_delete : Z }.

Definition cat_row_of (c : cat_item) : cat_row :=
  CatRow (ci_name c) (if truthy (ci_parent c) then Some (to_js_string (ci_parent c)) else None) (ci_id c).

(** [CategoriesPage]'s render. *)
Definition categories_view (p : list_page cat_item) : render (list cat_row * bool) :=
  list_view cat_row_of p.

(** ** Transactions *)

(** [interface Transaction] of the transactions page. *)
Record txn_item := TxnItem {
  ti_id : Z;
  ti_merchant : string;
  ti_amount : float;
  ti_type : txn_type;
  ti_txnDate : string;
  ti_categoryName : jsstr;
  ti_accountName : jsstr;
}.

(** The response [{ content: Transaction[], last: boolean }]. *)
Record txn_slice := TxnSlice { ts_content : list txn_item; ts_last : bool }.

(** The page's state; [None] stands for a [transactions] value that is
    not an array, on which rendering throws. *)
Record txns_page := TxnsPage {
  tp_transactions : option (list txn_item);
  tp_loading : bool;
  tp_page : Z;
  tp_hasMore : bool;
}.

Definition txns_init : txns_page := TxnsPage (Some []) true 0 true.

Definition txn_endpoint (page : Z) : string :=
  "/transactions?page=" ++ js_int_to_string page ++ "&size=20&sort=txnDate,desc".

(** The [try] block after the await, for the page number [page] the call
    was made with: replace or append, then [setHasMore(!data.last)]. *)
Definition txns_merge (page : Z) (v : api_value txn_slice) (t : txns_page) : txns_page :=
  let transactions :=
    if Z.eqb page 0 then
      match v with
      | AVal d => Some (ts_content d)
      | AObj _ => None
      end
    else
      match tp_transactions t, v with
      | Some prev, AVal d => Some (prev ++ ts_content d)%list
      | _, _ => None
      end in
  let hasMore := match v with AVal d => negb (ts_last d) | AObj _ => true end in
  TxnsPage transactions (tp_loading t) (tp_page t) hasMore.

Definition set_txns_loading (l : bool) (t : txns_page) : txns_page :=
  TxnsPage (tp_transactions t) l (tp_page t) (tp_hasMore t).

Section TransactionsPage.
Context {St : Type} `{WebStorageLaws St}.
Abbreviation S := (browser St * txns_page)%type.

(** [fetchTransactions] after its await, for the page it was called with. *)
Definition fetchTransactions_then (page : Z) (o : api_outcome txn_slice) : task S :=
  match o with
  | Resolved v => Upd (on_page (txns_merge page v)) (Upd (on_page (set_txns_loading false)) Done)
  | Rejected _ => Upd (on_page (set_txns_loading false)) Done
  end.

(** [fetchTransactions], run by the effect on [page]. *)
Definition fetchTransactions : task S :=
  Read (fun s =>
    let page := tp_page (snd s) in
    Upd (on_page (set_txns_loading true))
      (api_get page_storage (txn_endpoint page) (fetchTransactions_then page))).

(** The Load More button: [setPage(p => p + 1)], after which the effect
    on [page] fetches the new page. *)
Definition loadMore : task S :=
  Upd (on_page (fun t => TxnsPage (tp_transactions t) (tp_loading t) (tp_page t + 1) (tp_hasMore t)))
    fetchTransactions.
End TransactionsPage.

(** [{!loading && hasMore && <button>Load More</button>}]. *)
Definition loadMore_shown (t : txns_page) : bool := negb (tp_loading t) && tp_hasMore t.

(** [{!loading && !hasMore && transactions.length > 0 && ...}]. *)
Definition end_message_shown (t : txns_page) : bool :=
  negb (tp_loading t) && negb (tp_hasMore t) &&
  match tp_transactions t with
  | Some (_ :: _) => true
  | _ => false
  end.

(** [txn.categoryName || 'Uncategorized']. *)
Definition txn_category_label (t : txn_item) : string := js_or (ti_categoryName t) "Uncategorized".

(** A transaction's card: merchant, date
    ([format(new Date(txn.txnDate), 'MMM d')]), category label, signed
    amount ([Math.abs(txn.amount).toFixed(2)] after its sign and ["$"])
    and account name. *)
Record txn_row_view := TxnRowView {
  trv_merchant : string;
  trv_date : string;
  trv_category : string;
  trv_amount : option string;
  trv_account : jsstr;
}.

(** The card in the engine [en], [None] when the date's [format]
    throws. *)
Definition txn_row_of (en : engine) (t : txn_item) : option txn_row_view :=
  option_map
    (fun date => TxnRowView (ti_merchant t) date (txn_category_label t) (signed_amount (ti_type t) (ti_amount t))
                   (ti_accountName t))
    (date_fns_format (en_zone en) MMM_d (js_new_Date en (ti_txnDate t))).

(** The elements of the list below the rows. *)
Record txns_footer := TxnsFooter { tf_spinner : bool; tf_loadMore : bool; tf_end : bool }.

(** [TransactionsPage]'s render in the engine [en]; [transactions.map]
    throws on a value that is not an array, and so does a card whose
    date's [format] throws. *)
Definition transactions_view (en : engine) (t : txns_page) : render (list txn_row_view * txns_footer) :=
  match tp_transactions t with
  | Some l =>
      match mapM (txn_row_of en) l with
      | Some rows => RShows (rows, TxnsFooter (tp_loading t) (loadMore_shown t) (end_message_shown t))
      | None => RThrows
      end
  | None => RThrows
  end.

(** ** Properties of the list pages *)


(** The effect of a completed delete on the page. *)
Definition delete_done {A} `{HasId A} (id : Z) (o : api_outcome unit) (p : list_page A) : list_page A :=
  match o with
  | Resolved _ => drop_item id p
  | Rejected _ => p
  end.

(** The effect of a completed [fetchTransactions] for [page]. *)
Definition txns_done (page : Z) (o : api_outcome txn_slice) (t : txns_page) : txns_page :=
  match o with
  | Resolved v => set_txns_loading false (txns_merge page v t)
  | Rejected _ => set_txns_loading false t
  end.

(** Pages [n], [n+1], ... answered in order, as the Load More button
    allows: it is hidden while a page is loading. *)
Fixpoint load_from (n : Z) (cs : list txn_slice) (t : txns_page) : txns_page :=
  match cs with
  | [] => t
  | c :: cs => load_from (n + 1) cs (txns_done n (Resolved (AVal c)) t)
  end.

Section ListProperties.
Context {St : Type} `{WebStorageLaws St}.

Lemma drop_item_ids {A} `{HasId A} id (p : list_page A) l :
  lp_items p = AVal l ->
  exists l', lp_items (drop_item id p) = AVal l' /\ l' = remove_id id l.
Proof. unfold drop_item. intros ->. eauto. Qed.

(** Deleting an account or a category: when the user cancels the
    [confirm] dialog nothing is sent and nothing changes; otherwise
    [DELETE /api/{collection}/{id}] is sent, a success drops exactly the
    item [id] from the list as it is then, and a failure leaves the list. *)
Theorem handleDelete_item_spec {A} `{HasId A} collection confirmed id (s : browser St * list_page A) :
  if negb confirmed then run (handleDelete_item collection confirmed id) s = (s, [])
  else exists k,
    run (handleDelete_item collection confirmed id) s =
      (s, [pending1 (T := unit)
             (request_of (page_storage s) (collection ++ "/" ++ js_int_to_string id) delete_options) k]) /\
    forall fr s', run (k fr) s' = ((fst s', delete_done id (interpret fr) (snd s')), []).
Proof.
  unfold handleDelete_item. destruct confirmed; simpl; [|done].
  eexists. split; [reflexivity|]. intros fr [b p]. simpl. unfold delete_done.
  repeat case_match; simplify_eq; reflexivity.
Qed.

Lemma fetchTransactions_then_run page o (s : browser St * txns_page) :
  run (fetchTransactions_then page o) s = ((fst s, txns_done page o (snd s)), []).
Proof. destruct s as [b t]. unfold txns_done. destruct o; reflexivity. Qed.

(** [fetchTransactions] sets [loading] and requests the page it was
    called with, [GET /api/transactions?page={page}&size=20&sort=txnDate,desc];
    when the answer arrives, page 0 replaces the list, a later page is
    appended to it, [hasMore] becomes [!last], and [loading] is cleared;
    a failure only clears [loading]. *)
Theorem fetchTransactions_spec (s : browser St * txns_page) :
  exists k,
    run fetchTransactions s =
      (on_page (set_txns_loading true) s,
       [pending1 (T := txn_slice)
          (request_of (page_storage s) (txn_endpoint (tp_page (snd s))) get_options) k]) /\
    forall fr s', run (k fr) s' = ((fst s', txns_done (tp_page (snd s)) (interpret fr) (snd s')), []).
Proof.
  eexists. split; [reflexivity|]. intros fr s'. apply fetchTransactions_then_run.
Qed.
End ListProperties.

Lemma load_from_append n prev cs t :
  (0 < n)%Z -> tp_transactions t = Some prev ->
  tp_transactions (load_from n cs t) = Some (prev ++ concat (map ts_content cs))%list.
Proof.
  revert n prev t. induction cs as [|c cs IH]; intros n prev t Hn Ht; simpl.
  - by rewrite app_nil_r.
  - rewrite (IH (n + 1)%Z (prev ++ ts_content c)%list); [by rewrite app_assoc|lia|].
    simpl. destruct (Z.eqb_spec n 0); [lia|]. by rewrite Ht.
Qed.

Lemma last_cons_default {A} (x d : A) l : List.last (x :: l) d = List.last l x.
Proof.
  revert x d. induction l as [|y l IH]; intros x d; [done|].
  change (List.last (x :: y :: l) d) with (List.last (y :: l) d). rewrite !IH. done.
Qed.

Lemma load_from_hasMore n c cs t :
  tp_hasMore (load_from n (c :: cs) t) = negb (ts_last (List.last cs c)).
Proof.
  revert n c t. induction cs as [|c' cs IH]; intros n c t; [reflexivity|].
  change (load_from n (c :: c' :: cs) t) with (load_from (n + 1) (c' :: cs) (txns_done n (Resolved (AVal c)) t)).
  rewrite IH, last_cons_default. reflexivity.
Qed.

Lemma load_from_loading n c cs t : tp_loading (load_from n (c :: cs) t) = false.
Proof.
  revert n c t. induction cs as [|c' cs IH]; intros n c t; [reflexivity|].
  change (load_from n (c :: c' :: cs) t) with (load_from (n + 1) (c' :: cs) (txns_done n (Resolved (AVal c)) t)).
  apply IH.
Qed.

(** C26. Loading page 0 and then pages 1, 2, ... one after the other,
    each answered with a slice, shows a row for every transaction of the
    slices, in order, with no repetition or loss; the spinner is gone,
    Load More is shown exactly when the last slice is not marked
    [last], and "No more transactions" exactly when it is and some
    transaction is shown. *)
Theorem transactions_pagination en c cs t :
  let all := concat (map ts_content (c :: cs)) in
  transactions_view en (load_from 0 (c :: cs) t) =
    render_of (option_map
      (fun rows => (rows, TxnsFooter false (negb (ts_last (List.last cs c)))
                            (ts_last (List.last cs c) && (0 <? length all)%nat)))
      (mapM (txn_row_of en) all)).
Proof.
  intros all.
  assert (Ht : tp_transactions (load_from 0 (c :: cs) t) = Some all)
    by (simpl; apply load_from_append; [lia|done]).
  unfold transactions_view, loadMore_shown, end_message_shown.
  rewrite Ht, load_from_hasMore, load_from_loading, negb_involutive.
  destruct (mapM (txn_row_of en) all); [|done]. by destruct all, (ts_last (List.last cs c)).
Qed.

(** ** The transactions page in a browser tab

    The page under [System]'s interleaving.  Its mount runs the effect
    on [page] once ([txns_boot]); the only event is Load More, which
    the view renders when [loadMore_shown] holds; responses arrive in
    any order with any content.  A reload resets the page; the mount
    that follows it is the boot of a new tab. *)
Section TransactionsSystem.
Context {St : Type} `{WebStorageLaws St}.
Abbreviation S := (browser St * txns_page)%type.

Definition txns_enabled_task (s : S) (t : task S) : Prop :=
  loadMore_shown (snd s) = true /\ t = loadMore.

Definition txns_reset (s : S) : S := (reload (fst s), txns_init).

(** The mount: [useEffect(() => fetchTransactions(), [page])] on the
    first render. *)
Definition txns_boot (s0 : S) : sys := start fetchTransactions (Sys s0 [] []).

(** A waiting fetch ends the loading and sends nothing more. *)
Definition ends_loading (p : pending S) : Prop :=
  forall x s, snd (run (p_k p x) s) = [] /\ tp_loading (snd (fst (run (p_k p x) s))) = false.

(** At most one page request in flight, and none once [loading] is
    clear. *)
Definition txns_flight (σ : sys) : Prop :=
  sys_pending σ = [] \/
  (tp_loading (snd (sys_state σ)) = true /\ exists p, sys_pending σ = [p] /\ ends_loading p).

Lemma fetchTransactions_flight (s : S) :
  tp_loading (snd (fst (run fetchTransactions s))) = true /\
  exists p, snd (run fetchTransactions s) = [p] /\ ends_loading p.
Proof.
  split; [reflexivity|]. eexists. split; [reflexivity|].
  intros x s'. simpl. rewrite fetchTransactions_then_run. split; [done|].
  unfold txns_done. by case_match.
Qed.

Lemma start_fetchTransactions_flight t σ s1 :
  sys_pending σ = [] -> run t (sys_state σ) = run fetchTransactions s1 ->
  txns_flight (start t σ).
Proof.
  intros Hp Hrun. destruct (fetchTransactions_flight s1) as [Hl [p [Hps Hp']]].
  unfold start. rewrite Hrun. destruct (run fetchTransactions s1) as [s' ps] eqn:E.
  simpl in *. subst ps. rewrite Hp. right. split; [exact Hl|]. by exists p.
Qed.

Lemma txns_flight_step σ σ' :
  sys_step txns_enabled_task txns_reset σ σ' -> txns_flight σ -> txns_flight σ'.
Proof.
  intros Hst Hσ. destruct Hst as [σ t [He ->]|s ps1 p ps2 sent x|σ].
  - eapply start_fetchTransactions_flight; [|reflexivity].
    destruct Hσ as [Hp|[Hl _]]; [exact Hp|]. unfold loadMore_shown in He. by rewrite Hl in He.
  - destruct Hσ as [Hp|[Hl [p0 [Hp Hp0]]]]; [by destruct ps1|]. simpl in Hp.
    apply app_eq_unit in Hp as [[-> [= -> ->]]|[_ Hp]]; [|done].
    destruct (Hp0 x s) as [Hr _]. left. unfold start. simpl.
    destruct (run (p_k p0 x) s) as [s' ps'] eqn:E. simpl in *. by subst ps'.
  - by left.
Qed.

Lemma reachable_txns_flight s0 σ :
  reachable txns_enabled_task txns_reset (txns_boot s0) σ -> txns_flight σ.
Proof.
  intros Hr. assert (Hb : txns_flight (txns_boot s0)) by (by eapply start_fetchTransactions_flight).
  revert Hb. unfold reachable in Hr. induction Hr; eauto using txns_flight_step.
Qed.
(** C20. The transactions page requests one page at a time.  In every
    state a tab on the page can reach, whatever the answers and however
    often Load More is clicked, at most one page request is waiting, and
    none once [loading] is clear.  The button is hidden while a page
    loads, so pages are requested and answered one after the other, as
    [transactions_pagination] assumes. *)
Theorem transactions_single_flight s0 σ :
  reachable txns_enabled_task txns_reset (txns_boot s0) σ ->
  length (sys_pending σ) <= 1 /\ (tp_loading (snd (sys_state σ)) = false -> sys_pending σ = []).
Proof.
  intros Hr. destruct (reachable_txns_flight s0 σ Hr) as [Hp|[Hl [p [Hp _]]]]; rewrite Hp.
  - split; [simpl; lia|done].
  - split; [simpl; lia|]. by rewrite Hl.
Qed.

Definition txn_a : txn_item := TxnItem 1 "Coffee" 4.5%float DEBIT "2025-03-01" (JSStr "Food") (JSStr "Checking").
Definition txn_c : txn_item := TxnItem 3 "Salary" 2000%float CREDIT "2025-02-01" JSUndef (JSStr "Checking").

(** C19. Load More skips a page whose request failed.  The failure
    leaves [page] advanced and [hasMore] set, so the button is offered
    again and asks for the next page.  A tab loads page 0 with one
    transaction, page 1 fails, and page 2 brings another.  The list then
    shows the transactions of pages 0 and 2 only, page 1 was requested
    once, and Load More goes on to page 3.  The transactions of page 1
    are never shown without a reload. *)
Theorem loadMore_skips_failed_page (b : browser St) :
  exists σ,
    reachable txns_enabled_task txns_reset (txns_boot (b, txns_init)) σ /\
    map req_url (sys_sent σ) =
      [BASE_URL ++ txn_endpoint 0; BASE_URL ++ txn_endpoint 1; BASE_URL ++ txn_endpoint 2] /\
    sys_pending σ = [] /\
    tp_page (snd (sys_state σ)) = 2%Z /\
    transactions_view utc_en_US (snd (sys_state σ)) =
      render_of (option_map (fun rows => (rows, TxnsFooter false true false)) (mapM (txn_row_of utc_en_US) [txn_a; txn_c])).
Proof.
  eexists. split.
  - unfold reachable, txns_boot, start. cbn.
    match goal with |- rtc _ (Sys _ [?p] _) _ =>
      eapply rtc_l; [apply (st_resume_at _ _ _ [] p [] (ok_response (TxnSlice [txn_a] false))); reflexivity|] end.
    cbn. eapply rtc_l; [apply st_event; split; reflexivity|]. cbn.
    match goal with |- rtc _ (Sys _ [?p] _) _ =>
      eapply rtc_l; [apply (st_resume_at _ _ _ [] p [] (FNetErr (T := txn_slice) "Failed to fetch")); reflexivity|] end.
    cbn. eapply rtc_l; [apply st_event; split; reflexivity|]. cbn.
    match goal with |- rtc _ (Sys _ [?p] _) _ =>
      eapply rtc_l; [apply (st_resume_at _ _ _ [] p [] (ok_response (TxnSlice [txn_c] false))); reflexivity|] end.
    apply rtc_refl.
  - split; [reflexivity|split; [reflexivity|split; reflexivity]].
Qed.
End TransactionsSystem.

(** ** The accounts and categories pages in a browser tab

    A list page under [System]'s interleaving.  Its mount fetches the
    collection once ([list_boot]); the events are the delete buttons of
    the rows the view shows, with the user's answer to [confirm];
    responses arrive in any order with any content; a reload resets the
    page. *)
Section ListSystem.
Context {St : Type} `{WebStorageLaws St}.
Context {A : Type} `{HasId A}.
Variable collection : string.
Abbreviation S := (browser St * list_page A)%type.

(** The ids of the rows [items.map] renders. *)
Definition shown_ids (p : list_page A) : list Z :=
  match lp_items p with
  | AVal l => ids_of l
  | AObj _ => []
  end.

Definition list_enabled_task (s : S) (t : task S) : Prop :=
  exists confirmed id, id ∈ shown_ids (snd s) /\ t = handleDelete_item collection confirmed id.

Definition list_reset (s : S) : S := (reload (fst s), list_page_init).

(** The mount: [useEffect(() => fetchAccounts(), [])] on the first
    render of a page in its initial state. *)
Definition list_boot (b : browser St) : sys := start (fetch_items (A := A) collection) (Sys (b, list_page_init) [] []).

(** A waiting continuation for one request of method [m], that sends
    nothing more when it resumes. *)
Definition last_request (m : string) (p : pending S) : Prop :=
  (exists r, p_reqs p = [r] /\ req_method r = m) /\ forall x s, snd (run (p_k p x) s) = [].

(** Either the list request waits alone while the page shows an empty
    list, or only delete requests wait. *)
Definition list_flight (σ : sys) : Prop :=
  (exists p, sys_pending σ = [p] /\ last_request "GET" p /\ lp_items (snd (sys_state σ)) = AVal []) \/
  Forall (last_request "DELETE") (sys_pending σ).

Lemma start_delete_flight confirmed id σ :
  Forall (last_request "DELETE") (sys_pending σ) ->
  Forall (last_request "DELETE") (sys_pending (start (handleDelete_item collection confirmed id) σ)).
Proof.
  intros Hσ. rewrite start_pending. apply Forall_app. split; [exact Hσ|].
  unfold handleDelete_item. destruct confirmed; simpl; [|constructor].
  constructor; [|constructor]. split; [by eexists|].
  intros x s. simpl. by repeat case_match.
Qed.

Lemma resume_last_request m s ps1 p ps2 sent (x : p_ans p) :
  last_request m p ->
  sys_pending (start (p_k p x) (Sys s (ps1 ++ ps2)%list sent)) = (ps1 ++ ps2)%list.
Proof. intros [_ Hp]. rewrite start_pending. simpl. by rewrite (Hp x s), app_nil_r. Qed.

Lemma list_flight_step σ σ' :
  sys_step list_enabled_task list_reset σ σ' -> list_flight σ -> list_flight σ'.
Proof.
  intros Hst Hσ. destruct Hst as [σ t (c & id & Hid & ->)|s ps1 p ps2 sent x|σ].
  - destruct Hσ as [(p & _ & _ & Hl)|Hσ].
    + unfold shown_ids in Hid. rewrite Hl in Hid. by apply elem_of_nil in Hid.
    + right. by apply start_delete_flight.
  - right. destruct Hσ as [(p0 & Hp & Hp0 & _)|Hσ].
    + simpl in Hp. apply app_eq_unit in Hp as [[-> [= -> ->]]|[_ Hp]]; [|done].
      by rewrite (resume_last_request "GET" s [] p0 [] sent x Hp0).
    + simpl in Hσ. apply Forall_middle in Hσ as [Hp Hσ].
      by rewrite (resume_last_request "DELETE" s ps1 p ps2 sent x Hp).
  - right. constructor.
Qed.

Lemma reachable_list_flight b σ :
  reachable list_enabled_task list_reset (list_boot b) σ -> list_flight σ.
Proof.
  intros Hr. assert (Hb : list_flight (list_boot b)).
  { left. eexists. split; [reflexivity|]. split; [|reflexivity].
    split; [by eexists|]. intros x s. simpl. by repeat case_match. }
  revert Hb. unfold reachable in Hr. induction Hr; eauto using list_flight_step.
Qed.

(** C21. A delete never races the list request on the accounts and
    categories pages.  In every reachable state of a tab on either page,
    whatever the user confirms and the server answers, a waiting [GET]
    waits alone, and the page meanwhile shows an empty list, so no delete
    button is offered.  No delete is sent or completed before the list
    arrives, and no list answer can bring back a deleted row.  The
    proposal queue, whose refresh can overtake an accept (C27), has no
    such guarantee. *)
Theorem list_fetch_alone b σ p :
  reachable list_enabled_task list_reset (list_boot b) σ ->
  p ∈ sys_pending σ -> Forall (fun r => req_method r = "GET") (p_reqs p) ->
  sys_pending σ = [p] /\ lp_items (snd (sys_state σ)) = AVal [] /\ shown_ids (snd (sys_state σ)) = [].
Proof.
  intros Hr Hin Hget. destruct (reachable_list_flight b σ Hr) as [(p0 & Hp & _ & Hl)|Hσ].
  - rewrite Hp in Hin |- *. apply list_elem_of_singleton in Hin as ->.
    unfold shown_ids. by rewrite Hl.
  - apply Forall_forall with (x := p) in Hσ as [(r & Hr' & Hm) _]; [|exact Hin].
    rewrite Hr' in Hget. apply Forall_cons in Hget as [Hg _]. congruence.
Qed.
End ListSystem.

(** C31. One transaction whose date is not a date takes the whole
    transactions page down.  [format] of date-fns throws a [RangeError]
    on an invalid date, and the page formats every card's
    [new Date(txn.txnDate)] without a check or an error boundary: when a
    listed transaction's date does not parse (a field out of range, or a
    string outside the format the engine rejects), the render throws,
    whatever the other transactions. *)
Theorem transactions_view_bad_date en t l x :
  tp_transactions t = Some l -> x ∈ l -> js_new_Date en (ti_txnDate x) = None ->
  transactions_view en t = RThrows.
Proof.
  intros Hl Hx Hd. unfold transactions_view. rewrite Hl.
  rewrite (mapM_elem_None (txn_row_of en) x l Hx); [done|].
  unfold txn_row_of. by rewrite Hd.
Qed.

(** ** Witnesses *)

Definition checking : acct_item := AcctItem 3 "Chase Sapphire" "CREDIT" 120.5%float (JSStr "1234").

Definition accounts_state : browser (gmap string string) * list_page acct_item :=
  (returning_visit, ListPage (AVal [checking]) false).

Definition txns_state : browser (gmap string string) * txns_page := (returning_visit, txns_init).

Lemma handleDelete_item_spec_witness :
  exists k,
    run (handleDelete_item "/accounts" true 3) accounts_state =
      (accounts_state, [pending1 (T := unit)
             (request_of (page_storage accounts_state) ("/accounts" ++ "/" ++ js_int_to_string 3) delete_options) k]) /\
    forall fr s', run (k fr) s' = ((fst s', delete_done 3 (interpret fr) (snd s')), []).
Proof. exact (handleDelete_item_spec "/accounts" true 3 accounts_state). Defined.

Lemma transactions_single_flight_witness :
  length (sys_pending (txns_boot txns_state)) <= 1 /\
  (tp_loading (snd (sys_state (txns_boot txns_state))) = false -> sys_pending (txns_boot txns_state) = []).
Proof. apply (transactions_single_flight txns_state). apply rtc_refl. Defined.

Lemma list_fetch_alone_witness :
  exists p,
    sys_pending (list_boot (St := gmap string string) (A := acct_item) "/accounts" returning_visit) = [p] /\
    lp_items (snd (sys_state (list_boot (St := gmap string string) (A := acct_item) "/accounts" returning_visit))) = AVal [] /\
    shown_ids (snd (sys_state (list_boot (St := gmap string string) (A := acct_item) "/accounts" returning_visit))) = [].
Proof.
  eexists. apply (list_fetch_alone "/accounts" returning_visit);
    [apply rtc_refl|cbn; left|cbn; repeat constructor].
Defined.

(** A transaction dated ["2025-13-01"], a month out of range, is not a
    date: the list holding it throws. *)
Definition txn_bad : txn_item := TxnItem 4 "Refund" 12%float CREDIT "2025-13-01" JSUndef (JSStr "Checking").

Lemma transactions_view_bad_date_witness :
  tp_transactions (TxnsPage (Some [txn_a; txn_bad]) false 0 true) = Some [txn_a; txn_bad] /\
  txn_bad ∈ [txn_a; txn_bad] /\ js_new_Date utc_en_US (ti_txnDate txn_bad) = None /\
  transactions_view utc_en_US (TxnsPage (Some [txn_a; txn_bad]) false 0 true) = RThrows.
Proof.
  assert (Hx : txn_bad ∈ [txn_a; txn_bad]) by (right; left).
  assert (Hd : js_new_Date utc_en_US (ti_txnDate txn_bad) = None) by (vm_compute; reflexivity).
  split; [reflexivity|]. split; [exact Hx|]. split; [exact Hd|].
  exact (transactions_view_bad_date utc_en_US (TxnsPage (Some [txn_a; txn_bad]) false 0 true) _ txn_bad eq_refl Hx Hd).
Defined.
