(* ===== verification/Forms.v ===== *)
(** * The add forms and the bottom navigation
      ([src/frontend/src/app/accounts/add/page.tsx],
       [src/frontend/src/app/categories/add/page.tsx],
       [src/frontend/src/app/transactions/add/page.tsx],
       [src/frontend/src/components/BottomNav.tsx])

    The three add forms share one shape: [handleSubmit] sets [loading],
    builds the request body from the form's fields, posts it, navigates
    to the list on success, and clears [loading] in the [finally].  The
    transaction form also loads the accounts and categories on mount
    ([Promise.all]) and preselects the first of each.  The add-account
    form is also followed in a browser tab, where what its inputs let
    through bounds every reachable state; it and the add-category form
    post one record at a time, their button being disabled while
    [loading] is set.  The renders give each page's back link, title,
    fields and button.  The transaction form's date starts as
    [new Date().toISOString().split('T')[0]] and its input holds a
    valid date string; the body posts [new Date(d).toISOString()], which
    throws a [RangeError], before any request is sent, on a date the
    engine does not read.  A composed theorem follows a date from the
    form, through the server, to the transactions list.  The bottom
    navigation is hidden on the authentication pages and highlights the
    item of the current path. *)

From S2P Require Import Prelude Js JsNumber JsFormat JsDate Storage Async System Api Auth Lists.
From Stdlib Require Import Ascii PrimFloat.

#[local] Set Warnings "-clear-no-such-hyp".

Local Open Scope string_scope.

(** [router.push(path)]. *)
Definition navigate {St} (path : string) (b : browser St) : browser St :=
  Browser (b_storage b) (b_auth b) path.

(** ** The submit handler shared by the three forms *)

Section AddSubmit.
Context {St : Type} `{WebStorageLaws St}.
Context {P : Type} (set_loading_to : bool -> P -> P).
Abbreviation S := (browser St * P)%type.

(** [handleSubmit] of a form that posts to [endpoint] and goes to [dest]:
    [body p] is the request body built from the fields, or [None] when
    building it throws. *)
Definition add_submit (endpoint dest : string) (body : P -> option json) : task S :=
  Upd (on_page (set_loading_to true))
    (Read (fun s =>
       match body (snd s) with
       | None => Upd (on_page (set_loading_to false)) Done
       | Some b =>
           api_post page_storage endpoint b (fun o : api_outcome unit =>
             match o with
             | Resolved _ => Upd (on_browser (navigate dest)) (Upd (on_page (set_loading_to false)) Done)
             | Rejected _ => Upd (on_page (set_loading_to false)) Done
             end)
       end)).
End AddSubmit.

(** ** Add account *)

Record account_form := AccountForm {
  af_name : string;
  af_type : string;
  af_last4 : string;
  af_balanceEstimate : string;
}.

Record add_account_page := AddAccountPage { aa_loading : bool; aa_formData : account_form }.

Definition add_account_init : add_account_page := AddAccountPage false (AccountForm "" "CHECKING" "" "").

Definition set_aa_loading (l : bool) (p : add_account_page) : add_account_page :=
  AddAccountPage l (aa_formData p).

(** The options of the type [select]. *)
Definition account_types : list string := ["CHECKING"; "SAVINGS"; "CREDIT_CARD"; "CASH"].

(** [{ ...formData, balanceEstimate: Number(formData.balanceEstimate) }]. *)
Definition account_body (f : account_form) : json :=
  JObj [("name", JStr (af_name f)); ("type", JStr (af_type f)); ("last4", JStr (af_last4 f));
        ("balanceEstimate", JNum (js_Number (af_balanceEstimate f)))].

Definition account_handleSubmit {St} `{WebStorageLaws St} : task (browser St * add_account_page) :=
  add_submit set_aa_loading "/accounts" "/accounts" (fun p => Some (account_body (aa_formData p))).

(** ** Add category *)

Record add_category_page := AddCategoryPage { ac_loading : bool; ac_name : string }.

Definition add_category_init : add_category_page := AddCategoryPage false "".

Definition set_ac_loading (l : bool) (p : add_category_page) : add_category_page :=
  AddCategoryPage l (ac_name p).

Definition category_handleSubmit {St} `{WebStorageLaws St} : task (browser St * add_category_page) :=
  add_submit set_ac_loading "/categories" "/categories" (fun p => Some (JObj [("name", JStr (ac_name p))])).

(** ** The values an input can hold *)

(** A valid floating-point number of HTML, the only non-empty value an
    [<input type="number">] holds: an optional [-], digits with an
    optional fraction of at least one digit (or a fraction alone), and
    an optional exponent. *)
Definition valid_float (s : string) : bool :=
  let r := match s with
           | String c r => if Ascii.eqb c "-"%char then r else s
           | EmptyString => s
           end in
  let '(_, ni, r1) := read_digits 10 r 0 0 in
  let '(ok, r2) :=
    match r1 with
    | String c r' =>
        if Ascii.eqb c "."%char then let '(_, nf, r2) := read_digits 10 r' 0 0 in (negb (Nat.eqb nf 0), r2)
        else (negb (Nat.eqb ni 0), r1)
    | EmptyString => (negb (Nat.eqb ni 0), r1)
    end in
  ok && match r2 with
        | EmptyString => true
        | String c r' =>
            (Ascii.eqb c "e"%char || Ascii.eqb c "E"%char) &&
            match parse_exponent r' with Some _ => true | None => false end
        end.

(** The leading digits of a text, and the rest. *)
Fixpoint span_digits (l : list ascii) : list ascii * list ascii :=
  match l with
  | c :: r =>
      match digit_of c with
      | Some _ => let '(a, b) := span_digits r in (c :: a, b)
      | None => ([], l)
      end
  | [] => ([], [])
  end.

(** [<input type="date">]: its value is [""] or a valid date string
    [YYYY-MM-DD]: a year from 1 written with four or more digits (the
    picker takes years up to 275760), a month, and a day of that
    month. *)
Definition valid_date (d : string) : bool :=
  let '(ys, rest) := span_digits (String.list_ascii_of_string d) in
  match rest with
  | [h1; m1; m2; h2; d1; d2] =>
      Ascii.eqb h1 "-"%char && Ascii.eqb h2 "-"%char && Nat.leb 4 (length ys) &&
      match read_n (length ys) 0 ys, read_n 2 0 [m1; m2], read_n 2 0 [d1; d2] with
      | Some (y, _), Some (m, _), Some (dd, _) => (1 <=? y)%Z && valid_ymdb y m dd
      | _, _, _ => false
      end
  | _ => false
  end.

(** [new Date(formData.txnDate).toISOString()]: [None] when
    [toISOString] throws a [RangeError] on an invalid date. *)
Definition toISOString_of_date (en : engine) (d : string) : option string :=
  js_toISOString (js_new_Date en d).

(** ** Add transaction *)

(** [interface Account] and [interface Category] of the form: the
    options of its two [select]s. *)
Record opt_item := OptItem { oi_id : Z; oi_name : string }.

Record txn_form := TxnForm {
  tf_merchant : string;
  tf_amount : string;
  tf_type : string;
  tf_accountId : string;
  tf_categoryId : string;
  tf_txnDate : string;
}.

Record add_txn_page := AddTxnPage {
  at_loading : bool;
  at_accounts : api_value (list opt_item);
  at_categories : api_value (list opt_item);
  at_formData : txn_form;
}.

(** The initial state at the time value [now]: the date is
    [new Date().toISOString().split('T')[0]]. *)
Definition add_txn_init (now : Z) : add_txn_page :=
  AddTxnPage false (AVal []) (AVal []) (TxnForm "" "" "DEBIT" "" "" (utc_today now)).

Definition set_at_loading (l : bool) (p : add_txn_page) : add_txn_page :=
  AddTxnPage l (at_accounts p) (at_categories p) (at_formData p).
Definition set_at_accounts (v : api_value (list opt_item)) (p : add_txn_page) : add_txn_page :=
  AddTxnPage (at_loading p) v (at_categories p) (at_formData p).
Definition set_at_categories (v : api_value (list opt_item)) (p : add_txn_page) : add_txn_page :=
  AddTxnPage (at_loading p) (at_accounts p) v (at_formData p).
Definition set_formData (f : txn_form -> txn_form) (p : add_txn_page) : add_txn_page :=
  AddTxnPage (at_loading p) (at_accounts p) (at_categories p) (f (at_formData p)).

Definition with_merchant v f := TxnForm v (tf_amount f) (tf_type f) (tf_accountId f) (tf_categoryId f) (tf_txnDate f).
Definition with_amount v f := TxnForm (tf_merchant f) v (tf_type f) (tf_accountId f) (tf_categoryId f) (tf_txnDate f).
Definition with_type v f := TxnForm (tf_merchant f) (tf_amount f) v (tf_accountId f) (tf_categoryId f) (tf_txnDate f).
Definition with_accountId v f := TxnForm (tf_merchant f) (tf_amount f) (tf_type f) v (tf_categoryId f) (tf_txnDate f).
Definition with_categoryId v f := TxnForm (tf_merchant f) (tf_amount f) (tf_type f) (tf_accountId f) v (tf_txnDate f).
Definition with_txnDate v f := TxnForm (tf_merchant f) (tf_amount f) (tf_type f) (tf_accountId f) (tf_categoryId f) v.

(** [accData.length > 0 ? accData[0].id.toString() : ...]: an object
    that is not an array has no [length]. *)
Definition first_id (v : api_value (list opt_item)) : option string :=
  match v with
  | AVal (a :: _) => Some (js_int_to_string (oi_id a))
  | _ => None
  end.

(** The effect of the answered [Promise.all] of [fetchOptions]. *)
Definition options_done (accData catData : api_value (list opt_item)) (p : add_txn_page) : add_txn_page :=
  let p := set_at_categories catData (set_at_accounts accData p) in
  let p := match first_id accData with Some i => set_formData (with_accountId i) p | None => p end in
  match first_id catData with Some i => set_formData (with_categoryId i) p | None => p end.

(** The body of [handleSubmit]: [None] when [toISOString] throws. *)
Definition txn_body (en : engine) (f : txn_form) : option json :=
  match toISOString_of_date en (tf_txnDate f) with
  | None => None
  | Some iso =>
      Some (JObj [("merchant", JStr (tf_merchant f)); ("amount", JNum (js_Number (tf_amount f)));
                  ("type", JStr (tf_type f)); ("accountId", JNum (js_Number (tf_accountId f)));
                  ("categoryId", JNum (js_Number (tf_categoryId f))); ("txnDate", JStr iso);
                  ("currency", JStr "USD")])
  end.

Section AddTransaction.
Context {St : Type} `{WebStorageLaws St}.
Abbreviation S := (browser St * add_txn_page)%type.

(** The mount effect's [fetchOptions]: both lists, then the default
    account and category; a failure changes nothing. *)
Definition fetchOptions : task S :=
  api_get_all2 page_storage "/accounts" "/categories"
    (fun o : all2_outcome (list opt_item) (list opt_item) =>
       match o with
       | Both accData catData =>
           Upd (on_page (set_at_accounts accData))
             (Upd (on_page (set_at_categories catData))
               (Upd (on_page (fun p => match first_id accData with
                                       | Some i => set_formData (with_accountId i) p
                                       | None => p end))
                 (Upd (on_page (fun p => match first_id catData with
                                         | Some i => set_formData (with_categoryId i) p
                                         | None => p end)) Done)))
       | FirstRejection _ => Done
       end).

Definition txn_handleSubmit (en : engine) : task S :=
  add_submit set_at_loading "/transactions" "/transactions" (fun p => txn_body en (at_formData p)).
End AddTransaction.

(** ** The forms' events *)

Inductive account_event :=
| AEvName (v : string) | AEvType (v : string) | AEvLast4 (v : string) | AEvBalance (v : string) | AEvSubmit.

(** What the view lets through: the type's options, [maxLength={4}],
    a number input's value, and a submit when the button is enabled and
    the required fields are filled.  The [step="0.01"] of the number
    inputs is not checked: its step base is the input's [value]
    attribute, which React sets to the value when the input loses focus,
    so whether a step mismatch blocks a submission depends on where the
    focus is; every submission the browser may allow is let through. *)
Definition account_enabled (p : add_account_page) (e : account_event) : bool :=
  let f := aa_formData p in
  match e with
  | AEvName _ => true
  | AEvType v => bool_decide (v ∈ account_types)
  | AEvLast4 v => Nat.leb (String.length v) 4
  | AEvBalance v => String.eqb v "" || valid_float v
  | AEvSubmit =>
      negb (aa_loading p) && negb (String.eqb (af_name f) "") &&
      negb (String.eqb (af_balanceEstimate f) "")
  end.

Inductive txn_event :=
| TEvMount | TEvType (v : string) | TEvAmount (v : string) | TEvMerchant (v : string)
| TEvDate (v : string) | TEvAccount (v : string) | TEvCategory (v : string) | TEvSubmit.

(** The values of a [select]'s options, [value={acc.id}]. *)
Definition option_values (v : api_value (list opt_item)) : list string :=
  match v with
  | AVal l => map (fun a => js_int_to_string (oi_id a)) l
  | AObj _ => []
  end.

Definition txn_enabled (p : add_txn_page) (e : txn_event) : bool :=
  let f := at_formData p in
  match e with
  | TEvMount | TEvMerchant _ => true
  | TEvType v => bool_decide (v ∈ ["DEBIT"; "CREDIT"])
  | TEvAmount v => String.eqb v "" || valid_float v
  | TEvDate v => String.eqb v "" || valid_date v
  | TEvAccount v => bool_decide (v ∈ option_values (at_accounts p))
  | TEvCategory v => bool_decide (v ∈ option_values (at_categories p))
  | TEvSubmit =>
      negb (at_loading p) && negb (String.eqb (tf_amount f) "") &&
      negb (String.eqb (tf_merchant f) "") && negb (String.eqb (tf_txnDate f) "") &&
      negb (String.eqb (tf_accountId f) "") && negb (String.eqb (tf_categoryId f) "")
  end.

(** The synchronous update of an input event. *)
Definition txn_input (e : txn_event) : option (add_txn_page -> add_txn_page) :=
  match e with
  | TEvType v => Some (set_formData (with_type v))
  | TEvAmount v => Some (set_formData (with_amount v))
  | TEvMerchant v => Some (set_formData (with_merchant v))
  | TEvDate v => Some (set_formData (with_txnDate v))
  | TEvAccount v => Some (set_formData (with_accountId v))
  | TEvCategory v => Some (set_formData (with_categoryId v))
  | TEvMount | TEvSubmit => None
  end.

Definition txn_handler {St} `{WebStorageLaws St} (en : engine) (e : txn_event) : task (browser St * add_txn_page) :=
  match e with
  | TEvMount => fetchOptions
  | TEvSubmit => txn_handleSubmit en
  | _ => match txn_input e with Some f => Upd (on_page f) Done | None => Done end
  end.

(** The user's input events, one after the other, each as the view
    lets it through; [None] when one of them is not enabled or is not
    an input. *)
Fixpoint apply_inputs (evs : list txn_event) (p : add_txn_page) : option add_txn_page :=
  match evs with
  | [] => Some p
  | e :: evs =>
      if txn_enabled p e then
        match txn_input e with Some f => apply_inputs evs (f p) | None => None end
      else None
  end.

(** ** The bottom navigation *)

Record nav_item := NavItem { ni_label : string; ni_href : string; ni_primary : bool }.

Definition navItems : list nav_item :=
  [NavItem "Home" "/" false; NavItem "Txns" "/transactions" false;
   NavItem "Add" "/transactions/add" true; NavItem "Accounts" "/accounts" false;
   NavItem "Categories" "/categories" false].

(** What [BottomNav] renders on [pathname]: nothing on the
    authentication pages, else each item's link with whether it is
    styled active ([isActive] only styles the items that are not
    primary). *)
Definition bottom_nav (pathname : string) : option (list (string * bool)) :=
  if String.eqb pathname "/login" || String.eqb pathname "/register" then None
  else Some (map (fun i => (ni_href i, negb (ni_primary i) && String.eqb pathname (ni_href i))) navItems).

(** ** Properties of the forms *)

(** The effect of a completed post of a form. *)
Definition add_done {St P} (set_loading_to : bool -> P -> P) (dest : string)
    (o : api_outcome unit) (s : browser St * P) : browser St * P :=
  match o with
  | Resolved _ => (navigate dest (fst s), set_loading_to false (snd s))
  | Rejected _ => (fst s, set_loading_to false (snd s))
  end.

Section AddSubmitProperties.
Context {St : Type} `{WebStorageLaws St}.
Context {P : Type} (set_loading_to : bool -> P -> P).
Abbreviation S := (browser St * P)%type.

(** Submitting an add form sets [loading] and builds the body from
    the fields as they are then.  When building it throws, no request
    is sent and [loading] is cleared.  Otherwise one [POST] of that body
    is sent to [/api] + the endpoint; when it succeeds the router goes
    to the list, when it fails the page stays; [loading] is cleared in
    both cases.  The account, category and transaction forms are the
    three instances. *)
Theorem add_submit_spec endpoint dest body (s : S) :
  let p1 := set_loading_to true (snd s) in
  match body p1 with
  | None => run (add_submit set_loading_to endpoint dest body) s = ((fst s, set_loading_to false p1), [])
  | Some b =>
      exists k,
        run (add_submit set_loading_to endpoint dest body) s =
          ((fst s, p1), [pending1 (T := unit) (request_of (b_storage (fst s)) endpoint (post_options b)) k]) /\
        forall fr s', run (k fr) s' = (add_done set_loading_to dest (interpret fr) s', [])
  end.
Proof.
  simpl. destruct (body (set_loading_to true (snd s))) as [b|]; [|reflexivity].
  eexists. split; [reflexivity|]. intros fr s'. simpl. by destruct (interpret fr).
Qed.
End AddSubmitProperties.

Section AddTransactionProperties.
Context {St : Type} `{WebStorageLaws St}.
Abbreviation S := (browser St * add_txn_page)%type.

(** On mount the transaction form sends [GET /api/accounts] and
    [GET /api/categories] together; when both are answered it stores
    both lists and preselects the first account and the first category,
    keeping a field whose list is empty; when either fails it changes
    nothing. *)
Theorem fetchOptions_spec (s : S) :
  exists k,
    run fetchOptions s =
      (s, [pending2 (T1 := list opt_item) (T2 := list opt_item)
             (request_of (page_storage s) "/accounts" get_options)
             (request_of (page_storage s) "/categories" get_options) k]) /\
    forall x1 x2 b s',
      run (k x1 x2 b) s' =
        (match promise_all2 (interpret x1) (interpret x2) b with
         | Both accData catData => (fst s', options_done accData catData (snd s'))
         | FirstRejection _ => s'
         end, []).
Proof.
  eexists. split; [reflexivity|]. intros x1 x2 b [b' p]. simpl.
  destruct (promise_all2 _ _ _) as [accData catData|m]; [|done].
  unfold options_done. by repeat case_match.
Qed.

(** The account and the category the form preselects are sent as
    the ids of the first account and the first category the server
    listed: [Number(accData[0].id.toString())] reads the id back. *)
Theorem preselected_ids a accs c cats p :
  let p' := options_done (AVal (a :: accs)) (AVal (c :: cats)) p in
  string_to_lit (tf_accountId (at_formData p')) = LitDec (oi_id a <? 0)%Z (Z.abs (oi_id a)) 0 /\
  string_to_lit (tf_categoryId (at_formData p')) = LitDec (oi_id c <? 0)%Z (Z.abs (oi_id c)) 0.
Proof. split; apply string_to_lit_pretty. Qed.
End AddTransactionProperties.

(** No category to choose, and none chosen. *)
Definition no_category (p : add_txn_page) : Prop :=
  at_categories p = AVal [] /\ tf_categoryId (at_formData p) = "".

Lemma input_keeps_no_category e f p :
  txn_input e = Some f -> txn_enabled p e = true -> no_category p -> no_category (f p).
Proof.
  intros Hf He [Hc Hid]. destruct e; simpl in Hf; simplify_eq; split; try done.
  simpl in He. rewrite Hc in He. done.
Qed.

Lemma no_category_submit_disabled p : no_category p -> txn_enabled p TEvSubmit = false.
Proof. intros [_ Hid]. simpl. rewrite Hid. simpl. by rewrite !andb_false_r. Qed.

(** C27. A user whose category list is empty can never submit the
    transaction form: the category [select] is [required] and has no
    option, so whatever the user then types or picks, the submit stays
    blocked.  The transactions page shows transactions without a
    category ("Uncategorized"), but the form cannot create one. *)
Theorem no_categories_no_submit accData p evs p' :
  tf_categoryId (at_formData p) = "" ->
  apply_inputs evs (options_done accData (AVal []) p) = Some p' ->
  txn_enabled p' TEvSubmit = false.
Proof.
  intros Hid Happ. apply no_category_submit_disabled.
  assert (Hq : no_category (options_done accData (AVal []) p)).
  { unfold no_category, options_done. simpl. case_match; simpl; split; done. }
  revert Hq Happ. generalize (options_done accData (AVal []) p). clear Hid.
  induction evs as [|e evs IH]; intros q Hq; simpl; [by intros [= <-]|].
  destruct (txn_enabled q e) eqn:He; [|done]. destruct (txn_input e) as [f|] eqn:Hf; [|done].
  apply IH. eapply input_keeps_no_category; eauto.
Qed.

(** The value of a date input is the text of its year, month and day. *)
Lemma span_digits_app l : let '(a, b) := span_digits l in l = (a ++ b)%list.
Proof.
  induction l as [|c l IH]; [done|]. cbn.
  destruct (digit_of c); [|done]. destruct (span_digits l). by rewrite IH.
Qed.

Lemma span_digits_pad k n r : span_digits (pad_digits k n ++ "-"%char :: r)%list = (pad_digits k n, "-"%char :: r).
Proof.
  induction k as [|k IH]; [done|]. cbn [pad_digits app span_digits].
  rewrite digit_of_digit by (apply Z.mod_pos_bound; lia). by rewrite IH.
Qed.

(** The value of a date input is the text of its year, of four or more
    digits, its month and its day. *)
Lemma valid_date_spec d :
  valid_date d = true ->
  exists k y m dd, (4 <= k)%nat /\ (1 <= y < 10 ^ Z.of_nat k)%Z /\ valid_ymd y m dd /\
    d = String.string_of_list_ascii (pad_digits k y ++ "-"%char :: pad_digits 2 m ++ "-"%char :: pad_digits 2 dd).
Proof.
  intros H. rewrite <- (String.string_of_list_ascii_of_string d). revert H. unfold valid_date.
  pose proof (span_digits_app (String.list_ascii_of_string d)) as Hs.
  destruct (span_digits (String.list_ascii_of_string d)) as [ys rest]. rewrite Hs.
  destruct rest as [|h1 [|m1 [|m2 [|h2 [|d1 [|d2 [|]]]]]]]; try discriminate.
  intros [[[Hh1 Hh2]%andb_true_iff Hk%Nat.leb_le]%andb_true_iff H]%andb_true_iff.
  apply Ascii.eqb_eq in Hh1, Hh2. subst h1 h2.
  destruct (read_n (length ys) 0 ys) as [[y r1]|] eqn:Ey; [|done].
  destruct (read_n 2 0 [m1; m2]) as [[m r2]|] eqn:Em; [|done].
  destruct (read_n 2 0 [d1; d2]) as [[dd r3]|] eqn:Ed; [|done].
  apply read_n_inv in Ey as [Ey Hy], Em as [Em _], Ed as [Ed _]; [|lia..].
  apply andb_true_iff in H as [Hy1%Z.leb_le Hv%valid_ymdb_spec].
  exists (length ys), y, m, dd. split; [done|]. split; [lia|]. split; [done|]. f_equal.
  change [m1; m2; "-"%char; d1; d2] with ([m1; m2] ++ "-"%char :: [d1; d2])%list.
  rewrite Em, Ed.
  destruct r1; [|pose proof (f_equal length Ey) as L; rewrite length_app, pad_digits_length in L; cbn in L; lia].
  destruct r2; [|pose proof (f_equal length Em) as L; rewrite length_app, pad_digits_length in L; cbn in L; lia].
  destruct r3; [|pose proof (f_equal length Ed) as L; rewrite length_app, pad_digits_length in L; cbn in L; lia].
  rewrite !app_nil_r in *. by rewrite <- Ey.
Qed.

(** C33. The date the transaction form posts: for every value the date
    input can hold but [""] (which [required] keeps from being
    submitted), a year of four digits is posted as that day followed by
    [T00:00:00.000Z], its midnight UTC, in every engine whatever its
    time zone; a longer year is outside the Date Time String Format,
    so what is posted is the engine's own reading of the text, and
    nothing is posted when the engine reads no date ([toISOString]
    throws).  The amount and the ids are sent as numbers, the currency
    as USD. *)
Theorem txn_body_date en f :
  valid_date (tf_txnDate f) = true ->
  txn_body en f =
    option_map
      (fun iso => JObj [("merchant", JStr (tf_merchant f)); ("amount", JNum (js_Number (tf_amount f)));
                        ("type", JStr (tf_type f)); ("accountId", JNum (js_Number (tf_accountId f)));
                        ("categoryId", JNum (js_Number (tf_categoryId f)));
                        ("txnDate", JStr iso); ("currency", JStr "USD")])
      (if Nat.eqb (String.length (tf_txnDate f)) 10 then Some (tf_txnDate f ++ "T00:00:00.000Z")
       else js_toISOString (en_parse_fallback en (tf_txnDate f) ≫= time_clip)).
Proof.
  intros (k & y & m & dd & Hk & Hy & Hv & Hd)%valid_date_spec. unfold txn_body, toISOString_of_date.
  assert (Hl : String.length (tf_txnDate f) = (k + 6)%nat)
    by (rewrite Hd, length_string_of_list_ascii, length_app, pad_digits_length; cbn; lia).
  rewrite Hl. destruct (Nat.eqb_spec (k + 6) 10) as [Hk4|Hk4].
  - assert (k = 4) by lia. subst k. cbn in Hy.
    by rewrite (date_only_iso en y m dd (tf_txnDate f)) by (done || lia).
  - assert (Hp : parse_date_time (tf_txnDate f) = DTNoFormat) by (rewrite Hd; apply parse_long_year; lia).
    unfold js_new_Date. rewrite Hp. by destruct (js_toISOString _).
Qed.

(** C29. The date a transaction is listed on, from the form to the list:
    the form posts the day [y-m-dd] of its date input as that day's
    midnight UTC, and when the server gives that [txnDate] back, the
    transactions list formats it with ['MMM d'] in the browser's time
    zone.  In a zone at a fixed offset of [o] minutes the row shows the
    day the user picked east of UTC and in UTC, and the day before west
    of UTC: a transaction entered for March 1 is listed on Feb 28 in
    New York. *)
Theorem posted_date_listed en o f fields t y m dd :
  en_zone en = fixed_zone o -> (-1440 < o < 1440)%Z ->
  (1 <= y <= 9999)%Z -> valid_ymd y m dd ->
  tf_txnDate f = String.string_of_list_ascii (pad_digits 4 y ++ "-"%char :: pad_digits 2 m ++ "-"%char :: pad_digits 2 dd) ->
  txn_body en f = Some (JObj fields) -> ("txnDate", JStr (ti_txnDate t)) ∈ fields ->
  option_map trv_date (txn_row_of en t) =
    Some (if (o <? 0)%Z
          then let '(_, m', d') := civil_from_days (make_day y m dd - 1) in month_abbr m' ++ " " ++ js_int_to_string d'
          else month_abbr m ++ " " ++ js_int_to_string dd).
Proof.
  intros Hz Ho Hy Hv Hd Hb Hin.
  unfold txn_body, toISOString_of_date in Hb.
  rewrite (date_only_iso en y m dd (tf_txnDate f) ltac:(lia) Hv Hd) in Hb. injection Hb as <-.
  apply list_elem_of_In in Hin. cbn in Hin.
  assert (Ht : ti_txnDate t = (tf_txnDate f ++ "T00:00:00.000Z")%string) by (destruct_or! Hin; simplify_eq; done).
  pose proof (date_only_new_Date en y m dd (tf_txnDate f) ltac:(lia) Hv Hd) as Hn.
  pose proof (date_only_iso en y m dd (tf_txnDate f) ltac:(lia) Hv Hd) as Hi. rewrite Hn in Hi.
  destruct (toISOString_roundtrip en _ (js_new_Date_bound _ _ _ Hn)) as (s & Hs & Hr).
  rewrite Hi in Hs. injection Hs as <-.
  unfold txn_row_of. rewrite Ht, Hr, Hz, (midnight_utc_shown o y m dd Ho Hv). done.
Qed.

Lemma valid_date_pad y m dd :
  (1 <= y <= 9999)%Z -> valid_ymd y m dd ->
  valid_date (String.string_of_list_ascii (pad_digits 4 y ++ "-"%char :: pad_digits 2 m ++ "-"%char :: pad_digits 2 dd)) = true.
Proof.
  intros Hy Hv. pose proof Hv as [Hm Hd]. pose proof (days_in_month_bound y m).
  pose proof (read_n_pad_small 4 y [] ltac:(cbn; lia)) as Ey.
  pose proof (read_n_pad_small 2 m [] ltac:(cbn; lia)) as Em.
  pose proof (read_n_pad_small 2 dd [] ltac:(cbn; lia)) as Ed.
  rewrite app_nil_r in Ey, Em, Ed. unfold valid_date.
  rewrite String.list_ascii_of_string_of_list_ascii, span_digits_pad, pad_digits_length, Ey.
  cbn [pad_digits app] in Em, Ed |- *. rewrite Em, Ed. cbn -[valid_ymdb].
  apply andb_true_iff. split; [lia|]. by apply valid_ymdb_spec.
Qed.

(** C32. The date the transaction form starts with is the day of the
    current instant in UTC, not the user's: the text before the [T] of
    [new Date().toISOString()] is the UTC year, month and day, a value
    the date input holds, and it differs from the local date whenever
    local time and UTC fall on two days (from 7 pm in New York in
    winter, the form proposes tomorrow). *)
Theorem add_txn_default_date now y m dd :
  civil_from_days (now / msPerDay) = (y, m, dd) -> (1 <= y <= 9999)%Z ->
  tf_txnDate (at_formData (add_txn_init now)) =
    String.string_of_list_ascii (pad_digits 4 y ++ "-"%char :: pad_digits 2 m ++ "-"%char :: pad_digits 2 dd) /\
  valid_date (tf_txnDate (at_formData (add_txn_init now))) = true.
Proof.
  intros Hc Hy. cbn [add_txn_init at_formData tf_txnDate]. rewrite (utc_today_spec now y m dd Hc) by lia.
  split; [done|]. apply valid_date_pad; [done|].
  pose proof (make_day_civil (now / msPerDay)) as Hv. rewrite Hc in Hv. apply Hv.
Qed.

(** ** The other two forms' handlers *)

Definition set_account_form (g : account_form -> account_form) (p : add_account_page) : add_account_page :=
  AddAccountPage (aa_loading p) (g (aa_formData p)).

(** [setFormData({ ...formData, field: e.target.value })]. *)
Definition account_handler {St} `{WebStorageLaws St} (e : account_event) : task (browser St * add_account_page) :=
  match e with
  | AEvName v => Upd (on_page (set_account_form (fun f => AccountForm v (af_type f) (af_last4 f) (af_balanceEstimate f)))) Done
  | AEvType v => Upd (on_page (set_account_form (fun f => AccountForm (af_name f) v (af_last4 f) (af_balanceEstimate f)))) Done
  | AEvLast4 v => Upd (on_page (set_account_form (fun f => AccountForm (af_name f) (af_type f) v (af_balanceEstimate f)))) Done
  | AEvBalance v => Upd (on_page (set_account_form (fun f => AccountForm (af_name f) (af_type f) (af_last4 f) v))) Done
  | AEvSubmit => account_handleSubmit
  end.

Inductive category_event := CEvName (v : string) | CEvSubmit.

Definition category_enabled (p : add_category_page) (e : category_event) : bool :=
  match e with
  | CEvName _ => true
  | CEvSubmit => negb (ac_loading p) && negb (String.eqb (ac_name p) "")
  end.

Definition category_handler {St} `{WebStorageLaws St} (e : category_event) : task (browser St * add_category_page) :=
  match e with
  | CEvName v => Upd (on_page (fun p => AddCategoryPage (ac_loading p) v)) Done
  | CEvSubmit => category_handleSubmit
  end.

(** ** What the add pages render *)

(** The frame of an add page: the back [Link] to the list and the
    title, and the submit button, [disabled={loading}], which shows the
    spinner ([Loader2]) in place of the check mark while [loading] is
    set, before its label. *)
Record form_chrome := FormChrome {
  fc_back : string;
  fc_title : string;
  fc_disabled : bool;
  fc_spinner : bool;
  fc_label : string;
}.

Definition form_chrome_of (back title label : string) (loading : bool) : form_chrome :=
  FormChrome back title loading loading label.

(** The add-account page: its frame, and the inputs, which show the
    fields of [formData] ([value={formData.name}] and so on). *)
Definition add_account_view (p : add_account_page) : form_chrome * account_form :=
  (form_chrome_of "/accounts" "Add Account" "Create Account" (aa_loading p), aa_formData p).

Definition add_category_view (p : add_category_page) : form_chrome * string :=
  (form_chrome_of "/categories" "Add Category" "Create Category" (ac_loading p), ac_name p).

(** The add-transaction page also renders one [option] per account and
    per category loaded on mount, valued by its id. *)
Definition add_txn_view (p : add_txn_page) : form_chrome * txn_form * list string * list string :=
  (form_chrome_of "/transactions" "Add Transaction" "Save Transaction" (at_loading p), at_formData p,
   option_values (at_accounts p), option_values (at_categories p)).

(** ** Icons and navigation *)

(** The accounts page draws the bank icon for type ["BANK"], which
    the add form does not offer: no account the form creates gets it,
    and checking and savings accounts get the credit-card icon. *)
Theorem getIcon_add_form_types :
  Forall (fun t => getIcon t <> IconBuilding) account_types /\
  getIcon "CHECKING" = IconCreditCard /\ getIcon "SAVINGS" = IconCreditCard /\
  getIcon "BANK" = IconBuilding.
Proof. repeat split; repeat constructor; discriminate. Qed.

(** The bottom navigation is hidden exactly on the login and
    registration pages; elsewhere it shows the five items, and an item
    is styled active exactly when it is not the primary Add button and
    its link is the current path, so at most one item is active. *)
Theorem bottom_nav_spec path :
  (bottom_nav path = None <-> path = "/login" \/ path = "/register") /\
  forall items, bottom_nav path = Some items ->
    map fst items = map ni_href navItems /\
    (forall h, (h, true) ∈ items <-> h = path /\ h ∈ ["/"; "/transactions"; "/accounts"; "/categories"]) /\
    length (List.filter snd items) <= 1.
Proof.
  unfold bottom_nav.
  destruct (String.eqb path "/login") eqn:El; [apply String.eqb_eq in El; subst; split; [tauto|done]|].
  destruct (String.eqb path "/register") eqn:Er; [apply String.eqb_eq in Er; subst; split; [tauto|done]|].
  apply String.eqb_neq in El, Er. split; [split; [done|intros [?|?]; done]|].
  intros items [= <-]. split; [done|]. simpl.
  destruct (String.eqb path "/") eqn:E1; [apply String.eqb_eq in E1; subst; split; [set_solver|simpl; lia]|].
  destruct (String.eqb path "/transactions") eqn:E2; [apply String.eqb_eq in E2; subst; split; [set_solver|simpl; lia]|].
  destruct (String.eqb path "/accounts") eqn:E3; [apply String.eqb_eq in E3; subst; split; [set_solver|simpl; lia]|].
  destruct (String.eqb path "/categories") eqn:E4; [apply String.eqb_eq in E4; subst; split; [set_solver|simpl; lia]|].
  apply String.eqb_neq in E1, E2, E3, E4. split; [|simpl; lia].
  split; [set_solver|]. intros [-> Hin]. set_solver.
Qed.

(** ** The add-account form in a browser tab

    The page under [System]'s interleaving: the user types in the
    inputs the view lets through ([account_enabled]: the type
    [select]'s options, [maxLength={4}] on the last four digits),
    submits when the button is enabled, responses arrive in any order,
    and a reload resets the form. *)
Section AccountSystem.
Context {St : Type} `{WebStorageLaws St}.
Abbreviation S := (browser St * add_account_page)%type.

Definition account_enabled_task (s : S) (t : task S) : Prop :=
  exists e, account_enabled (snd s) e = true /\ t = account_handler e.

Definition account_reset (s : S) : S := (reload (fst s), add_account_init).

(** The fields as the view constrains them: a type among the
    [select]'s options, and at most four characters of last digits. *)
Definition account_form_wf (p : add_account_page) : Prop :=
  af_type (aa_formData p) ∈ account_types /\ String.length (af_last4 (aa_formData p)) <= 4.

(** A request whose JSON body has a [last4] field carries at most four
    characters there. *)
Definition last4_bounded (r : request) : Prop :=
  forall fs v, req_body r = Some (JObj fs) -> ("last4", JStr v) ∈ fs -> String.length v <= 4.

Lemma account_handler_wf (s : S) e :
  account_enabled (snd s) e = true -> preserves (fun s : S => account_form_wf (snd s)) (account_handler e).
Proof.
  intros He. destruct e; simpl in He |- *;
    unfold account_handleSubmit, add_submit, api_post, api_request; task_pred;
    unfold account_form_wf in *; simpl in *; try done.
  - split; [by apply bool_decide_eq_true in He|apply H1].
  - split; [apply H1|by apply Nat.leb_le in He].
Qed.

Lemma account_body_last4 f fs v :
  Some (account_body f) = Some (JObj fs) -> ("last4", JStr v) ∈ fs -> v = af_last4 f.
Proof.
  intros [= <-] Hin. repeat (apply elem_of_cons in Hin as [Hin|Hin]; [simplify_eq; done|]).
  by apply elem_of_nil in Hin.
Qed.

Lemma account_handler_requests (s : S) e :
  account_form_wf (snd s) ->
  Forall (fun p => Forall last4_bounded (p_reqs p) /\ pending_ok (all_requests last4_bounded) p)
    (snd (run (account_handler e) s)).
Proof.
  intros [_ Hl]. destruct e; simpl; try constructor.
  - split.
    + constructor; [|constructor]. intros fs v Hb Hin. simpl in Hb.
      rewrite (account_body_last4 _ _ _ Hb Hin). exact Hl.
    + intros x. simpl. task_pred.
  - constructor.
Qed.
(** C16. Bounds of the add-account form: in every state of the tab, whatever
    the user types or picks, whatever the server answers and across
    reloads, the account type is one of the four the [select] offers and
    the last four digits hold at most four characters ([maxLength={4}]);
    so every request the page has sent carries at most four characters
    in its [last4] field. *)
Theorem account_reachable_last4 (s0 : S) σ :
  account_form_wf (snd s0) ->
  reachable account_enabled_task account_reset (boot s0) σ ->
  account_form_wf (snd (sys_state σ)) /\ Forall last4_bounded (sys_sent σ).
Proof.
  intros Hs0 Hr.
  eapply (reachable_guarded_requests _ _ (fun s : S => account_form_wf (snd s)) last4_bounded)
    in Hr as [[Hs _] [Hsent _]]; [by split| | | |split; [by apply boot_inv|apply boot_requests]].
  - intros s t [e [He ->]]. by eapply account_handler_wf.
  - intros s _. split; [constructor|simpl; lia].
  - intros s t [e [He ->]] Hi. by apply account_handler_requests.
Qed.
End AccountSystem.

(** ** One submission at a time

    A form whose view enables the submit button only while [loading] is
    clear, and whose other handlers set a field and leave [loading]
    alone, has at most one post in flight, and [loading] is set while it
    waits. *)
Section SubmitFlight.
Context {St : Type} `{WebStorageLaws St}.
Context {P : Type} (set_loading_to : bool -> P -> P) (loading : P -> bool).
Hypothesis loading_set : forall b p, loading (set_loading_to b p) = b.
Variables (endpoint dest : string) (body : P -> option json).
Abbreviation S := (browser St * P)%type.
Variable enabled : S -> task S -> Prop.
Variable reset : S -> S.
Hypothesis enabled_cases : forall s t, enabled s t ->
  (loading (snd s) = false /\ t = add_submit set_loading_to endpoint dest body) \/
  (exists g, t = Upd (on_page g) Done /\ forall p, loading (g p) = loading p).
Hypothesis reset_idle : forall s, loading (snd (reset s)) = false.

(** A waiting post whose answer, whatever it is, clears [loading] and
    leaves nothing waiting (the [finally]). *)
Definition submit_done (p : pending S) : Prop :=
  forall x s, loading (snd (fst (run (p_k p x) s))) = false /\ snd (run (p_k p x) s) = [].

Definition submit_flight (σ : sys) : Prop :=
  (loading (snd (sys_state σ)) = false /\ sys_pending σ = []) \/
  (loading (snd (sys_state σ)) = true /\ exists p, sys_pending σ = [p] /\ submit_done p).

Lemma add_submit_flight (s : S) :
  let r := run (add_submit set_loading_to endpoint dest body) s in
  (loading (snd (fst r)) = false /\ snd r = []) \/
  (loading (snd (fst r)) = true /\ exists p, snd r = [p] /\ submit_done p).
Proof.
  cbn. destruct (body (set_loading_to true (snd s))) as [b|]; cbn; rewrite loading_set; [right|by left].
  split; [done|]. eexists. split; [reflexivity|].
  intros x s'. cbn. case_match; cbn; by rewrite loading_set.
Qed.

Lemma submit_flight_step σ σ' :
  sys_step enabled reset σ σ' -> submit_flight σ -> submit_flight σ'.
Proof.
  intros Hst Hσ. destruct Hst as [σ t Ht|s ps1 p ps2 sent x|σ].
  - destruct σ as [s ps sent]. unfold submit_flight, start in *. cbn in *.
    destruct (enabled_cases s t Ht) as [[Hl ->]|[g [-> Hg]]].
    + destruct Hσ as [[_ ->]|[Hl' _]]; [|congruence].
      pose proof (add_submit_flight s) as Hf. cbn zeta in Hf.
      destruct (run _ s) as [s' ps']. cbn in *. destruct Hf as [[? ->]|[? [p [-> ?]]]]; eauto.
    + cbn. rewrite app_nil_r, Hg. exact Hσ.
  - unfold submit_flight in *. cbn in *.
    destruct Hσ as [[_ Hp]|[Hl [p0 [Hp Hd]]]]; [by destruct ps1|].
    apply app_eq_unit in Hp as [[-> [= -> ->]]|[_ Hp]]; [|done].
    destruct (Hd x s) as [Hl' Hp']. unfold start. cbn.
    destruct (run (p_k p0 x) s) as [s' ps']. cbn in *. subst ps'. by left.
  - left. split; [apply reset_idle|done].
Qed.

Lemma reachable_submit_flight s0 σ :
  loading (snd s0) = false -> reachable enabled reset (boot s0) σ -> submit_flight σ.
Proof.
  intros Hs0 Hr. assert (Hb : submit_flight (boot s0)) by (left; done).
  revert Hb. unfold reachable in Hr. induction Hr; eauto using submit_flight_step.
Qed.

(** While a post waits, it waits alone and [loading] is set. *)
Lemma submit_flight_waiting σ :
  submit_flight σ -> length (sys_pending σ) <= 1 /\ (sys_pending σ <> [] -> loading (snd (sys_state σ)) = true).
Proof. intros [[_ ->]|[Hl [p [-> _]]]]; cbn; split; auto; done. Qed.
End SubmitFlight.

(** ** The add-category form in a browser tab *)

Section CategorySystem.
Context {St : Type} `{WebStorageLaws St}.
Abbreviation S := (browser St * add_category_page)%type.

Definition category_enabled_task (s : S) (t : task S) : Prop :=
  exists e, category_enabled (snd s) e = true /\ t = category_handler e.

Definition category_reset (s : S) : S := (reload (fst s), add_category_init).
End CategorySystem.

Section AddFormsFlight.
Context {St : Type} `{WebStorageLaws St}.

Lemma account_enabled_cases (s : browser St * add_account_page) t :
  account_enabled_task s t ->
  (aa_loading (snd s) = false /\
   t = add_submit set_aa_loading "/accounts" "/accounts" (fun p => Some (account_body (aa_formData p)))) \/
  (exists g, t = Upd (on_page g) Done /\ forall p, aa_loading (g p) = aa_loading p).
Proof.
  intros [e [He ->]]. destruct e; cbn in He |- *; [eauto..|left].
  split; [|done]. by repeat (apply andb_prop in He as [He _]); apply negb_true_iff in He.
Qed.

Lemma category_enabled_cases (s : browser St * add_category_page) t :
  category_enabled_task s t ->
  (ac_loading (snd s) = false /\
   t = add_submit set_ac_loading "/categories" "/categories" (fun p => Some (JObj [("name", JStr (ac_name p))]))) \/
  (exists g, t = Upd (on_page g) Done /\ forall p, ac_loading (g p) = ac_loading p).
Proof.
  intros [e [He ->]]. destruct e; cbn in He |- *; [eauto|left].
  split; [|done]. apply andb_prop in He as [He _]. by apply negb_true_iff in He.
Qed.

(** C28. The add-account and add-category forms post one record at a
    time.  In every state a tab on either form can reach from an idle
    form, whatever the user types, however often they click and
    whatever the server answers, at most one post waits; while it
    waits the button is rendered disabled with the spinner, and a
    further submit is not enabled, so a double click never creates the
    record twice. *)
Theorem add_forms_single_submit :
  (forall (s0 : browser St * add_account_page) σ,
     aa_loading (snd s0) = false -> reachable account_enabled_task account_reset (boot s0) σ ->
     length (sys_pending σ) <= 1 /\
     (sys_pending σ <> [] ->
        fc_disabled (fst (add_account_view (snd (sys_state σ)))) = true /\
        fc_spinner (fst (add_account_view (snd (sys_state σ)))) = true /\
        account_enabled (snd (sys_state σ)) AEvSubmit = false)) /\
  (forall (s0 : browser St * add_category_page) σ,
     ac_loading (snd s0) = false -> reachable category_enabled_task category_reset (boot s0) σ ->
     length (sys_pending σ) <= 1 /\
     (sys_pending σ <> [] ->
        fc_disabled (fst (add_category_view (snd (sys_state σ)))) = true /\
        fc_spinner (fst (add_category_view (snd (sys_state σ)))) = true /\
        category_enabled (snd (sys_state σ)) CEvSubmit = false)).
Proof.
  split; intros s0 σ Hs0 Hr.
  - pose proof (reachable_submit_flight set_aa_loading aa_loading (fun _ _ => eq_refl) _ _ _
                  account_enabled_task account_reset account_enabled_cases (fun _ => eq_refl) s0 σ Hs0 Hr) as Hf.
    destruct (submit_flight_waiting _ _ Hf) as [Hlen Hw]. split; [exact Hlen|].
    intros Hne. cbn. by rewrite (Hw Hne).
  - pose proof (reachable_submit_flight set_ac_loading ac_loading (fun _ _ => eq_refl) _ _ _
                  category_enabled_task category_reset category_enabled_cases (fun _ => eq_refl) s0 σ Hs0 Hr) as Hf.
    destruct (submit_flight_waiting _ _ Hf) as [Hlen Hw]. split; [exact Hlen|].
    intros Hne. cbn. by rewrite (Hw Hne).
Qed.
End AddFormsFlight.

(** ** Scenarios *)

Definition starbucks_form : txn_form :=
  TxnForm "Starbucks" "4.50" "DEBIT" "3" "5" "2025-03-01".

(** The body the transaction form posts for a coffee of 4.50 at
    Starbucks on 1 March 2025, from account 3 and category 5: the amount
    and the ids as numbers, the date at midnight UTC, the currency USD.
    With the date field emptied the form sends nothing: [new Date("")]
    is an invalid date and [toISOString] throws before the request
    (the [required] attribute keeps the browser from submitting it). *)
Example txn_body_scenario :
  txn_body utc_en_US starbucks_form =
    Some (JObj [("merchant", JStr "Starbucks"); ("amount", JNum 4.5%float); ("type", JStr "DEBIT");
                ("accountId", JNum 3%float); ("categoryId", JNum 5%float);
                ("txnDate", JStr "2025-03-01T00:00:00.000Z"); ("currency", JStr "USD")]) /\
  txn_body utc_en_US (with_txnDate "" starbucks_form) = None /\
  txn_body utc_en_US (with_txnDate "2024-02-29" starbucks_form) <> None.
Proof. vm_compute. repeat split; discriminate. Qed.

(** ** Witnesses *)

Definition txn_state : browser (gmap string string) * add_txn_page :=
  (reload returning_visit, AddTxnPage false (AVal [OptItem 3 "Checking"]) (AVal [OptItem 5 "Food"]) starbucks_form).

Lemma add_submit_spec_witness :
  match txn_body utc_en_US (at_formData (set_at_loading true (snd txn_state))) with
  | None => run (add_submit set_at_loading "/transactions" "/transactions" (fun p => txn_body utc_en_US (at_formData p))) txn_state =
            ((fst txn_state, set_at_loading false (set_at_loading true (snd txn_state))), [])
  | Some b =>
      exists k,
        run (add_submit set_at_loading "/transactions" "/transactions" (fun p => txn_body utc_en_US (at_formData p))) txn_state =
          ((fst txn_state, set_at_loading true (snd txn_state)),
           [pending1 (T := unit) (request_of (b_storage (fst txn_state)) "/transactions" (post_options b)) k]) /\
        forall fr s', run (k fr) s' = (add_done set_at_loading "/transactions" (interpret fr) s', [])
  end.
Proof. exact (add_submit_spec set_at_loading "/transactions" "/transactions" (fun p => txn_body utc_en_US (at_formData p)) txn_state). Defined.

Lemma no_categories_no_submit_witness :
  exists p',
    tf_categoryId (at_formData (add_txn_init 1740787200000)) = "" /\
    apply_inputs [TEvMerchant "Starbucks"; TEvAmount "4.50"; TEvAccount "3"]
      (options_done (AVal [OptItem 3 "Checking"]) (AVal []) (add_txn_init 1740787200000)) = Some p' /\
    txn_enabled p' TEvSubmit = false.
Proof.
  eexists. assert (Hid : tf_categoryId (at_formData (add_txn_init 1740787200000)) = "") by reflexivity.
  assert (Happ : apply_inputs [TEvMerchant "Starbucks"; TEvAmount "4.50"; TEvAccount "3"]
      (options_done (AVal [OptItem 3 "Checking"]) (AVal []) (add_txn_init 1740787200000)) =
      Some (AddTxnPage false (AVal [OptItem 3 "Checking"]) (AVal [])
              (TxnForm "Starbucks" "4.50" "DEBIT" "3" "" "2025-03-01"))) by (vm_compute; reflexivity).
  split; [exact Hid|]. split; [exact Happ|].
  exact (no_categories_no_submit _ _ _ _ Hid Happ).
Defined.

Definition account_state : browser (gmap string string) * add_account_page :=
  (reload returning_visit, add_account_init).

(** The user types the last digits, a name and a balance, and submits. *)
Lemma account_submit_reachable :
  exists σ, reachable (account_enabled_task (St := gmap string string)) account_reset (boot account_state) σ /\
            sys_sent σ <> [] /\ sys_pending σ <> [].
Proof.
  eexists. split.
  - eapply rtc_l; [apply st_event; exists (AEvLast4 "1234"); split; reflexivity|].
    eapply rtc_l; [apply st_event; exists (AEvName "Chase"); split; reflexivity|].
    eapply rtc_l; [apply st_event; exists (AEvBalance "100"); split; [vm_compute|]; reflexivity|].
    eapply rtc_l; [apply st_event; exists AEvSubmit; split; [vm_compute|]; reflexivity|].
    apply rtc_refl.
  - vm_compute. split; discriminate.
Defined.

Lemma account_reachable_last4_witness :
  exists σ, reachable (account_enabled_task (St := gmap string string)) account_reset (boot account_state) σ /\
            sys_sent σ <> [] /\
            account_form_wf (snd (sys_state σ)) /\ Forall last4_bounded (sys_sent σ).
Proof.
  destruct account_submit_reachable as [σ [Hr [Hs _]]]. exists σ. split; [exact Hr|]. split; [exact Hs|].
  apply (account_reachable_last4 account_state σ); [split; [constructor|simpl; lia]|exact Hr].
Defined.

Lemma add_forms_single_submit_witness :
  exists σ, reachable (account_enabled_task (St := gmap string string)) account_reset (boot account_state) σ /\
            sys_pending σ <> [] /\
            length (sys_pending σ) <= 1 /\
            fc_disabled (fst (add_account_view (snd (sys_state σ)))) = true /\
            fc_spinner (fst (add_account_view (snd (sys_state σ)))) = true /\
            account_enabled (snd (sys_state σ)) AEvSubmit = false.
Proof.
  destruct account_submit_reachable as [σ [Hr [_ Hp]]]. exists σ. split; [exact Hr|]. split; [exact Hp|].
  destruct (proj1 add_forms_single_submit account_state σ eq_refl Hr) as [Hlen Hv].
  split; [exact Hlen|exact (Hv Hp)].
Defined.

(** In New York, five hours west of UTC, the coffee of 1 March 2025 is
    posted at midnight UTC; with the year typed as 20255, outside the
    Date Time String Format, an engine that reads no such date posts
    nothing. *)
Lemma txn_body_date_witness :
  (valid_date (tf_txnDate starbucks_form) = true /\
   txn_body (Engine (fixed_zone (-300)) (fun _ => None) en_US) starbucks_form =
     Some (JObj [("merchant", JStr (tf_merchant starbucks_form)); ("amount", JNum (js_Number (tf_amount starbucks_form)));
                 ("type", JStr (tf_type starbucks_form)); ("accountId", JNum (js_Number (tf_accountId starbucks_form)));
                 ("categoryId", JNum (js_Number (tf_categoryId starbucks_form)));
                 ("txnDate", JStr (tf_txnDate starbucks_form ++ "T00:00:00.000Z")); ("currency", JStr "USD")])) /\
  (valid_date "20255-03-01" = true /\ txn_body utc_en_US (with_txnDate "20255-03-01" starbucks_form) = None).
Proof.
  assert (Hv : valid_date (tf_txnDate starbucks_form) = true) by (vm_compute; reflexivity).
  assert (Hl : valid_date (tf_txnDate (with_txnDate "20255-03-01" starbucks_form)) = true) by (vm_compute; reflexivity).
  split; split; [exact Hv| exact (txn_body_date _ starbucks_form Hv) | exact Hl |].
  exact (txn_body_date utc_en_US (with_txnDate "20255-03-01" starbucks_form) Hl).
Defined.

Definition coffee_listed : txn_item :=
  TxnItem 9 "Starbucks" 4.5%float Dashboard.DEBIT "2025-03-01T00:00:00.000Z" (JSStr "Food") (JSStr "Checking").

(** The coffee posted in New York for 1 March 2025 comes back as
    ["2025-03-01T00:00:00.000Z"] and is listed on Feb 28. *)
Lemma posted_date_listed_witness :
  option_map trv_date (txn_row_of (Engine (fixed_zone (-300)) (fun _ => None) en_US) coffee_listed) = Some "Feb 28".
Proof.
  assert (Hv : valid_ymd 2025 3 1) by (unfold valid_ymd; vm_compute; split; split; discriminate).
  rewrite (posted_date_listed (Engine (fixed_zone (-300)) (fun _ => None) en_US) (-300) starbucks_form
             [("merchant", JStr "Starbucks"); ("amount", JNum 4.5%float); ("type", JStr "DEBIT");
              ("accountId", JNum 3%float); ("categoryId", JNum 5%float);
              ("txnDate", JStr "2025-03-01T00:00:00.000Z"); ("currency", JStr "USD")]
             coffee_listed 2025 3 1 eq_refl ltac:(lia) ltac:(lia) Hv ltac:(vm_compute; reflexivity)
             ltac:(vm_compute; reflexivity) ltac:(apply list_elem_of_In; cbn; tauto)).
  vm_compute. reflexivity.
Defined.

(** At 8 pm on 1 March 2025 in New York (1 am on 2 March in UTC) the
    form proposes 2 March. *)
Lemma add_txn_default_date_witness :
  civil_from_days (1740877200000 / msPerDay) = (2025, 3, 2)%Z /\
  local_fields (fixed_zone (-300)) 1740877200000 = (3, 1, 20, 0)%Z /\
  tf_txnDate (at_formData (add_txn_init 1740877200000)) = "2025-03-02" /\
  valid_date (tf_txnDate (at_formData (add_txn_init 1740877200000))) = true.
Proof.
  assert (Hc : civil_from_days (1740877200000 / msPerDay) = (2025, 3, 2)%Z) by (vm_compute; reflexivity).
  destruct (add_txn_default_date 1740877200000 2025 3 2 Hc ltac:(lia)) as [Hd Hv].
  split; [exact Hc|]. split; [vm_compute; reflexivity|]. split; [rewrite Hd; vm_compute; reflexivity|exact Hv].
Defined.
