(* ===== verification/App.v ===== *)
(** * The root layout and the app router ([src/frontend/src/app/layout.tsx])

    [RootLayout] renders every page inside one [AuthProvider], followed
    by the [BottomNav].  The App Router picks the page from the path
    ([src/frontend/src/app/<path>/page.tsx]).  A client-side navigation
    ([router.push] in [login] and [logout], a [Link], the add forms'
    redirects) mounts the page of the new path with its initial state,
    while the layout, and with it the provider and its state, stays
    mounted.  Here a page's state is one of the pages' records, [mount_page]
    is the router's table, [app_navigate] the mount that follows a change
    of path, [page_context] the provider's value every page reads, and
    [root_layout] the layout's render.  The theorems follow a login from
    the login page to the dashboard across that navigation, and compare
    the dashboard and the ingest page in a tab without a session. *)

From S2P Require Import Prelude Js JsDate Storage Async Api Auth AuthPages Ingest Dashboard Lists Forms.
From Stdlib Require Import PrimFloat.

Local Open Scope string_scope.

(** The state of the page mounted under the layout. *)
Inductive page_state :=
| PHome (d : dashboard)
| PLogin (p : form_page)
| PRegister (p : form_page)
| PIngest (p : ingest_page)
| PAccounts (p : list_page acct_item)
| PAddAccount (p : add_account_page)
| PCategories (p : list_page cat_item)
| PAddCategory (p : add_category_page)
| PTransactions (t : txns_page)
| PAddTransaction (p : add_txn_page)
| PNotFound.

(** The App Router's table: the directories of [src/app] that hold a
    [page.tsx], each page in its initial state; [now] is the time value of the
    clock when it mounts, which gives the transaction form its date. *)
Definition mount_page (now : Z) (path : string) : page_state :=
  if String.eqb path "/" then PHome dashboard_init
  else if String.eqb path "/login" then PLogin form_init
  else if String.eqb path "/register" then PRegister form_init
  else if String.eqb path "/ingest" then PIngest ingest_init
  else if String.eqb path "/accounts" then PAccounts list_page_init
  else if String.eqb path "/accounts/add" then PAddAccount add_account_init
  else if String.eqb path "/categories" then PCategories list_page_init
  else if String.eqb path "/categories/add" then PAddCategory add_category_init
  else if String.eqb path "/transactions" then PTransactions txns_init
  else if String.eqb path "/transactions/add" then PAddTransaction (add_txn_init now)
  else PNotFound.

(** The app in a tab: the browser (provider state, [localStorage], the
    router's path), the path the mounted page was mounted for, and the
    page's state. *)
Record app (St : Type) := App {
  app_browser : browser St;
  app_path : string;
  app_page : page_state;
}.
Arguments App {St} app_browser app_path app_page.
Arguments app_browser {St} a.
Arguments app_path {St} a.
Arguments app_page {St} a.

(** After a handler ran: when it changed the path, the page of the new
    path mounts in its initial state; the browser, and the provider's
    state in it, are kept. *)
Definition app_navigate {St} (now : Z) (a : app St) : app St :=
  if String.eqb (b_path (app_browser a)) (app_path a) then a
  else App (app_browser a) (b_path (app_browser a)) (mount_page now (b_path (app_browser a))).

(** What the mounted page renders; a path without a page shows the
    router's 404 page. *)
Inductive page_view :=
| VHome (r : render dash_view)
| VForm (v : form_view)
| VAccounts (r : render (list acct_row * bool))
| VCategories (r : render (list cat_row * bool))
| VTransactions (r : render (list txn_row_view * txns_footer))
| VIngest (r : render (string * ingest_panel))
| VAddAccount (v : form_chrome * account_form)
| VAddCategory (v : form_chrome * string)
| VAddTransaction (v : form_chrome * txn_form * list string * list string)
| VNotFound.

Definition page_view_of {St} (en : engine) (b : browser St) (pg : page_state) : page_view :=
  match pg with
  | PHome d => VHome (dashboard_view en b d)
  | PLogin p => VForm (login_view p)
  | PRegister p => VForm (register_view p)
  | PAccounts p => VAccounts (accounts_view p)
  | PCategories p => VCategories (categories_view p)
  | PTransactions t => VTransactions (transactions_view en t)
  | PIngest p => VIngest (ingest_view en p)
  | PAddAccount p => VAddAccount (add_account_view p)
  | PAddCategory p => VAddCategory (add_category_view p)
  | PAddTransaction p => VAddTransaction (add_txn_view p)
  | PNotFound => VNotFound
  end.

(** [RootLayout]: the page, then [BottomNav] for the current path. *)
Record layout_view := LayoutView { lv_page : page_view; lv_nav : option (list (string * bool)) }.

Definition root_layout {St} (en : engine) (b : browser St) (pg : page_state) : layout_view :=
  LayoutView (page_view_of en b pg) (bottom_nav (b_path b)).

(** Every page is rendered inside [<AuthProvider>]: the context its
    [useAuth()] reads is the provider's value. *)
Definition page_context {St} `{WebStorageLaws St} (b : browser St) : option auth_context :=
  Some (provider_value b).

(** ** A login, across the navigation, to the dashboard *)

Section LoginToDashboard.
Context {St : Type} `{WebStorageLaws St}.

Definition token_response (t : string) : fetch_result login_resp :=
  FResp (Response 200 "OK" (BJson (LoginResp (JSStr t)))).

Lemma get_request_bearer (st : St) endpoint t :
  getItem st TOKEN_KEY = Some t -> t <> "" ->
  req_headers (request_of st endpoint get_options) !! "Authorization" = Some ("Bearer " ++ t).
Proof.
  intros Ht Hne. unfold request_of. simpl. rewrite (left_id ∅ (∪)).
  apply getHeaders_authorization. by exists t.
Qed.

(** C18. A login crosses the navigation to the dashboard with its
    session.  On the login page, mounted with the provider loaded, the
    bottom navigation is hidden and submitting sends the login request.
    When the server answers with token [T1], [login] pushes ["/"], and
    the router mounts the dashboard in its initial state under the same
    provider, with no reload and no new read of [localStorage].  The
    layout then shows the dashboard with total 0 and "Loading...", and
    the bottom navigation with Home active.  The dashboard's data effect
    sends its two requests with [Authorization: Bearer T1] (spec §4.3,
    §4.5). *)
Theorem login_then_dashboard en (b : browser St) (p : form_page) now :
  a_isLoading (b_auth b) = false -> b_path b = "/login" ->
  lv_nav (root_layout en b (PLogin p)) = None /\
  exists k,
    run login_handleSubmit (b, p) =
      ((b, set_loading true (set_error "" p)),
       [pending1 (T := login_resp) (login_request (b_storage b) (fp_email p) (fp_password p)) k]) /\
    forall p',
      let s' := fst (run (k (token_response "T1")) (b, p')) in
      let a' := app_navigate now (App (fst s') "/login" (PLogin (snd s'))) in
      app_page a' = PHome dashboard_init /\
      root_layout en (app_browser a') (app_page a') =
        LayoutView (VHome (RShows (DashView dash_links true 0%float dash_trends ActLoading)))
          (Some [("/", true); ("/transactions", false); ("/transactions/add", false);
                 ("/accounts", false); ("/categories", false)]) /\
      exists r1 r2 k2,
        run data_effect (app_browser a', dashboard_init) = ((app_browser a', dashboard_init), [pending2 (T1 := list account) (T2 := txn_page) r1 r2 k2]) /\
        req_headers r1 !! "Authorization" = Some "Bearer T1" /\
        req_headers r2 !! "Authorization" = Some "Bearer T1".
Proof.
  intros Hl Hp. split; [by unfold root_layout; simpl; rewrite Hp|].
  eexists. split; [reflexivity|]. intros p'. cbn.
  split; [reflexivity|]. split.
  - unfold root_layout, page_view_of, dashboard_view, dashboard_renders. simpl. by rewrite Hl.
  - do 3 eexists. split; [reflexivity|].
    split; apply get_request_bearer; [apply (login_storage_token (JSStr "T1"))|done|apply (login_storage_token (JSStr "T1"))|done].
Qed.
End LoginToDashboard.

(** ** The pages without a session *)

Section NoSession.
Context {St : Type} `{WebStorageLaws St}.

Lemma get_request_no_bearer (st : St) endpoint :
  has_token st = false -> req_headers (request_of st endpoint get_options) !! "Authorization" = None.
Proof.
  intros Ht. unfold request_of. simpl. rewrite (left_id ∅ (∪)).
  destruct (getHeaders st !! "Authorization") as [v|] eqn:E; [|done].
  apply getHeaders_authorization in E as (t & Hg & Hne & _).
  unfold has_token in Ht. rewrite Hg in Ht. apply truthy_JSStr in Hne.
  change (truthy (JSStr t) = false) in Ht. congruence.
Qed.

(** C22. Only the dashboard requires a session.  In a tab opened with no
    session stored, [useAuth] works on every page, since the layout
    provides it.  The dashboard renders nothing and its effect
    navigates to ["/login"].  The ingest page has no such guard.
    Mounted at ["/ingest"], it renders its entry form and the tab
    "Review (0)", the review tab can be opened, and its mount fetch
    sends [GET /api/proposals] without an [Authorization] header.  The spec makes proposal review reachable
    only with a valid session (spec §1, §4.3). *)
Theorem ingest_without_session en (b0 : browser St) now :
  has_token (b_storage b0) = false ->
  let b := reload b0 in
  useAuth (page_context b) = inl (AuthContext (a_user (b_auth b)) (a_token (b_auth b)) false false) /\
  dashboard_view en b dashboard_init = RNull /\
  b_path (fst (redirect_effect (b, dashboard_init))) = "/login" /\
  mount_page now "/ingest" = PIngest ingest_init /\
  page_view_of en b (mount_page now "/ingest") = VIngest (RShows ("Review (0)", PanelEntry "" false true)) /\
  ingest_enabled ingest_init (EvTab TabProposals) = true /\
  exists k,
    run (ingest_handler EvMount) (b, ingest_init) =
      ((b, ingest_init), [pending1 (T := list proposal) (request_of (b_storage b0) "/proposals" get_options) k]) /\
    req_headers (request_of (b_storage b0) "/proposals" get_options) !! "Authorization" = None.
Proof.
  intros Ht b.
  assert (Ha : isAuthenticated b = false) by (unfold b; rewrite reload_isAuthenticated; exact Ht).
  assert (Hl : a_isLoading (b_auth b) = false) by apply reload_not_loading.
  split; [unfold useAuth, page_context, provider_value; by rewrite Ha, Hl|].
  split; [unfold dashboard_view, dashboard_renders; by rewrite Ha, Hl, andb_false_r|].
  split; [unfold redirect_effect; cbn [fst]; by rewrite Ha, Hl|].
  split; [reflexivity|]. split; [vm_compute; reflexivity|]. split; [reflexivity|].
  eexists. split; [reflexivity|]. by apply get_request_no_bearer.
Qed.
End NoSession.

(** ** Witnesses *)

(** A tab opened on the login page with nothing stored. *)
Definition login_tab : browser (gmap string string) := reload (Browser ∅ auth_init "/login").

Lemma login_then_dashboard_witness :
  a_isLoading (b_auth login_tab) = false /\ b_path login_tab = "/login" /\
  lv_nav (root_layout utc_en_US login_tab (PLogin form_init)) = None /\
  exists k,
    run login_handleSubmit (login_tab, form_init) =
      ((login_tab, set_loading true (set_error "" form_init)),
       [pending1 (T := login_resp) (login_request (b_storage login_tab) (fp_email form_init) (fp_password form_init)) k]) /\
    forall p',
      let s' := fst (run (k (token_response "T1")) (login_tab, p')) in
      let a' := app_navigate 1740787200000 (App (fst s') "/login" (PLogin (snd s'))) in
      app_page a' = PHome dashboard_init /\
      root_layout utc_en_US (app_browser a') (app_page a') =
        LayoutView (VHome (RShows (DashView dash_links true 0%float dash_trends ActLoading)))
          (Some [("/", true); ("/transactions", false); ("/transactions/add", false);
                 ("/accounts", false); ("/categories", false)]) /\
      exists r1 r2 k2,
        run data_effect (app_browser a', dashboard_init) = ((app_browser a', dashboard_init), [pending2 (T1 := list account) (T2 := txn_page) r1 r2 k2]) /\
        req_headers r1 !! "Authorization" = Some "Bearer T1" /\
        req_headers r2 !! "Authorization" = Some "Bearer T1".
Proof.
  assert (Hl : a_isLoading (b_auth login_tab) = false) by reflexivity.
  assert (Hp : b_path login_tab = "/login") by reflexivity.
  split; [exact Hl|]. split; [exact Hp|].
  exact (login_then_dashboard utc_en_US login_tab form_init 1740787200000 Hl Hp).
Defined.

Lemma ingest_without_session_witness :
  has_token (b_storage (Browser (∅ : gmap string string) auth_init "/ingest")) = false /\
  dashboard_view utc_en_US (reload (Browser (∅ : gmap string string) auth_init "/ingest")) dashboard_init = RNull.
Proof.
  assert (Ht : has_token (b_storage (Browser (∅ : gmap string string) auth_init "/ingest")) = false) by reflexivity.
  split; [exact Ht|].
  exact (proj1 (proj2 (ingest_without_session utc_en_US (Browser ∅ auth_init "/ingest") 1740787200000 Ht))).
Defined.
